(** * Octane core: the validation-and-signing pipeline

    A shallow embedding of [validateTransaction], [validateInstructions],
    [validateTransfer], [validateAccountInitializationInstructions] and
    [simulateRawTransaction] of [packages/core/src/core], and of the two
    actions [signWithTokenFee] and [createAccountIfTokenFeePaid] of
    [packages/core/src/actions].

    Conventions.
    - A JavaScript [throw] is the left injection of [result]; a mutated object
      (the [Transaction] that [partialSign] signs in place, the shared
      [Cache]) is threaded as explicit state, and the state reached when an
      exception is thrown is kept, because JavaScript rolls nothing back.
    - [@solana/web3.js], [@solana/spl-token] and [bs58] are libraries, and
      so is the hash behind the [sha256] helper: what the code calls of them
      are the fields of the class [Web3].  The RPC node is the record
      [Connection], a parameter as in the source.
    - The logger only writes to the console; its calls are left out of the
      validators.  Its pure helpers [shouldLog] and [formatContext] are
      modelled on their own, in [TransactionLogger].
    - Building the log context is the exception: it compiles the message,
      and compiling replaces signature slots that are not the keys the
      message requires.  [extractTransactionContext] models that step and
      [validateTransferWithContext] is the transfer validator with it.  The
      other definitions leave the step out: they are the code on a
      transaction that the step leaves as it is, one whose slots are the
      keys its message requires or whose message does not compile. *)

From Stdlib Require Import ZArith NArith List Bool.
From stdpp Require Import base gmap strings list pretty.

Local Open Scope string_scope.
Local Open Scope list_scope.
Local Open Scope Z_scope.

(** ** Exceptions and results *)

(** What a [throw] carries: [new Error(message)], or the [TypeError] the
    runtime raises when a property of [undefined] is read. *)
Inductive Exn : Type :=
  | Error (message : string)
  | TypeError.

Definition result (A : Type) : Type := (Exn + A)%type.

Definition ok {A : Type} (a : A) : result A := inr a.
Definition throw {A : Type} (e : Exn) : result A := inl e.

(** State and exception: the state survives a [throw]. *)
Definition M (S A : Type) : Type := S -> result A * S.

Class Monad (m : Type -> Type) : Type := {
  ret : forall {A : Type}, A -> m A;
  bind : forall {A B : Type}, m A -> (A -> m B) -> m B
}.

#[global] Instance result_Monad : Monad result := {|
  ret := fun A a => inr a;
  bind := fun A B r k => match r with inl e => inl e | inr a => k a end
|}.

#[global] Instance M_Monad (S : Type) : Monad (M S) := {|
  ret := fun A a s => (inr a, s);
  bind := fun A B c k s =>
    match c s with
    | (inl e, s') => (inl e, s')
    | (inr a, s') => k a s'
    end
|}.

Declare Scope js_scope.
Delimit Scope js_scope with js.
Notation "x <- c ;; k" := (bind c (fun x => k))
  (at level 100, c at next level, right associativity) : js_scope.
Notation "c ;; k" := (bind c (fun _ => k))
  (at level 100, right associativity) : js_scope.
Local Open Scope js_scope.

Definition pure_ {S A : Type} (r : result A) : M S A := fun s => (r, s).
Definition gets {S A : Type} (f : S -> A) : M S A := fun s => (inr (f s), s).
Definition modify {S : Type} (f : S -> S) : M S unit := fun s => (inr tt, f s).

(** [if (c) throw new Error(message)] *)
Definition throwIf (c : bool) (message : string) : result unit :=
  if c then throw (Error message) else ok tt.

(** ** Data model ([@solana/web3.js] types, as the code reads them) *)

Definition Buffer : Type := list Byte.byte.

(** A [PublicKey] wraps the big number [_bn]; [equals] compares the numbers. *)
Record PublicKey : Type := { bn : N }.

Definition equals (a b : PublicKey) : bool := N.eqb (bn a) (bn b).

(** [a.equals(b)] where [b] may be [undefined]: reading [b._bn] then raises. *)
Definition equalsU (a : PublicKey) (b : option PublicKey) : result bool :=
  match b with
  | Some b => ok (equals a b)
  | None => throw TypeError
  end.

Module Keypair.
Record t : Type := { publicKey : PublicKey; secretKey : Buffer }.
End Keypair.

Record AccountMeta : Type := {
  pubkey : PublicKey;
  isSigner : bool;
  isWritable : bool
}.

Record TransactionInstruction : Type := {
  keys : list AccountMeta;
  programId : PublicKey;
  data : Buffer
}.

(** [SignaturePubkeyPair]: [signature] is [Buffer | null]; the code also tests
    [publicKey] for absence, so it is optional here. *)
Record SignaturePubkeyPair : Type := {
  signature : option Buffer;
  publicKey : option PublicKey
}.

Module Transaction.
Record t : Type := {
  signatures : list SignaturePubkeyPair;
  feePayer : option PublicKey;
  instructions : list TransactionInstruction;
  recentBlockhash : option string
}.
End Transaction.

(** Truthiness of a [string | undefined]: absent and empty are both falsy. *)
Definition truthyString (s : option string) : bool :=
  match s with
  | Some (String _ _) => true
  | _ => false
  end.

(** ** Instruction security: [validateInstructions] *)

(** The inner loop, [for (const key of instruction.keys)]. *)
Fixpoint validateKeys (feePayer : Keypair.t) (keys : list AccountMeta) : result unit :=
  match keys with
  | [] => ok tt
  | key :: rest =>
      throwIf ((isWritable key || isSigner key) && equals (pubkey key) (Keypair.publicKey feePayer))
              "invalid account" ;;
      validateKeys feePayer rest
  end.

(** The outer loop, [for (let i = 0; i < transaction.instructions.length; i++)]. *)
Fixpoint validateInstructionList (feePayer : Keypair.t) (ixs : list TransactionInstruction)
  : result unit :=
  match ixs with
  | [] => ok tt
  | instruction :: rest =>
      validateKeys feePayer (keys instruction) ;;
      validateInstructionList feePayer rest
  end.

Definition validateInstructions (transaction : Transaction.t) (feePayer : Keypair.t)
  : result unit :=
  validateInstructionList feePayer (Transaction.instructions transaction).

(** The custody key is handed to an instruction as writable or as a signer. *)
Definition exposes (feePayer : Keypair.t) (key : AccountMeta) : Prop :=
  (isWritable key = true \/ isSigner key = true)
  /\ pubkey key = Keypair.publicKey feePayer.

(** ** Decoded token instructions, token accounts, the allow-list *)

(** [DecodedTransferInstruction | DecodedTransferCheckedInstruction]: both
    carry [keys.{source, destination, owner}] and [data.amount] (a u64
    [bigint]); the checked form adds [keys.mint] and [data.decimals]. *)
Module Transfer.
Record t : Type := {
  source : AccountMeta;
  destination : AccountMeta;
  owner : AccountMeta;
  amount : Z;
  checked : option (AccountMeta * Z)
}.
End Transfer.

(** What [decodeInstruction] returns: a transfer (for which
    [isTransferInstruction] or [isTransferCheckedInstruction] holds) or any
    other token instruction. *)
Inductive DecodedInstruction : Type :=
  | DecodedTransfer (instruction : Transfer.t)
  | DecodedOther.

(** The spl-token [Account] that [getAccount] returns (the fields read). *)
Module Account.
Record t : Type := {
  owner : PublicKey;
  isFrozen : bool;
  amount : Z;
  mint : PublicKey
}.
End Account.

(** Modelled from the spec: the class [TokenFee] of [./tokenFee], which is not
    among the sources: "asset mint, destination custody account, required fee
    amount, decimal precision". *)
Module TokenFee.
Record t : Type := {
  mint : PublicKey;
  account : PublicKey;
  decimals : Z;
  fee : Z
}.
End TokenFee.

Record AccountInfo : Type := { lamports : Z; executable : bool }.

Record SimulatedTransactionResponse : Type := {
  err : option string;
  unitsConsumed : option Z
}.

(** The RPC node, as the three calls the core makes on it. *)
Record Connection : Type := {
  getAccount : PublicKey -> result Account.t;
  getAccountInfo : PublicKey -> result (option AccountInfo);
  simulateTransaction : Transaction.t -> result SimulatedTransactionResponse
}.

(** ** The libraries *)

Class Web3 : Type := {
  (** [transaction.serializeMessage()], the signing payload *)
  serializeMessage : Transaction.t -> result Buffer;
  (** the [sha256] helper of [../core] and [base58.encode] *)
  sha256 : Buffer -> Buffer;
  base58_encode : Buffer -> string;
  (** [publicKey.toBase58()], which is also [publicKey.toString()] *)
  toBase58 : PublicKey -> string;
  (** [transaction.partialSign(signer)] signs in place *)
  partialSign : Keypair.t -> M Transaction.t unit;
  (** [transaction.serialize({ requireAllSignatures })] *)
  serialize : bool -> Transaction.t -> result Buffer;
  Transaction_from : Buffer -> result Transaction.t;
  TOKEN_PROGRAM_ID : PublicKey;
  ASSOCIATED_TOKEN_PROGRAM_ID : PublicKey;
  decodeInstruction : TransactionInstruction -> result DecodedInstruction;
  (** [getAssociatedTokenAddress(mint, owner)] *)
  getAssociatedTokenAddress : PublicKey -> PublicKey -> result PublicKey;
  (** [createAssociatedTokenAccountInstruction(payer, associatedToken, owner, mint)] *)
  createAssociatedTokenAccountInstruction :
    PublicKey -> PublicKey -> PublicKey -> PublicKey -> TransactionInstruction
}.

(** ** The cache *)

(** The values the core stores: the marker [true] and [Date.now()] readings. *)
Inductive Value : Type :=
  | VBool (b : bool)
  | VNum (n : Z).

(** Truthiness of what [cache.get] returns ([undefined] when absent). *)
Definition truthy (v : option Value) : bool :=
  match v with
  | Some (VBool b) => b
  | Some (VNum n) => negb (n =? 0)
  | None => false
  end.

(** [ToNumber], as the subtraction [Date.now() - lastSignature] applies it. *)
Definition toNumber (v : Value) : Z :=
  match v with
  | VBool true => 1
  | VBool false => 0
  | VNum n => n
  end.

Abbreviation Cache := (gmap string Value).

Definition cache_get (key : string) : M Cache (option Value) :=
  gets (fun cache => cache !! key).
Definition cache_set (key : string) (value : Value) : M Cache unit :=
  modify (fun cache => <[key := value]> cache).

(** What the orchestrators act on: the transaction object they were handed,
    the shared cache, and the readings [Date.now()] is still to return. *)
Module World.
Record t : Type := {
  transaction : Transaction.t;
  cache : Cache;
  clock : nat -> Z
}.

Definition withTransaction (transaction' : Transaction.t) (w : t) : t :=
  {| transaction := transaction'; cache := cache w; clock := clock w |}.
Definition withCache (cache' : Cache) (w : t) : t :=
  {| transaction := transaction w; cache := cache'; clock := clock w |}.
(** One reading of the clock has been consumed. *)
Definition tick (w : t) : t :=
  {| transaction := transaction w; cache := cache w;
     clock := fun n => clock w (S n) |}.
End World.

Definition Date_now : M World.t Z :=
  fun w => (inr (World.clock w 0%nat), World.tick w).

(** Run a computation on the transaction object, or on the cache. *)
Definition onTransaction {A : Type} (c : M Transaction.t A) : M World.t A :=
  fun w =>
    let (r, transaction') := c (World.transaction w) in
    (r, World.withTransaction transaction' w).
Definition onCache {A : Type} (c : M Cache A) : M World.t A :=
  fun w =>
    let (r, cache') := c (World.cache w) in
    (r, World.withCache cache' w).

(** Truthiness of an object reference or [undefined] / [null]. *)
Definition truthyObject {A : Type} (o : option A) : bool :=
  match o with
  | Some _ => true
  | None => false
  end.

(** Reading a property of [o]: a [TypeError] when [o] is [undefined]. *)
Definition deref {A : Type} (o : option A) : result A :=
  match o with
  | Some a => ok a
  | None => throw TypeError
  end.

(** How a template literal prints a [string | undefined]. *)
Definition templateString (s : option string) : string :=
  match s with
  | Some s => s
  | None => "undefined"
  end.

(** Modelled from the spec: [areInstructionsEqual] of [./instructions], which
    is not among the sources: the two instructions are equal "in program id,
    account list (including role flags and order), and data". *)
Fixpoint listEqual {A : Type} (eq : A -> A -> bool) (l1 l2 : list A) : bool :=
  match l1, l2 with
  | [], [] => true
  | a :: l1, b :: l2 => eq a b && listEqual eq l1 l2
  | _, _ => false
  end.

Definition accountMetaEqual (a b : AccountMeta) : bool :=
  equals (pubkey a) (pubkey b)
  && Bool.eqb (isSigner a) (isSigner b)
  && Bool.eqb (isWritable a) (isWritable b).

Definition areInstructionsEqual (a b : TransactionInstruction) : bool :=
  equals (programId a) (programId b)
  && listEqual accountMetaEqual (keys a) (keys b)
  && listEqual Byte.eqb (data a) (data b).

(** ** The validators *)

Section Pipeline.
Context `{Web3}.

(** *** [validateTransaction] *)

(** [for (const signature of secondary)] *)
Fixpoint validateSecondary (secondary : list SignaturePubkeyPair) : result unit :=
  match secondary with
  | [] => ok tt
  | slot :: rest =>
      throwIf (negb (truthyObject (publicKey slot))) "missing public key" ;;
      throwIf (negb (truthyObject (signature slot))) "missing signature" ;;
      validateSecondary rest
  end.

(** The checks, up to the end of the loop over the secondary slots.  The
    commented-out fee check of the source is absent here as it is there. *)
Definition validateTransactionChecks (transaction : Transaction.t) (feePayer : Keypair.t)
    (maxSignatures : Z) : result unit :=
  throwIf (negb match Transaction.feePayer transaction with
                | Some payer => equals payer (Keypair.publicKey feePayer)
                | None => false
                end)
          "invalid fee payer" ;;
  throwIf (negb (truthyString (Transaction.recentBlockhash transaction)))
          "missing recent blockhash" ;;
  throwIf (Z.of_nat (length (Transaction.signatures transaction)) =? 0) "no signatures" ;;
  throwIf (maxSignatures <? Z.of_nat (length (Transaction.signatures transaction)))
          "too many signatures" ;;
  primary <- deref (head (Transaction.signatures transaction)) ;;
  let secondary := tail (Transaction.signatures transaction) in
  primaryKey <- deref (publicKey primary) ;;
  throwIf (negb (equals primaryKey (Keypair.publicKey feePayer))) "invalid fee payer pubkey" ;;
  throwIf (truthyObject (signature primary)) "invalid fee payer signature" ;;
  validateSecondary secondary.

(** The getter [transaction.signature]. *)
Definition Transaction_signature (transaction : Transaction.t) : option Buffer :=
  match Transaction.signatures transaction with
  | slot :: _ => signature slot
  | [] => None
  end.

Definition validateTransaction (connection : Connection) (feePayer : Keypair.t)
    (maxSignatures lamportsPerSignature : Z) : M Transaction.t (string * Buffer) :=
  transaction <- gets id ;;
  pure_ (validateTransactionChecks transaction feePayer maxSignatures) ;;
  partialSign feePayer ;;
  transaction <- gets id ;;
  rawTransaction <- pure_ (serialize true transaction) ;;
  primarySignature <- pure_ (deref (Transaction_signature transaction)) ;;
  ret (base58_encode primarySignature, rawTransaction).

(** *** [validateTransfer]

    The checks, from the search for the token instruction on, reading the
    transaction as the log context of the first line has left it; the first
    line itself is in [validateTransferWithContext]. *)

(** From [decodeInstruction] to the end, for the instruction found. *)
Definition validateTokenInstruction (connection : Connection)
    (transaction : Transaction.t) (allowedTokens : list TokenFee.t)
    (tokenInstruction : TransactionInstruction) : result Transfer.t :=
  decoded <- decodeInstruction tokenInstruction ;;
  match decoded with
  | DecodedOther => throw (Error "invalid instruction")
  | DecodedTransfer instruction =>
      let source := Transfer.source instruction in
      let destination := Transfer.destination instruction in
      let owner := Transfer.owner instruction in
      let amount := Transfer.amount instruction in
      account <- getAccount connection (pubkey source) ;;
      throwIf (negb (equals (Account.owner account) (pubkey owner))) "source invalid owner" ;;
      throwIf (Account.isFrozen account) "source frozen" ;;
      throwIf (Account.amount account <? amount) "source insufficient balance" ;;
      match List.find (fun token => equals (TokenFee.mint token) (Account.mint account))
                      allowedTokens with
      | None => throw (Error "invalid token")
      | Some token =>
          throwIf (amount <? TokenFee.fee token) "invalid amount" ;;
          throwIf (isSigner source) "source is signer" ;;
          throwIf (negb (equals (pubkey destination) (TokenFee.account token)))
                  "invalid destination" ;;
          throwIf (negb (isWritable destination)) "destination not writable" ;;
          throwIf (isSigner destination) "destination is signer" ;;
          second <- deref (Transaction.signatures transaction !! 1%nat) ;;
          signed <- equalsU (pubkey owner) (publicKey second) ;;
          throwIf (negb signed) "owner missing signature" ;;
          throwIf (isWritable owner) "owner is writable" ;;
          throwIf (negb (isSigner owner)) "owner not signer" ;;
          match Transfer.checked instruction with
          | Some (mint, decimals) =>
              throwIf (negb (decimals =? TokenFee.decimals token)) "invalid decimals" ;;
              throwIf (negb (equals (pubkey mint) (TokenFee.mint token))) "invalid mint" ;;
              throwIf (isWritable mint) "mint is writable" ;;
              throwIf (isSigner mint) "mint is signer"
          | None => ok tt
          end ;;
          ok instruction
      end
  end.

Definition validateTransfer (connection : Connection) (transaction : Transaction.t)
    (allowedTokens : list TokenFee.t) : result Transfer.t :=
  match List.find (fun ix => equals (programId ix) TOKEN_PROGRAM_ID)
                  (Transaction.instructions transaction) with
  | None => throw (Error "missing token instruction")
  | Some tokenInstruction =>
      validateTokenInstruction connection transaction allowedTokens tokenInstruction
  end.

(** *** [validateAccountInitializationInstructions] *)

Definition accountCacheKey (transaction : Transaction.t) (associatedToken : PublicKey)
  : string :=
  "account/" +:+ templateString (Transaction.recentBlockhash transaction)
    +:+ "_" +:+ toBase58 associatedToken.

Definition validateAccountInitializationInstructions (connection : Connection)
    (originalTransaction : Transaction.t) (feePayer : Keypair.t) : M Cache unit :=
  serialized <- pure_ (serialize false originalTransaction) ;;
  transaction <- pure_ (Transaction_from serialized) ;;
  pure_ (throwIf (negb (length (Transaction.instructions transaction) =? 2)%nat)
           "transaction should contain 2 instructions: fee payment, account init") ;;
  instruction <- pure_ (deref (Transaction.instructions transaction !! 1%nat)) ;;
  pure_ (throwIf (negb (equals (programId instruction) ASSOCIATED_TOKEN_PROGRAM_ID))
           "account instruction should call associated token program") ;;
  mintMeta <- pure_ (deref (keys instruction !! 3%nat)) ;;
  ownerMeta <- pure_ (deref (keys instruction !! 2%nat)) ;;
  associatedToken <- pure_ (getAssociatedTokenAddress (pubkey mintMeta) (pubkey ownerMeta)) ;;
  accountInfo <- pure_ (getAccountInfo connection associatedToken) ;;
  pure_ (throwIf (truthyObject accountInfo) "account already exists") ;;
  let referenceInstruction :=
    createAssociatedTokenAccountInstruction
      (Keypair.publicKey feePayer) associatedToken (pubkey ownerMeta) (pubkey mintMeta) in
  pure_ (throwIf (negb (areInstructionsEqual referenceInstruction instruction))
           "unable to match associated account instruction") ;;
  let cacheKey := accountCacheKey transaction associatedToken in
  seen <- cache_get cacheKey ;;
  pure_ (throwIf (truthy seen) "duplicate account within same recent blockhash") ;;
  cache_set cacheKey (VBool true).

(** *** [simulateRawTransaction] *)

Definition simulateRawTransaction (connection : Connection) (rawTransaction : Buffer)
  : result SimulatedTransactionResponse :=
  transaction <- Transaction_from rawTransaction ;;
  simulated <- simulateTransaction connection transaction ;;
  throwIf (truthyString (err simulated)) "Simulation error" ;;
  ok simulated.

(** ** The orchestrators *)

(** [`transaction/${base58.encode(sha256(message))}`] *)
Definition transactionKey (message : Buffer) : string :=
  "transaction/" +:+ base58_encode (sha256 message).

(** [`${family}/lastSignature/${source.toBase58()}`], where [family] is
    [transfer] or [createAccount]. *)
Definition lastSignatureKey (family : string) (source : PublicKey) : string :=
  family +:+ "/lastSignature/" +:+ toBase58 source.

(** The stage [DUPLICATE_CHECK], the same lines in both actions. *)
Definition duplicateCheck : M World.t unit :=
  transaction <- gets World.transaction ;;
  message <- pure_ (serializeMessage transaction) ;;
  let key := transactionKey message in
  seen <- onCache (cache_get key) ;;
  pure_ (throwIf (truthy seen) "duplicate transaction") ;;
  onCache (cache_set key (VBool true)).

(** The stage [SOURCE_LOCKOUT_CHECK], the same lines in both actions up to
    the key's family.  [Date.now()] is read only if [lastSignature] is
    truthy, and once more for the value stored. *)
Definition sourceLockout (family : string) (transfer : Transfer.t)
    (sameSourceTimeout : Z) : M World.t unit :=
  let key := lastSignatureKey family (pubkey (Transfer.source transfer)) in
  lastSignature <- onCache (cache_get key) ;;
  locked <- match lastSignature with
            | Some value =>
                if truthy lastSignature
                then now <- Date_now ;; ret (now - toNumber value <? sameSourceTimeout)
                else ret false
            | None => ret false
            end ;;
  pure_ (throwIf locked "duplicate transfer") ;;
  now <- Date_now ;;
  onCache (cache_set key (VNum now)).

(** The default of the parameter [sameSourceTimeout = 5000]. *)
Definition sameSourceTimeoutOr (sameSourceTimeout : option Z) : Z :=
  default 5000 sameSourceTimeout.

Definition signWithTokenFee (connection : Connection) (feePayer : Keypair.t)
    (maxSignatures lamportsPerSignature : Z) (allowedTokens : list TokenFee.t)
    (sameSourceTimeout : option Z) : M World.t string :=
  duplicateCheck ;;
  signed <- onTransaction
              (validateTransaction connection feePayer maxSignatures lamportsPerSignature) ;;
  transaction <- gets World.transaction ;;
  pure_ (validateInstructions transaction feePayer) ;;
  transfer <- pure_ (validateTransfer connection transaction allowedTokens) ;;
  sourceLockout "transfer" transfer (sameSourceTimeoutOr sameSourceTimeout) ;;
  pure_ (simulateRawTransaction connection (snd signed)) ;;
  ret (fst signed).

Definition createAccountIfTokenFeePaid (connection : Connection) (feePayer : Keypair.t)
    (maxSignatures lamportsPerSignature : Z) (allowedTokens : list TokenFee.t)
    (sameSourceTimeout : option Z) : M World.t string :=
  duplicateCheck ;;
  signed <- onTransaction
              (validateTransaction connection feePayer maxSignatures lamportsPerSignature) ;;
  transaction <- gets World.transaction ;;
  onCache (validateAccountInitializationInstructions connection transaction feePayer) ;;
  transfer <- pure_ (validateTransfer connection transaction allowedTokens) ;;
  sourceLockout "createAccount" transfer (sameSourceTimeoutOr sameSourceTimeout) ;;
  pure_ (simulateRawTransaction connection (snd signed)) ;;
  ret (fst signed).

End Pipeline.

(** ** The envelope checks in the words of the specification *)

#[global] Instance PublicKey_eq_dec : EqDecision PublicKey.
Proof. solve_decision. Defined.

(** "a recent blockhash is present" *)
Definition blockhashPresent (transaction : Transaction.t) : Prop :=
  Transaction.recentBlockhash transaction <> None
  /\ Transaction.recentBlockhash transaction <> Some EmptyString.

(** Check (5) on the remaining slots: the first slot that lacks its public
    key or its signature bytes names the error. *)
Fixpoint secondaryViolation (secondary : list SignaturePubkeyPair) : option string :=
  match secondary with
  | [] => None
  | slot :: rest =>
      if decide (is_Some (publicKey slot)) then
        if decide (is_Some (signature slot)) then secondaryViolation rest
        else Some "missing signature"
      else Some "missing public key"
  end.

(** Checks (1) to (5) in the stated order: the error of the first one that
    fails, [None] when all pass. *)
Definition envelopeViolation (transaction : Transaction.t) (custody : PublicKey)
    (maxSignatures : Z) : option string :=
  if decide (Transaction.feePayer transaction = Some custody) then
    if decide (blockhashPresent transaction) then
      match Transaction.signatures transaction with
      | [] => Some "no signatures"
      | primary :: secondary =>
          if decide (Z.of_nat (length (primary :: secondary)) <= maxSignatures) then
            if decide (publicKey primary = Some custody) then
              if decide (is_Some (signature primary))
              then Some "invalid fee payer signature"
              else secondaryViolation secondary
            else Some "invalid fee payer pubkey"
          else Some "too many signatures"
      end
    else Some "missing recent blockhash"
  else Some "invalid fee payer".

Definition envelopeErrors : list string :=
  [ "invalid fee payer"; "missing recent blockhash"; "no signatures";
    "too many signatures"; "invalid fee payer pubkey"; "invalid fee payer signature";
    "missing public key"; "missing signature" ].

(** ** How far a transfer gets *)

Section Reach.
Context `{Web3}.

(** Steps 1 to 4 of the transfer validator pass: [tokenInstruction] is the
    instruction found, it decodes to the transfer [instruction], the source
    account is there with the claimed owner, not frozen and with the funds,
    and [token] is the allow-list entry matched on its mint. *)
Definition reachesFeeCheck (connection : Connection) (transaction : Transaction.t)
    (allowedTokens : list TokenFee.t) (tokenInstruction : TransactionInstruction)
    (instruction : Transfer.t) (token : TokenFee.t) : Prop :=
  List.find (fun ix => equals (programId ix) TOKEN_PROGRAM_ID)
            (Transaction.instructions transaction) = Some tokenInstruction
  /\ decodeInstruction tokenInstruction = ok (DecodedTransfer instruction)
  /\ exists account : Account.t,
      getAccount connection (pubkey (Transfer.source instruction)) = ok account
      /\ Account.owner account = pubkey (Transfer.owner instruction)
      /\ Account.isFrozen account = false
      /\ Transfer.amount instruction <= Account.amount account
      /\ List.find (fun token => equals (TokenFee.mint token) (Account.mint account))
                   allowedTokens = Some token.

(** Steps 5 to 7 pass as well: the fee is paid, the source is no signer,
    the destination is the custody account, writable and no signer. *)
Definition reachesOwnerCheck (connection : Connection) (transaction : Transaction.t)
    (allowedTokens : list TokenFee.t) (tokenInstruction : TransactionInstruction)
    (instruction : Transfer.t) (token : TokenFee.t) : Prop :=
  reachesFeeCheck connection transaction allowedTokens tokenInstruction instruction token
  /\ TokenFee.fee token <= Transfer.amount instruction
  /\ isSigner (Transfer.source instruction) = false
  /\ pubkey (Transfer.destination instruction) = TokenFee.account token
  /\ isWritable (Transfer.destination instruction) = true
  /\ isSigner (Transfer.destination instruction) = false.

(** The account-initialization validator gets as far as asking the node
    for the associated token account: the transaction round-trips through
    its wire form to [transaction], which has two instructions, the second
    being [instruction], of the associated token program, with owner and
    mint as its third and fourth accounts and [associatedToken] derived
    from them. *)
Definition reachesExistenceCheck (originalTransaction transaction : Transaction.t)
    (instruction : TransactionInstruction) (ownerMeta mintMeta : AccountMeta)
    (associatedToken : PublicKey) : Prop :=
  (exists serialized : Buffer,
      serialize false originalTransaction = ok serialized
      /\ Transaction_from serialized = ok transaction)
  /\ length (Transaction.instructions transaction) = 2%nat
  /\ Transaction.instructions transaction !! 1%nat = Some instruction
  /\ programId instruction = ASSOCIATED_TOKEN_PROGRAM_ID
  /\ keys instruction !! 2%nat = Some ownerMeta
  /\ keys instruction !! 3%nat = Some mintMeta
  /\ getAssociatedTokenAddress (pubkey mintMeta) (pubkey ownerMeta) = ok associatedToken.

(** [signWithTokenFee], started in [w0], has come through its stages before
    the lockout, which leave the world [w2], the signed transaction [signed]
    and the validated [transfer]. *)
Definition signReachesLockout (connection : Connection) (feePayer : Keypair.t)
    (maxSignatures lamportsPerSignature : Z) (allowedTokens : list TokenFee.t)
    (w0 w2 : World.t) (signed : string * Buffer) (transfer : Transfer.t) : Prop :=
  exists w1 : World.t,
    duplicateCheck w0 = (ok tt, w1)
    /\ onTransaction (validateTransaction connection feePayer maxSignatures
                                          lamportsPerSignature) w1 = (ok signed, w2)
    /\ validateInstructions (World.transaction w2) feePayer = ok tt
    /\ validateTransfer connection (World.transaction w2) allowedTokens = ok transfer.

(** The same for [createAccountIfTokenFeePaid], whose stages before the
    lockout leave the world [w3]. *)
Definition createAccountReachesLockout (connection : Connection) (feePayer : Keypair.t)
    (maxSignatures lamportsPerSignature : Z) (allowedTokens : list TokenFee.t)
    (w0 w3 : World.t) (signed : string * Buffer) (transfer : Transfer.t) : Prop :=
  exists w1 w2 : World.t,
    duplicateCheck w0 = (ok tt, w1)
    /\ onTransaction (validateTransaction connection feePayer maxSignatures
                                          lamportsPerSignature) w1 = (ok signed, w2)
    /\ onCache (validateAccountInitializationInstructions
                  connection (World.transaction w2) feePayer) w2 = (ok tt, w3)
    /\ validateTransfer connection (World.transaction w2) allowedTokens = ok transfer.

(** In [w] the cache holds, under the key of [transfer]'s source, a
    timestamp that the clock is less than [sameSourceTimeout] past.  The
    timestamp is a reading of [Date.now()], hence not 0. *)
Definition inCooldown (family : string) (transfer : Transfer.t) (sameSourceTimeout : Z)
    (w : World.t) : Prop :=
  exists lastSignature : Z,
    World.cache w !! lastSignatureKey family (pubkey (Transfer.source transfer))
      = Some (VNum lastSignature)
    /\ lastSignature <> 0
    /\ World.clock w 0%nat - lastSignature < sameSourceTimeout.

(** Either orchestrator, on any arguments. *)
Definition orchestrator (action : M World.t string) : Prop :=
  exists (connection : Connection) (feePayer : Keypair.t)
         (maxSignatures lamportsPerSignature : Z) (allowedTokens : list TokenFee.t)
         (sameSourceTimeout : option Z),
    action = signWithTokenFee connection feePayer maxSignatures lamportsPerSignature
                              allowedTokens sameSourceTimeout
    \/ action = createAccountIfTokenFeePaid connection feePayer maxSignatures
                                             lamportsPerSignature allowedTokens
                                             sameSourceTimeout.

(** A computation keeps the mark under [key]: if the cache holds [true]
    there before, it does so after, whatever the result. *)
Definition keepsMark {A : Type} (key : string) (c : M World.t A) : Prop :=
  forall w : World.t,
    World.cache w !! key = Some (VBool true) ->
    World.cache (snd (c w)) !! key = Some (VBool true).

End Reach.

(** ** What acceptance means *)

Section Acceptance.
Context `{Web3}.

(** The envelope [validateTransaction] lets through: the declared fee payer
    is the custody key, a blockhash is there, the slots are at most
    [maxSignatures], slot 0 is the custody key's and still empty, every
    other slot has its key and its signature. *)
Definition validEnvelope (transaction : Transaction.t) (feePayer : Keypair.t)
    (maxSignatures : Z) : Prop :=
  Transaction.feePayer transaction = Some (Keypair.publicKey feePayer)
  /\ blockhashPresent transaction
  /\ exists (primary : SignaturePubkeyPair) (secondary : list SignaturePubkeyPair),
      Transaction.signatures transaction = primary :: secondary
      /\ Z.of_nat (length (Transaction.signatures transaction)) <= maxSignatures
      /\ publicKey primary = Some (Keypair.publicKey feePayer)
      /\ signature primary = None
      /\ Forall (fun slot => is_Some (publicKey slot) /\ is_Some (signature slot))
                secondary.

(** The transfer [validateTransfer] lets through: steps 1 to 7 pass, the
    second signature slot carries the owner's key, the owner is a signer and
    not writable, and for the checked form the decimals and the mint are the
    allow-listed ones, the mint being neither writable nor a signer. *)
Definition acceptedTransfer (connection : Connection) (transaction : Transaction.t)
    (allowedTokens : list TokenFee.t) (instruction : Transfer.t) : Prop :=
  exists (tokenInstruction : TransactionInstruction) (token : TokenFee.t)
         (second : SignaturePubkeyPair),
    reachesOwnerCheck connection transaction allowedTokens tokenInstruction
                      instruction token
    /\ Transaction.signatures transaction !! 1%nat = Some second
    /\ publicKey second = Some (pubkey (Transfer.owner instruction))
    /\ isWritable (Transfer.owner instruction) = false
    /\ isSigner (Transfer.owner instruction) = true
    /\ match Transfer.checked instruction with
       | Some (mint, decimals) =>
           decimals = TokenFee.decimals token
           /\ pubkey mint = TokenFee.mint token
           /\ isWritable mint = false
           /\ isSigner mint = false
       | None => True
       end.

(** A computation writes the cache only under keys that satisfy [family]. *)
Definition writesOnly {A : Type} (family : string -> Prop) (c : M World.t A) : Prop :=
  forall (w : World.t) (key : string),
    ~ family key ->
    World.cache (snd (c w)) !! key = World.cache w !! key.

(** The keys of the three families. *)
Definition isTransactionKey (key : string) : Prop :=
  exists message : Buffer, key = transactionKey message.
Definition isLastSignatureKey (family key : string) : Prop :=
  exists source : PublicKey, key = lastSignatureKey family source.
Definition isAccountKey (key : string) : Prop :=
  exists (transaction : Transaction.t) (associatedToken : PublicKey),
    key = accountCacheKey transaction associatedToken.

End Acceptance.

(** ** The logger's pure parts: [TransactionLogger] *)

Module TransactionContext.
Record t : Type := {
  txId : option string;
  signature : option string;
  feePayer : option string;
  instructionCount : option nat;
  blockhash : option string;
  source : option string;
  destination : option string;
  amount : option string;
  token : option string;
  computeUnitsConsumed : option string;
  associatedToken : option string;
  owner : option string
}.
End TransactionContext.

Module TransactionLogger.

(** [Array.prototype.indexOf]: the first index of [x], or -1. *)
Fixpoint indexOfFrom (x : string) (l : list string) (i : Z) : Z :=
  match l with
  | [] => -1
  | y :: rest => if String.eqb y x then i else indexOfFrom x rest (i + 1)
  end.
Definition indexOf (x : string) (l : list string) : Z := indexOfFrom x l 0.

Definition levels : list string := ["debug"; "info"; "warn"; "error"].

(** [shouldLog(level)], for a logger whose threshold is [logLevel]. *)
Definition shouldLog (logLevel level : string) : bool :=
  indexOf logLevel levels <=? indexOf level levels.

(** [value.slice(0, 8)] *)
Definition slice8 (value : string) : string := String.substring 0 8 value.

(** [if (value) parts.push(`${label}${value.slice(0, 8)}...`)] *)
Definition shortPart (label : string) (value : option string) : list string :=
  match value with
  | Some text => if truthyString value then [label +:+ slice8 text +:+ "..."] else []
  | None => []
  end.

(** [if (value) parts.push(`${label}${value}`)] *)
Definition plainPart (label : string) (value : option string) : list string :=
  match value with
  | Some text => if truthyString value then [label +:+ text] else []
  | None => []
  end.

(** The same for the number [instructionCount], falsy when 0. *)
Definition countPart (label : string) (value : option nat) : list string :=
  match value with
  | Some (S n) => [label +:+ pretty (S n)]
  | _ => []
  end.

Definition contextParts (context : TransactionContext.t) : list string :=
  shortPart "txId=" (TransactionContext.txId context)
  ++ shortPart "sig=" (TransactionContext.signature context)
  ++ shortPart "feePayer=" (TransactionContext.feePayer context)
  ++ countPart "instructions=" (TransactionContext.instructionCount context)
  ++ shortPart "blockhash=" (TransactionContext.blockhash context)
  ++ shortPart "source=" (TransactionContext.source context)
  ++ shortPart "dest=" (TransactionContext.destination context)
  ++ plainPart "amount=" (TransactionContext.amount context)
  ++ shortPart "token=" (TransactionContext.token context)
  ++ plainPart "computeUnits=" (TransactionContext.computeUnitsConsumed context)
  ++ shortPart "associatedToken=" (TransactionContext.associatedToken context)
  ++ shortPart "owner=" (TransactionContext.owner context).

Definition formatContext (context : TransactionContext.t) : string :=
  match contextParts context with
  | [] => EmptyString
  | parts => "[" +:+ String.concat ", " parts +:+ "]"
  end.

(** No field of the context is truthy. *)
Definition blank (context : TransactionContext.t) : Prop :=
  truthyString (TransactionContext.txId context) = false
  /\ truthyString (TransactionContext.signature context) = false
  /\ truthyString (TransactionContext.feePayer context) = false
  /\ (TransactionContext.instructionCount context = None
      \/ TransactionContext.instructionCount context = Some 0%nat)
  /\ truthyString (TransactionContext.blockhash context) = false
  /\ truthyString (TransactionContext.source context) = false
  /\ truthyString (TransactionContext.destination context) = false
  /\ truthyString (TransactionContext.amount context) = false
  /\ truthyString (TransactionContext.token context) = false
  /\ truthyString (TransactionContext.computeUnitsConsumed context) = false
  /\ truthyString (TransactionContext.associatedToken context) = false
  /\ truthyString (TransactionContext.owner context) = false.

End TransactionLogger.

(** ** The log context, and what building it does to the transaction

    [validateTransfer] begins, as every validator and both actions do, with
    [TransactionLogger.extractTransactionContext(transaction)], which calls
    [transaction.serializeMessage()] for the [txId] and ignores what that
    throws.  In [@solana/web3.js], [serializeMessage()] is
    [this._compile().serialize()], and [_compile()] assigns
    [this.signatures]: unless the slots are, one for one, the keys that the
    compiled message requires signatures of, they are replaced by one empty
    slot for each of these keys.  A transaction whose slots are these keys
    already is left as it is, and so is one whose message does not compile.

    The definitions above leave this step out, and read the transaction
    as it is after it; [validateTransferWithContext] is [validateTransfer]
    with the step itself, on a transaction of any shape. *)

(** [compileMessage()], for the keys that must sign,
    [message.accountKeys.slice(0, message.header.numRequiredSignatures)];
    it throws when the transaction has no blockhash or no fee payer, or
    when a slot names a key the message does not know. *)
Class MessageCompiler : Type := {
  signedKeys : Transaction.t -> result (list PublicKey)
}.

Section LogContext.
Context `{Web3} `{MessageCompiler}.

(** [this.signatures.every((pair, index) => signedKeys[index].equals(pair.publicKey))] *)
Fixpoint everyEquals (signedKeys : list PublicKey) (slots : list SignaturePubkeyPair)
  : result bool :=
  match slots with
  | [] => ok true
  | slot :: rest =>
      key <- deref (head signedKeys) ;;
      same <- equalsU key (publicKey slot) ;;
      if same then everyEquals (tail signedKeys) rest else ok false
  end.

(** [{ signature: null, publicKey }] *)
Definition emptySlot (key : PublicKey) : SignaturePubkeyPair :=
  {| signature := None; publicKey := Some key |}.

(** [_compile()], for the transaction it leaves.  When it throws it has
    assigned nothing. *)
Definition Transaction_compile (transaction : Transaction.t) : result Transaction.t :=
  keys <- signedKeys transaction ;;
  valid <- (if (length (Transaction.signatures transaction) =? length keys)%nat
            then everyEquals keys (Transaction.signatures transaction)
            else ok false) ;;
  ok (if valid then transaction
      else {| Transaction.signatures := map emptySlot keys;
              Transaction.feePayer := Transaction.feePayer transaction;
              Transaction.instructions := Transaction.instructions transaction;
              Transaction.recentBlockhash := Transaction.recentBlockhash transaction |}).

(** The context returned, without the [additionalContext] of the caller. *)
Definition contextOf (transaction : Transaction.t) : TransactionContext.t :=
  {| TransactionContext.txId :=
       match serializeMessage transaction with
       | inr messageBytes => Some (base58_encode (take 32 messageBytes))
       | inl _ => None
       end;
     TransactionContext.signature := None;
     TransactionContext.feePayer := toBase58 <$> Transaction.feePayer transaction;
     TransactionContext.instructionCount :=
       Some (length (Transaction.instructions transaction));
     TransactionContext.blockhash :=
       if truthyString (Transaction.recentBlockhash transaction)
       then Transaction.recentBlockhash transaction
       else None;
     TransactionContext.source := None;
     TransactionContext.destination := None;
     TransactionContext.amount := None;
     TransactionContext.token := None;
     TransactionContext.computeUnitsConsumed := None;
     TransactionContext.associatedToken := None;
     TransactionContext.owner := None |}.

(** [TransactionLogger.extractTransactionContext(transaction)]: it never
    throws, and it leaves the transaction compiled when its message
    compiles. *)
Definition extractTransactionContext : M Transaction.t TransactionContext.t :=
  fun transaction =>
    (ok (contextOf transaction),
     match Transaction_compile transaction with
     | inr compiled => compiled
     | inl _ => transaction
     end).

(** [validateTransfer(connection, transaction, allowedTokens)] from its first
    line: the log context, then the checks on the transaction as it is
    then. *)
Definition validateTransferWithContext (connection : Connection)
    (allowedTokens : list TokenFee.t) : M Transaction.t Transfer.t :=
  extractTransactionContext ;;
  transaction <- gets id ;;
  pure_ (validateTransfer connection transaction allowedTokens).

End LogContext.

(** ** A small devnet: concrete keys, transactions and library stand-ins

    Used to run the definitions on concrete inputs. *)
Module Devnet.

Definition custody : Keypair.t :=
  {| Keypair.publicKey := {| bn := 7 |}; Keypair.secretKey := [] |}.
Definition alice : PublicKey := {| bn := 11 |}.
Definition aliceToken : PublicKey := {| bn := 12 |}.
Definition custodyToken : PublicKey := {| bn := 13 |}.
Definition usdc : PublicKey := {| bn := 14 |}.
Definition aliceAssociated : PublicKey := {| bn := 25 |}.
Definition tokenProgram : PublicKey := {| bn := 100 |}.
Definition associatedTokenProgram : PublicKey := {| bn := 101 |}.
Definition systemProgram : PublicKey := {| bn := 0 |}.

Definition meta (key : PublicKey) (signer writable : bool) : AccountMeta :=
  {| pubkey := key; isSigner := signer; isWritable := writable |}.

(** A [Transfer] of [amount] (one byte) from Alice's token account. *)
Definition transferOf (amount : Byte.byte) : TransactionInstruction :=
  {| keys := [meta aliceToken false true; meta custodyToken false true;
              meta alice true false];
     programId := tokenProgram;
     data := [Byte.x03; amount] |}.

(** The fee is 25: [x19] pays it exactly, [x18] is one short. *)
Definition transferInstruction : TransactionInstruction := transferOf Byte.x19.

Definition createInstruction (payer associatedToken owner mint : PublicKey)
  : TransactionInstruction :=
  {| keys := [meta payer true true; meta associatedToken false true;
              meta owner false false; meta mint false false;
              meta systemProgram false false; meta tokenProgram false false];
     programId := associatedTokenProgram;
     data := [] |}.

(** An instruction of some other program that names the custody key. *)
Definition drain (signer writable : bool) : TransactionInstruction :=
  {| keys := [meta alice true true; meta (Keypair.publicKey custody) signer writable];
     programId := systemProgram;
     data := [] |}.

Definition unsigned (key : PublicKey) : SignaturePubkeyPair :=
  {| signature := None; publicKey := Some key |}.
Definition signedBy (key : PublicKey) : SignaturePubkeyPair :=
  {| signature := Some [Byte.x01]; publicKey := Some key |}.

Definition transactionOf (slots : list SignaturePubkeyPair)
    (ixs : list TransactionInstruction) : Transaction.t :=
  {| Transaction.signatures := slots;
     Transaction.feePayer := Some (Keypair.publicKey custody);
     Transaction.instructions := ixs;
     Transaction.recentBlockhash := Some "blockhash" |}.

(** The usual request: the custody slot still empty, the owner's filled. *)
Definition payment : Transaction.t :=
  transactionOf [unsigned (Keypair.publicKey custody); signedBy alice]
                [transferInstruction].

(** The same with the custody slot alone. *)
Definition paymentAlone : Transaction.t :=
  transactionOf [unsigned (Keypair.publicKey custody)] [transferInstruction].

(** The custody slot comes already signed. *)
Definition presigned : Transaction.t :=
  transactionOf [signedBy (Keypair.publicKey custody); signedBy alice]
                [transferInstruction].

(** A fee transfer and the creation of Alice's associated account. *)
Definition accountCreation : Transaction.t :=
  transactionOf [unsigned (Keypair.publicKey custody); signedBy alice]
                [transferInstruction;
                 createInstruction (Keypair.publicKey custody) aliceAssociated alice usdc].

Definition signSlot (signer : Keypair.t) (slot : SignaturePubkeyPair)
  : SignaturePubkeyPair :=
  match publicKey slot with
  | Some key =>
      if equals key (Keypair.publicKey signer)
      then {| signature := Some [Byte.x2a]; publicKey := Some key |}
      else slot
  | None => slot
  end.

Definition decode (ix : TransactionInstruction) : result DecodedInstruction :=
  match keys ix, data ix with
  | [source; destination; owner], [tag; amount] =>
      if Byte.eqb tag Byte.x03
      then ok (DecodedTransfer
                 {| Transfer.source := source; Transfer.destination := destination;
                    Transfer.owner := owner;
                    Transfer.amount := Z.of_N (Byte.to_N amount);
                    Transfer.checked := None |})
      else ok DecodedOther
  | _, _ => ok DecodedOther
  end.

(** Stand-ins for the libraries.  The wire form of a transaction is the
    number of its instructions, which tells the two requests apart. *)
Definition web3 : Web3 :=
  {| serializeMessage := fun t =>
       ok (String.list_byte_of_string (templateString (Transaction.recentBlockhash t)));
     sha256 := fun message => message;
     base58_encode := String.string_of_list_byte;
     toBase58 := fun key => pretty (bn key);
     partialSign := fun signer =>
       modify (fun t =>
         {| Transaction.signatures := map (signSlot signer) (Transaction.signatures t);
            Transaction.feePayer := Transaction.feePayer t;
            Transaction.instructions := Transaction.instructions t;
            Transaction.recentBlockhash := Transaction.recentBlockhash t |});
     serialize := fun _ t =>
       ok [match Transaction.instructions t with
           | [_] => Byte.x01
           | _ => Byte.x02
           end];
     Transaction_from := fun wire =>
       match wire with
       | [tag] => ok (if Byte.eqb tag Byte.x01 then payment else accountCreation)
       | _ => throw (Error "malformed transaction")
       end;
     TOKEN_PROGRAM_ID := tokenProgram;
     ASSOCIATED_TOKEN_PROGRAM_ID := associatedTokenProgram;
     decodeInstruction := decode;
     getAssociatedTokenAddress := fun mint owner => ok {| bn := bn mint + bn owner |};
     createAssociatedTokenAccountInstruction := createInstruction |}.

(** A node that knows Alice's token account (100 units of [usdc]) and
    the accounts listed in [onChain]. *)
Definition node (onChain : list PublicKey) : Connection :=
  {| getAccount := fun key =>
       if equals key aliceToken
       then ok {| Account.owner := alice; Account.isFrozen := false;
                  Account.amount := 100; Account.mint := usdc |}
       else throw (Error "TokenAccountNotFoundError");
     getAccountInfo := fun key =>
       ok (if existsb (equals key) onChain
           then Some {| lamports := 2039280; executable := false |}
           else None);
     simulateTransaction := fun _ => ok {| err := None; unitsConsumed := Some 4645 |} |}.

Definition usdcFee : TokenFee.t :=
  {| TokenFee.mint := usdc; TokenFee.account := custodyToken;
     TokenFee.decimals := 6; TokenFee.fee := 25 |}.

Definition allowedTokens : list TokenFee.t := [usdcFee].

(** What [decode] makes of [transferOf]. *)
Definition decodedTransfer (amount : Z) : Transfer.t :=
  {| Transfer.source := meta aliceToken false true;
     Transfer.destination := meta custodyToken false true;
     Transfer.owner := meta alice true false;
     Transfer.amount := amount;
     Transfer.checked := None |}.

Definition worldOf (transaction : Transaction.t) (cache : Cache) (now : Z) : World.t :=
  {| World.transaction := transaction; World.cache := cache;
     World.clock := fun n => now + Z.of_nat n |}.

(** The owner's slot names Alice but carries no signature bytes. *)
Definition paymentOwnerUnsigned : Transaction.t :=
  transactionOf [unsigned (Keypair.publicKey custody); unsigned alice]
                [transferInstruction].

(** The owner's slot carries bytes that do not verify. *)
Definition forged : Transaction.t :=
  transactionOf [unsigned (Keypair.publicKey custody);
                 {| signature := Some [Byte.x00]; publicKey := Some alice |}]
                [transferInstruction].

Definition verifies (slot : SignaturePubkeyPair) : bool :=
  match signature slot with
  | Some [tag] => negb (Byte.eqb tag Byte.x00)
  | _ => true
  end.

(** The stand-ins again, with a [serialize] that verifies the signatures
    present, as the library's does. *)
Definition web3Verifying : Web3 :=
  {| serializeMessage := serializeMessage (Web3 := web3);
     sha256 := sha256 (Web3 := web3);
     base58_encode := base58_encode (Web3 := web3);
     toBase58 := toBase58 (Web3 := web3);
     partialSign := partialSign (Web3 := web3);
     serialize := fun requireAllSignatures t =>
       if forallb verifies (Transaction.signatures t)
       then serialize (Web3 := web3) requireAllSignatures t
       else throw (Error "Signature verification failed");
     Transaction_from := Transaction_from (Web3 := web3);
     TOKEN_PROGRAM_ID := tokenProgram;
     ASSOCIATED_TOKEN_PROGRAM_ID := associatedTokenProgram;
     decodeInstruction := decode;
     getAssociatedTokenAddress := getAssociatedTokenAddress (Web3 := web3);
     createAssociatedTokenAccountInstruction := createInstruction |}.

(** A node whose simulation reports an error. *)
Definition failingNode : Connection :=
  {| getAccount := getAccount (node []);
     getAccountInfo := getAccountInfo (node []);
     simulateTransaction := fun _ =>
       ok {| err := Some "InsufficientFundsForFee"; unitsConsumed := None |} |}.

(** Two more allow-list entries: another mint, and [usdc] again at a
    lower fee. *)
Definition otherFee : TokenFee.t :=
  {| TokenFee.mint := {| bn := 99 |}; TokenFee.account := custodyToken;
     TokenFee.decimals := 9; TokenFee.fee := 1 |}.
Definition usdcCheap : TokenFee.t :=
  {| TokenFee.mint := usdc; TokenFee.account := custodyToken;
     TokenFee.decimals := 6; TokenFee.fee := 1 |}.

(** A stand-in for [compileMessage()]: the account list of the message.
    The accounts of the instructions and then their programs, each key once
    with its flags joined; signers first, the writable ones before the
    others; the fee payer moved to the front. *)
Fixpoint mergeMeta (m : AccountMeta) (unique : list AccountMeta) : list AccountMeta :=
  match unique with
  | [] => [m]
  | u :: rest =>
      if equals (pubkey u) (pubkey m)
      then meta (pubkey u) (isSigner u || isSigner m) (isWritable u || isWritable m) :: rest
      else u :: mergeMeta m rest
  end.

Definition uniqueMetas (ixs : list TransactionInstruction) : list AccountMeta :=
  fold_left (fun unique m => mergeMeta m unique)
            (flat_map keys ixs ++ map (fun ix => meta (programId ix) false false) ixs)
            [].

Definition sortMetas (metas : list AccountMeta) : list AccountMeta :=
  filter (fun m => isSigner m && isWritable m) metas
  ++ filter (fun m => isSigner m && negb (isWritable m)) metas
  ++ filter (fun m => negb (isSigner m) && isWritable m) metas
  ++ filter (fun m => negb (isSigner m) && negb (isWritable m)) metas.

Definition payerFirst (payer : PublicKey) (metas : list AccountMeta) : list AccountMeta :=
  meta payer true true :: filter (fun m => negb (equals (pubkey m) payer)) metas.

(** A slot must name a key of the message, which then counts as a signer. *)
Fixpoint knownSigners (slots : list SignaturePubkeyPair) (metas : list AccountMeta)
  : result (list AccountMeta) :=
  match slots with
  | [] => ok metas
  | slot :: rest =>
      key <- deref (publicKey slot) ;;
      if existsb (fun m => equals (pubkey m) key) metas
      then knownSigners rest
             (map (fun m => if equals (pubkey m) key
                            then meta (pubkey m) true (isWritable m) else m) metas)
      else throw (Error "unknown signer")
  end.

Definition compiler : MessageCompiler :=
  {| signedKeys := fun t =>
       throwIf (negb (truthyString (Transaction.recentBlockhash t)))
               "Transaction recentBlockhash required" ;;
       payer <- match Transaction.feePayer t, Transaction.signatures t with
                | Some payer, _ => ok payer
                | None, {| publicKey := Some payer |} :: _ => ok payer
                | None, _ => throw (Error "Transaction fee payer required")
                end ;;
       metas <- knownSigners (Transaction.signatures t)
                  (payerFirst payer (sortMetas (uniqueMetas (Transaction.instructions t)))) ;;
       ok (map pubkey (filter isSigner metas)) |}.




End Devnet.

(** ** Facts about the data model *)

Lemma equals_eq (a b : PublicKey) : equals a b = true <-> a = b.
Proof.
  destruct a as [x], b as [y]; unfold equals; simpl.
  rewrite N.eqb_eq. split; [intros ->; reflexivity | intros [= ->]; reflexivity].
Qed.

Lemma equals_neq (a b : PublicKey) : equals a b = false <-> a <> b.
Proof.
  rewrite <- equals_eq. destruct (equals a b); split; congruence.
Qed.

(** One step of a sequence of checks in [result]. *)
Ltac js_step :=
  cbn [bind ret result_Monad throwIf negb deref head tail truthyObject ok throw].

(** One step of a computation on the world. *)
Tactic Notation "world_step" :=
  cbn [bind ret M_Monad World.cache World.clock World.transaction
       World.tick World.withCache World.withTransaction].
Tactic Notation "world_step" "in" hyp(H) :=
  cbn [bind ret M_Monad World.cache World.clock World.transaction
       World.tick World.withCache World.withTransaction] in H.

(** ** Instruction security *)

Lemma exposes_test (feePayer : Keypair.t) (key : AccountMeta) :
  (isWritable key || isSigner key) && equals (pubkey key) (Keypair.publicKey feePayer) = true
  <-> exposes feePayer key.
Proof.
  unfold exposes. rewrite andb_true_iff, orb_true_iff, equals_eq. reflexivity.
Qed.

Lemma validateKeys_throws (feePayer : Keypair.t) (l : list AccountMeta) :
  validateKeys feePayer l = throw (Error "invalid account")
  <-> exists (j : nat) (key : AccountMeta), l !! j = Some key /\ exposes feePayer key.
Proof.
  induction l as [|key rest IH]; simpl.
  - split; [discriminate | intros (j & k & Hj & _); destruct j; discriminate].
  - destruct ((isWritable key || isSigner key)
              && equals (pubkey key) (Keypair.publicKey feePayer)) eqn:E; simpl.
    + split; [intros _ | reflexivity].
      exists 0%nat, key. split; [reflexivity | apply exposes_test, E].
    + rewrite IH. split.
      * intros (j & k & Hj & Hk). exists (S j), k. auto.
      * intros (j & k & Hj & Hk). destruct j as [|j]; simpl in Hj.
        -- injection Hj as <-. apply exposes_test in Hk. congruence.
        -- exists j, k. auto.
Qed.

Lemma validateKeys_cases (feePayer : Keypair.t) (l : list AccountMeta) :
  validateKeys feePayer l = throw (Error "invalid account")
  \/ validateKeys feePayer l = ok tt.
Proof.
  induction l as [|key rest IH]; simpl; [right; reflexivity|].
  destruct ((isWritable key || isSigner key) && _); simpl; auto.
Qed.

Lemma validateInstructionList_throws (feePayer : Keypair.t)
    (ixs : list TransactionInstruction) :
  validateInstructionList feePayer ixs = throw (Error "invalid account")
  <-> exists (i j : nat) (instruction : TransactionInstruction) (key : AccountMeta),
        ixs !! i = Some instruction /\ keys instruction !! j = Some key
        /\ exposes feePayer key.
Proof.
  induction ixs as [|ix rest IH]; simpl.
  - split; [discriminate | intros (i & j & x & k & Hi & _); destruct i; discriminate].
  - destruct (validateKeys_cases feePayer (keys ix)) as [E|E].
    + rewrite E; simpl. split; [intros _ | reflexivity].
      apply validateKeys_throws in E as (j & k & Hj & Hk).
      exists 0%nat, j, ix, k. auto.
    + rewrite E; simpl. rewrite IH. split.
      * intros (i & j & x & k & Hi & Hj & Hk). exists (S i), j, x, k. auto.
      * intros (i & j & x & k & Hi & Hj & Hk). destruct i as [|i]; simpl in Hi.
        -- injection Hi as <-.
           assert (validateKeys feePayer (keys ix) = throw (Error "invalid account"))
             by (apply validateKeys_throws; eauto).
           unfold throw, ok in *. congruence.
        -- exists i, j, x, k. auto.
Qed.

Lemma validateInstructionList_cases (feePayer : Keypair.t)
    (ixs : list TransactionInstruction) :
  validateInstructionList feePayer ixs = throw (Error "invalid account")
  \/ validateInstructionList feePayer ixs = ok tt.
Proof.
  induction ixs as [|ix rest IH]; simpl; [right; reflexivity|].
  destruct (validateKeys_cases feePayer (keys ix)) as [-> | ->]; simpl; auto.
Qed.

(** C1.  [validateInstructions] throws [invalid account] exactly when the
    custody key is writable or a signer in the account list of some
    instruction, at whatever instruction index [i] and position [j]; it
    returns normally exactly when there is no such reference. *)
Theorem validateInstructions_invalid_account
    (transaction : Transaction.t) (feePayer : Keypair.t) :
  let exposed :=
    exists (i j : nat) (instruction : TransactionInstruction) (key : AccountMeta),
      Transaction.instructions transaction !! i = Some instruction
      /\ keys instruction !! j = Some key
      /\ exposes feePayer key in
  (validateInstructions transaction feePayer = throw (Error "invalid account") <-> exposed)
  /\ (validateInstructions transaction feePayer = ok tt <-> ~ exposed).
Proof.
  unfold validateInstructions. simpl.
  pose proof (validateInstructionList_throws feePayer (Transaction.instructions transaction))
    as Hthrows.
  split; [exact Hthrows|].
  destruct (validateInstructionList_cases feePayer (Transaction.instructions transaction))
    as [E|E]; rewrite E.
  - split; [discriminate|]. intros Hn. exfalso. apply Hn, Hthrows, E.
  - split; [|reflexivity]. intros _ Hex. apply Hthrows in Hex.
    unfold throw, ok in *. congruence.
Qed.

(** The custody key as the second account of the only instruction, writable
    and not a signer: rejected; the plain payment: accepted. *)
Lemma validateInstructions_invalid_account_witness :
  validateInstructions (Devnet.transactionOf [] [Devnet.drain false true]) Devnet.custody
    = throw (Error "invalid account")
  /\ validateInstructions Devnet.payment Devnet.custody = ok tt.
Proof.
  split.
  - apply (proj1 (validateInstructions_invalid_account
                    (Devnet.transactionOf [] [Devnet.drain false true]) Devnet.custody)).
    exists 0%nat, 1%nat, (Devnet.drain false true),
      (Devnet.meta (Keypair.publicKey Devnet.custody) false true).
    repeat split; left; reflexivity.
  - apply (proj2 (validateInstructions_invalid_account Devnet.payment Devnet.custody)).
    intros (i & j & ix & key & Hi & Hj & [_ Hk]).
    destruct i as [|[|i]]; simpl in Hi; try discriminate.
    injection Hi as <-.
    destruct j as [|[|[|[|j]]]]; simpl in Hj; try discriminate;
      injection Hj as <-; discriminate Hk.
Defined.

(** C8, as the code has it.  Whenever [validateInstructions] throws, what it
    throws is [new Error('invalid account')]: the same error whether the
    custody key's reference was writable, a signer or both. *)
Theorem validateInstructions_single_error
    (transaction : Transaction.t) (feePayer : Keypair.t) (e : Exn) :
  validateInstructions transaction feePayer = throw e ->
  e = Error "invalid account".
Proof.
  unfold validateInstructions. intros He.
  destruct (validateInstructionList_cases feePayer (Transaction.instructions transaction))
    as [E|E]; rewrite E in He; unfold throw, ok in He; congruence.
Qed.

Lemma validateInstructions_single_error_witness :
  validateInstructions (Devnet.transactionOf [] [Devnet.drain true false]) Devnet.custody
    = throw (Error "invalid account")
  /\ Error "invalid account" = Error "invalid account".
Proof.
  split; [reflexivity|].
  apply (validateInstructions_single_error
           (Devnet.transactionOf [] [Devnet.drain true false]) Devnet.custody).
  reflexivity.
Defined.

(** C8, as stated, fails.  One transaction names the custody key writable and
    not a signer, another names it a signer and not writable; both are
    rejected, and with equal errors, so the error does not tell the role. *)
Lemma validateInstructions_error_hides_role :
  let writableOnly := Devnet.transactionOf [] [Devnet.drain false true] in
  let signerOnly := Devnet.transactionOf [] [Devnet.drain true false] in
  (exists e : Exn,
      validateInstructions writableOnly Devnet.custody = throw e
      /\ validateInstructions signerOnly Devnet.custody = throw e)
  /\ ~ (validateInstructions writableOnly Devnet.custody
        <> validateInstructions signerOnly Devnet.custody).
Proof.
  split.
  - exists (Error "invalid account"). split; reflexivity.
  - intros Hne. apply Hne. reflexivity.
Qed.

(** ** The transaction envelope *)

Section Envelope.
Context `{Web3}.

Lemma validateSecondary_violation (secondary : list SignaturePubkeyPair) :
  validateSecondary secondary =
    match secondaryViolation secondary with
    | Some message => throw (Error message)
    | None => ok tt
    end.
Proof.
  induction secondary as [|slot rest IH]; simpl; [reflexivity|].
  destruct (publicKey slot) as [k|]; simpl.
  - destruct (signature slot) as [b|]; simpl.
    + rewrite IH.
      destruct (decide (is_Some (Some k))) as [_|n]; [|destruct n; eauto].
      destruct (decide (is_Some (Some b))) as [_|n]; [|destruct n; eauto].
      reflexivity.
    + destruct (decide (is_Some (Some k))) as [_|n]; [|destruct n; eauto].
      destruct (decide (is_Some (@None Buffer))) as [[? [=]]|_]. reflexivity.
  - destruct (decide (is_Some (@None PublicKey))) as [[? [=]]|_]. reflexivity.
Qed.

Lemma truthyString_present (transaction : Transaction.t) :
  truthyString (Transaction.recentBlockhash transaction) = true
  <-> blockhashPresent transaction.
Proof.
  unfold blockhashPresent.
  destruct (Transaction.recentBlockhash transaction) as [[|c s]|]; simpl;
    split; try discriminate; try tauto; try (intros [? ?]; congruence).
  intros _. split; discriminate.
Qed.

(** The code's checks and the specification's agree, on every transaction
    whose slot 0, if there is one, carries a public key. *)
Lemma validateTransactionChecks_violation (transaction : Transaction.t)
    (feePayer : Keypair.t) (maxSignatures : Z) :
  (forall primary, head (Transaction.signatures transaction) = Some primary ->
                   is_Some (publicKey primary)) ->
  validateTransactionChecks transaction feePayer maxSignatures =
    match envelopeViolation transaction (Keypair.publicKey feePayer) maxSignatures with
    | Some message => throw (Error message)
    | None => ok tt
    end.
Proof.
  intros Htyped. unfold validateTransactionChecks, envelopeViolation.
  destruct (decide (Transaction.feePayer transaction = Some (Keypair.publicKey feePayer)))
    as [Hfp|Hfp].
  2:{ destruct (Transaction.feePayer transaction) as [payer|]; [|reflexivity].
      destruct (equals payer (Keypair.publicKey feePayer)) eqn:E; [|reflexivity].
      apply equals_eq in E. congruence. }
  rewrite Hfp, (proj2 (equals_eq _ _) eq_refl). js_step.
  destruct (decide (blockhashPresent transaction)) as [Hb|Hb].
  2:{ destruct (truthyString (Transaction.recentBlockhash transaction)) eqn:E;
        [|reflexivity].
      apply truthyString_present in E. contradiction. }
  rewrite (proj2 (truthyString_present transaction) Hb). js_step.
  destruct (Transaction.signatures transaction) as [|primary secondary] eqn:Hs;
    [reflexivity|].
  remember (Z.of_nat (length (primary :: secondary))) as n eqn:Hn.
  assert (0 < n) as Hpos by (subst n; simpl length; lia).
  rewrite (proj2 (Z.eqb_neq n 0)) by lia. js_step.
  destruct (decide (n <= maxSignatures)) as [Hm|Hm].
  2:{ rewrite (proj2 (Z.ltb_lt _ _)) by lia. reflexivity. }
  rewrite (proj2 (Z.ltb_ge _ _)) by lia. js_step.
  destruct (Htyped primary eq_refl) as [key Hkey]. rewrite Hkey. js_step.
  destruct (decide (Some key = Some (Keypair.publicKey feePayer))) as [Hk|Hk].
  2:{ destruct (equals key (Keypair.publicKey feePayer)) eqn:E; [|reflexivity].
      apply equals_eq in E. congruence. }
  injection Hk as ->. rewrite (proj2 (equals_eq _ _) eq_refl). js_step.
  destruct (signature primary) as [b|]; js_step.
  - destruct (decide (is_Some (Some b))) as [_|n']; [reflexivity | destruct n'; eauto].
  - destruct (decide (is_Some (@None Buffer))) as [[? [=]]|_].
    apply validateSecondary_violation.
Qed.

Lemma validateTransaction_unfold (connection : Connection) (feePayer : Keypair.t)
    (maxSignatures lamportsPerSignature : Z) (transaction : Transaction.t) :
  validateTransaction connection feePayer maxSignatures lamportsPerSignature transaction =
    match validateTransactionChecks transaction feePayer maxSignatures with
    | inl e => (inl e, transaction)
    | inr _ =>
        (partialSign feePayer ;;
         signed <- gets id ;;
         rawTransaction <- pure_ (serialize true signed) ;;
         primarySignature <- pure_ (deref (Transaction_signature signed)) ;;
         ret (base58_encode primarySignature, rawTransaction)) transaction
    end.
Proof.
  unfold validateTransaction. simpl. unfold pure_.
  destruct (validateTransactionChecks transaction feePayer maxSignatures); reflexivity.
Qed.

Lemma secondaryViolation_named (secondary : list SignaturePubkeyPair) (message : string) :
  secondaryViolation secondary = Some message ->
  In message envelopeErrors.
Proof.
  induction secondary as [|slot rest IH]; simpl; [discriminate|].
  destruct (decide (is_Some (publicKey slot)));
    [destruct (decide (is_Some (signature slot))); [exact IH|]|];
    intros [= <-]; simpl; tauto.
Qed.

Lemma envelopeViolation_named (transaction : Transaction.t) (custody : PublicKey)
    (maxSignatures : Z) (message : string) :
  envelopeViolation transaction custody maxSignatures = Some message ->
  In message envelopeErrors.
Proof.
  unfold envelopeViolation.
  destruct (decide (Transaction.feePayer transaction = Some custody));
    [|intros [= <-]; simpl; tauto].
  destruct (decide (blockhashPresent transaction)); [|intros [= <-]; simpl; tauto].
  destruct (Transaction.signatures transaction) as [|primary secondary];
    [intros [= <-]; simpl; tauto|].
  destruct (decide (Z.of_nat (length (primary :: secondary)) <= maxSignatures));
    [|intros [= <-]; simpl; tauto].
  destruct (decide (publicKey primary = Some custody)); [|intros [= <-]; simpl; tauto].
  destruct (decide (is_Some (signature primary))); [intros [= <-]; simpl; tauto|].
  apply secondaryViolation_named.
Qed.

(** C4.  On a transaction whose slot 0, if any, carries a public key (as
    the type [SignaturePubkeyPair] requires), [validateTransaction] fails
    with the error of the first of the five checks, taken in the stated
    order, that the transaction does not pass, and leaves the transaction
    as it was: no signature is attached.  That error is one of the eight
    named ones, which are pairwise different.  When all five checks pass,
    the code goes on to sign and serialize. *)
Theorem validateTransaction_checks_in_order (connection : Connection)
    (feePayer : Keypair.t) (maxSignatures lamportsPerSignature : Z)
    (transaction : Transaction.t) :
  (forall primary, head (Transaction.signatures transaction) = Some primary ->
                   is_Some (publicKey primary)) ->
  match envelopeViolation transaction (Keypair.publicKey feePayer) maxSignatures with
  | Some message =>
      validateTransaction connection feePayer maxSignatures lamportsPerSignature transaction
        = (throw (Error message), transaction)
      /\ In message envelopeErrors
  | None =>
      validateTransactionChecks transaction feePayer maxSignatures = ok tt
      /\ validateTransaction connection feePayer maxSignatures lamportsPerSignature
           transaction
         = (partialSign feePayer ;;
            signed <- gets id ;;
            rawTransaction <- pure_ (serialize true signed) ;;
            primarySignature <- pure_ (deref (Transaction_signature signed)) ;;
            ret (base58_encode primarySignature, rawTransaction)) transaction
  end
  /\ List.NoDup envelopeErrors.
Proof.
  intros Htyped.
  pose proof (validateTransactionChecks_violation transaction feePayer maxSignatures Htyped)
    as Hchecks.
  pose proof (validateTransaction_unfold connection feePayer maxSignatures
                lamportsPerSignature transaction) as Hunfold.
  split.
  - destruct (envelopeViolation transaction (Keypair.publicKey feePayer) maxSignatures)
      as [message|] eqn:Hv.
    + split; [|eapply envelopeViolation_named, Hv].
      rewrite Hunfold, Hchecks. reflexivity.
    + split; [exact Hchecks|]. rewrite Hunfold, Hchecks. reflexivity.
  - unfold envelopeErrors.
    repeat (constructor; [simpl; intros Hin; repeat destruct Hin as [Hin|Hin];
                          try discriminate Hin; exact Hin|]).
    constructor.
Qed.

End Envelope.

(** ** The transfer validator *)

Section TransferFacts.
Context `{Web3}.

Lemma find_first {A : Type} (f : A -> bool) (before after : list A) (x : A) :
  Forall (fun y => f y = false) before ->
  f x = true ->
  List.find f (before ++ x :: after) = Some x.
Proof.
  induction 1 as [|y l Hy _ IH]; intros Hx; simpl.
  - rewrite Hx. reflexivity.
  - rewrite Hy. apply IH, Hx.
Qed.

Lemma find_none {A : Type} (f : A -> bool) (l : list A) :
  Forall (fun y => f y = false) l -> List.find f l = None.
Proof.
  induction 1 as [|y l Hy _ IH]; simpl; [reflexivity|]. rewrite Hy. exact IH.
Qed.

(** C7.  Without an instruction of the token program, [validateTransfer]
    throws [missing token instruction]; otherwise the instruction decoded
    and validated is the first one, in instruction order, whose program is
    the token program. *)
Theorem validateTransfer_first_token_instruction (connection : Connection)
    (transaction : Transaction.t) (allowedTokens : list TokenFee.t) :
  (Forall (fun ix => programId ix <> TOKEN_PROGRAM_ID)
          (Transaction.instructions transaction) ->
   validateTransfer connection transaction allowedTokens
     = throw (Error "missing token instruction"))
  /\ (forall (before after : list TransactionInstruction)
             (tokenInstruction : TransactionInstruction),
        Transaction.instructions transaction = before ++ tokenInstruction :: after ->
        Forall (fun ix => programId ix <> TOKEN_PROGRAM_ID) before ->
        programId tokenInstruction = TOKEN_PROGRAM_ID ->
        validateTransfer connection transaction allowedTokens
          = validateTokenInstruction connection transaction allowedTokens
                                     tokenInstruction).
Proof.
  unfold validateTransfer. split.
  - intros Hnone. rewrite find_none; [reflexivity|].
    eapply Forall_impl; [exact Hnone|]. intros ix Hix. apply equals_neq, Hix.
  - intros before after tokenInstruction -> Hbefore Htoken.
    rewrite (find_first _ before after tokenInstruction); [reflexivity| |].
    + eapply Forall_impl; [exact Hbefore|]. intros ix Hix. apply equals_neq, Hix.
    + apply equals_eq, Htoken.
Qed.

(** From the fee check on, once steps 1 to 4 have passed. *)
Lemma validateTransfer_from_fee_check (connection : Connection)
    (transaction : Transaction.t) (allowedTokens : list TokenFee.t)
    (tokenInstruction : TransactionInstruction) (instruction : Transfer.t)
    (token : TokenFee.t) :
  reachesFeeCheck connection transaction allowedTokens tokenInstruction instruction token ->
  validateTransfer connection transaction allowedTokens =
    (throwIf (Transfer.amount instruction <? TokenFee.fee token) "invalid amount" ;;
     throwIf (isSigner (Transfer.source instruction)) "source is signer" ;;
     throwIf (negb (equals (pubkey (Transfer.destination instruction))
                           (TokenFee.account token)))
             "invalid destination" ;;
     throwIf (negb (isWritable (Transfer.destination instruction)))
             "destination not writable" ;;
     throwIf (isSigner (Transfer.destination instruction)) "destination is signer" ;;
     second <- deref (Transaction.signatures transaction !! 1%nat) ;;
     signed <- equalsU (pubkey (Transfer.owner instruction)) (publicKey second) ;;
     throwIf (negb signed) "owner missing signature" ;;
     throwIf (isWritable (Transfer.owner instruction)) "owner is writable" ;;
     throwIf (negb (isSigner (Transfer.owner instruction))) "owner not signer" ;;
     match Transfer.checked instruction with
     | Some (mint, decimals) =>
         throwIf (negb (decimals =? TokenFee.decimals token)) "invalid decimals" ;;
         throwIf (negb (equals (pubkey mint) (TokenFee.mint token))) "invalid mint" ;;
         throwIf (isWritable mint) "mint is writable" ;;
         throwIf (isSigner mint) "mint is signer"
     | None => ok tt
     end ;;
     ok instruction).
Proof.
  intros (Hfind & Hdecode & account & Haccount & Howner & Hfrozen & Hfunds & Htoken).
  unfold validateTransfer. rewrite Hfind.
  unfold validateTokenInstruction. rewrite Hdecode. js_step.
  rewrite Haccount. js_step.
  rewrite Howner, (proj2 (equals_eq _ _) eq_refl), Hfrozen. js_step.
  rewrite (proj2 (Z.ltb_ge _ _) Hfunds). js_step.
  rewrite Htoken. reflexivity.
Qed.

(** C3.  Once the source account and the allow-list entry are settled,
    [validateTransfer] throws [invalid amount] exactly when the amount is
    strictly below the entry's fee; at equality it does not. *)
Theorem validateTransfer_invalid_amount (connection : Connection)
    (transaction : Transaction.t) (allowedTokens : list TokenFee.t)
    (tokenInstruction : TransactionInstruction) (instruction : Transfer.t)
    (token : TokenFee.t) :
  reachesFeeCheck connection transaction allowedTokens tokenInstruction instruction token ->
  (validateTransfer connection transaction allowedTokens = throw (Error "invalid amount")
   <-> Transfer.amount instruction < TokenFee.fee token)
  /\ (Transfer.amount instruction = TokenFee.fee token ->
      validateTransfer connection transaction allowedTokens
        <> throw (Error "invalid amount")).
Proof.
  intros Hreach.
  rewrite (validateTransfer_from_fee_check _ _ _ _ _ _ Hreach).
  destruct (Z.ltb_spec (Transfer.amount instruction) (TokenFee.fee token)) as [Hlt|Hge].
  - js_step. split; [split; [intros _; exact Hlt | reflexivity] | intros Heq; lia].
  - js_step.
    match goal with
    | |- (?r = _ <-> _) /\ _ =>
        assert (Hr : r <> throw (Error "invalid amount"))
    end.
    { destruct (isSigner (Transfer.source instruction)); js_step; [discriminate|].
      destruct (equals _ (TokenFee.account token)); js_step; [|discriminate].
      destruct (isWritable (Transfer.destination instruction)); js_step; [|discriminate].
      destruct (isSigner (Transfer.destination instruction)); js_step; [discriminate|].
      destruct (Transaction.signatures transaction !! 1%nat) as [second|]; js_step;
        [|discriminate].
      destruct (publicKey second) as [key|]; cbn [equalsU]; js_step; [|discriminate].
      destruct (equals _ key); js_step; [|discriminate].
      destruct (isWritable (Transfer.owner instruction)); js_step; [discriminate|].
      destruct (isSigner (Transfer.owner instruction)); js_step; [|discriminate].
      destruct (Transfer.checked instruction) as [[mint decimals]|]; js_step;
        [|discriminate].
      destruct (decimals =? TokenFee.decimals token); js_step; [|discriminate].
      destruct (equals _ (TokenFee.mint token)); js_step; [|discriminate].
      destruct (isWritable mint); js_step; [discriminate|].
      destruct (isSigner mint); js_step; discriminate. }
    split; [split; [intros E; contradiction | intros Hlt; lia] | intros _; exact Hr].
Qed.

(** From the owner check on, once steps 1 to 7 have passed. *)
Lemma validateTransfer_from_owner_check (connection : Connection)
    (transaction : Transaction.t) (allowedTokens : list TokenFee.t)
    (tokenInstruction : TransactionInstruction) (instruction : Transfer.t)
    (token : TokenFee.t) :
  reachesOwnerCheck connection transaction allowedTokens tokenInstruction instruction token ->
  validateTransfer connection transaction allowedTokens =
    (second <- deref (Transaction.signatures transaction !! 1%nat) ;;
     signed <- equalsU (pubkey (Transfer.owner instruction)) (publicKey second) ;;
     throwIf (negb signed) "owner missing signature" ;;
     throwIf (isWritable (Transfer.owner instruction)) "owner is writable" ;;
     throwIf (negb (isSigner (Transfer.owner instruction))) "owner not signer" ;;
     match Transfer.checked instruction with
     | Some (mint, decimals) =>
         throwIf (negb (decimals =? TokenFee.decimals token)) "invalid decimals" ;;
         throwIf (negb (equals (pubkey mint) (TokenFee.mint token))) "invalid mint" ;;
         throwIf (isWritable mint) "mint is writable" ;;
         throwIf (isSigner mint) "mint is signer"
     | None => ok tt
     end ;;
     ok instruction).
Proof.
  intros (Hreach & Hfee & Hsource & Hdest & Hwritable & Hsigner).
  rewrite (validateTransfer_from_fee_check _ _ _ _ _ _ Hreach).
  rewrite (proj2 (Z.ltb_ge _ _) Hfee), Hsource, Hdest, Hwritable, Hsigner.
  rewrite (proj2 (equals_eq _ _) eq_refl). reflexivity.
Qed.


End TransferFacts.

(** ** The account-initialization validator *)

Section AccountInitialization.
Context `{Web3}.

(** Every run either throws and leaves the cache as it was, or returns
    after all the checks have passed and marks the key. *)
Lemma validateAccountInitializationInstructions_cases (connection : Connection)
    (originalTransaction : Transaction.t) (feePayer : Keypair.t) (cache : Cache) :
  (exists e : Exn,
      validateAccountInitializationInstructions connection originalTransaction
        feePayer cache = (throw e, cache))
  \/ (exists (transaction : Transaction.t) (instruction : TransactionInstruction)
             (ownerMeta mintMeta : AccountMeta) (associatedToken : PublicKey),
        reachesExistenceCheck originalTransaction transaction instruction
                              ownerMeta mintMeta associatedToken
        /\ getAccountInfo connection associatedToken = ok None
        /\ areInstructionsEqual
             (createAssociatedTokenAccountInstruction
                (Keypair.publicKey feePayer) associatedToken
                (pubkey ownerMeta) (pubkey mintMeta))
             instruction = true
        /\ truthy (cache !! accountCacheKey transaction associatedToken) = false
        /\ validateAccountInitializationInstructions connection originalTransaction
             feePayer cache
           = (ok tt, <[accountCacheKey transaction associatedToken := VBool true]> cache)).
Proof.
  unfold validateAccountInitializationInstructions, pure_, cache_get, cache_set,
    gets, modify.
  cbn [bind M_Monad].
  destruct (serialize false originalTransaction) as [e|serialized] eqn:Hser;
    [left; eexists; reflexivity|].
  destruct (Transaction_from serialized) as [e|transaction] eqn:Hfrom;
    [left; eexists; reflexivity|].
  destruct (length (Transaction.instructions transaction) =? 2)%nat eqn:Hlen;
    js_step; [|left; eexists; reflexivity].
  apply Nat.eqb_eq in Hlen.
  destruct (Transaction.instructions transaction !! 1%nat) as [instruction|] eqn:Hix;
    js_step; [|left; eexists; reflexivity].
  destruct (equals (programId instruction) ASSOCIATED_TOKEN_PROGRAM_ID) eqn:Hprog;
    js_step; [|left; eexists; reflexivity].
  apply equals_eq in Hprog.
  destruct (keys instruction !! 3%nat) as [mintMeta|] eqn:Hmint;
    js_step; [|left; eexists; reflexivity].
  destruct (keys instruction !! 2%nat) as [ownerMeta|] eqn:Howner;
    js_step; [|left; eexists; reflexivity].
  destruct (getAssociatedTokenAddress (pubkey mintMeta) (pubkey ownerMeta))
    as [e|associatedToken] eqn:Hata; [left; eexists; reflexivity|].
  destruct (getAccountInfo connection associatedToken) as [e|[info|]] eqn:Hinfo;
    js_step; [left; eexists; reflexivity ..|].
  destruct (areInstructionsEqual _ instruction) eqn:Hequal;
    js_step; [|left; eexists; reflexivity].
  destruct (truthy (cache !! accountCacheKey transaction associatedToken)) eqn:Hseen;
    js_step; [left; eexists; reflexivity|].
  right. exists transaction, instruction, ownerMeta, mintMeta, associatedToken.
  unfold reachesExistenceCheck. repeat split; eauto.
Qed.

(** C6.  When the derived associated token account is already on chain,
    the validator throws [account already exists] and the cache is left as
    it was, so the key [account/<blockhash>_<address>] is not written.  In
    general a run that throws leaves the cache untouched, and a run that
    returns has passed every check and has written exactly that key. *)
Theorem validateAccountInitialization_marks_last (connection : Connection)
    (originalTransaction : Transaction.t) (feePayer : Keypair.t) (cache : Cache) :
  (forall (transaction : Transaction.t) (instruction : TransactionInstruction)
          (ownerMeta mintMeta : AccountMeta) (associatedToken : PublicKey)
          (accountInfo : AccountInfo),
      reachesExistenceCheck originalTransaction transaction instruction
                            ownerMeta mintMeta associatedToken ->
      getAccountInfo connection associatedToken = ok (Some accountInfo) ->
      validateAccountInitializationInstructions connection originalTransaction
        feePayer cache
      = (throw (Error "account already exists"), cache))
  /\ (forall (e : Exn) (cache' : Cache),
        validateAccountInitializationInstructions connection originalTransaction
          feePayer cache = (throw e, cache') ->
        cache' = cache)
  /\ (forall cache' : Cache,
        validateAccountInitializationInstructions connection originalTransaction
          feePayer cache = (ok tt, cache') ->
        exists (transaction : Transaction.t) (instruction : TransactionInstruction)
               (ownerMeta mintMeta : AccountMeta) (associatedToken : PublicKey),
          reachesExistenceCheck originalTransaction transaction instruction
                                ownerMeta mintMeta associatedToken
          /\ getAccountInfo connection associatedToken = ok None
          /\ areInstructionsEqual
               (createAssociatedTokenAccountInstruction
                  (Keypair.publicKey feePayer) associatedToken
                  (pubkey ownerMeta) (pubkey mintMeta))
               instruction = true
          /\ truthy (cache !! accountCacheKey transaction associatedToken) = false
          /\ cache' = <[accountCacheKey transaction associatedToken := VBool true]> cache).
Proof.
  split; [|split].
  - intros transaction instruction ownerMeta mintMeta associatedToken accountInfo
      ((serialized & Hser & Hfrom) & Hlen & Hix & Hprog & Howner & Hmint & Hata) Hinfo.
    unfold validateAccountInitializationInstructions, pure_. cbn [bind M_Monad].
    rewrite Hser. js_step. rewrite Hfrom. js_step.
    rewrite Hlen. cbn [Nat.eqb]. js_step. rewrite Hix. js_step.
    rewrite Hprog, (proj2 (equals_eq _ _) eq_refl). js_step.
    rewrite Hmint. js_step. rewrite Howner. js_step.
    rewrite Hata. js_step. rewrite Hinfo. reflexivity.
  - intros e cache' Hrun.
    destruct (validateAccountInitializationInstructions_cases
                connection originalTransaction feePayer cache)
      as [(e0 & E) | (t & ix & o & m & a & _ & _ & _ & _ & E)];
      rewrite E in Hrun; unfold throw, ok in Hrun; congruence.
  - intros cache' Hrun.
    destruct (validateAccountInitializationInstructions_cases
                connection originalTransaction feePayer cache)
      as [(e0 & E) | (t & ix & o & m & a & Hreach & Hinfo & Hequal & Hseen & E)];
      rewrite E in Hrun; unfold throw, ok in Hrun; [discriminate|].
    exists t, ix, o, m, a.
    split; [exact Hreach|]. split; [exact Hinfo|]. split; [exact Hequal|].
    split; [exact Hseen|]. congruence.
Qed.

End AccountInitialization.

(** ** The fee ceiling *)

Section FeeCeiling.
Context `{Web3}.

(** C10.  The parameter [lamportsPerSignature] is never read: whatever two
    values it takes, [validateTransaction] and both orchestrators return
    the same result and leave the same state. *)
Theorem lamportsPerSignature_has_no_effect (connection : Connection)
    (feePayer : Keypair.t) (maxSignatures : Z) (allowedTokens : list TokenFee.t)
    (sameSourceTimeout : option Z) (lamports1 lamports2 : Z) :
  (forall transaction : Transaction.t,
      validateTransaction connection feePayer maxSignatures lamports1 transaction
      = validateTransaction connection feePayer maxSignatures lamports2 transaction)
  /\ (forall world : World.t,
        signWithTokenFee connection feePayer maxSignatures lamports1
                         allowedTokens sameSourceTimeout world
        = signWithTokenFee connection feePayer maxSignatures lamports2
                           allowedTokens sameSourceTimeout world)
  /\ (forall world : World.t,
        createAccountIfTokenFeePaid connection feePayer maxSignatures lamports1
                                    allowedTokens sameSourceTimeout world
        = createAccountIfTokenFeePaid connection feePayer maxSignatures lamports2
                                      allowedTokens sameSourceTimeout world).
Proof.
  repeat split; intros; reflexivity.
Qed.

End FeeCeiling.

(** ** The per-source cooldown *)

Section Lockout.
Context `{Web3}.

Lemma sourceLockout_locked (family : string) (transfer : Transfer.t)
    (sameSourceTimeout : Z) (w : World.t) (lastSignature : Z) :
  World.cache w !! lastSignatureKey family (pubkey (Transfer.source transfer))
    = Some (VNum lastSignature) ->
  lastSignature <> 0 ->
  World.clock w 0%nat - lastSignature < sameSourceTimeout ->
  sourceLockout family transfer sameSourceTimeout w
    = (throw (Error "duplicate transfer"), World.tick w).
Proof.
  intros Hget Hnz Hwin. destruct w as [transaction cache clock].
  unfold sourceLockout, onCache, cache_get, gets, pure_, Date_now.
  world_step in Hget; world_step in Hwin; world_step. rewrite Hget. cbn [truthy toNumber].
  rewrite (proj2 (Z.eqb_neq _ _) Hnz). cbn [negb]. world_step.
  rewrite (proj2 (Z.ltb_lt _ _) Hwin). reflexivity.
Qed.

Lemma sourceLockout_elapsed (family : string) (transfer : Transfer.t)
    (sameSourceTimeout : Z) (w : World.t) (lastSignature : Z) :
  World.cache w !! lastSignatureKey family (pubkey (Transfer.source transfer))
    = Some (VNum lastSignature) ->
  lastSignature <> 0 ->
  sameSourceTimeout <= World.clock w 0%nat - lastSignature ->
  sourceLockout family transfer sameSourceTimeout w
    = (ok tt,
       World.withCache
         (<[lastSignatureKey family (pubkey (Transfer.source transfer))
            := VNum (World.clock w 1%nat)]> (World.cache w))
         (World.tick (World.tick w))).
Proof.
  intros Hget Hnz Hwin. destruct w as [transaction cache clock].
  unfold sourceLockout, onCache, cache_get, cache_set, gets, modify, pure_, Date_now.
  world_step in Hget; world_step in Hwin; world_step. rewrite Hget. cbn [truthy toNumber].
  rewrite (proj2 (Z.eqb_neq _ _) Hnz). cbn [negb]. world_step.
  rewrite (proj2 (Z.ltb_ge _ _) Hwin). reflexivity.
Qed.

Lemma sourceLockout_fresh (family : string) (transfer : Transfer.t)
    (sameSourceTimeout : Z) (w : World.t) :
  World.cache w !! lastSignatureKey family (pubkey (Transfer.source transfer)) = None ->
  sourceLockout family transfer sameSourceTimeout w
    = (ok tt,
       World.withCache
         (<[lastSignatureKey family (pubkey (Transfer.source transfer))
            := VNum (World.clock w 0%nat)]> (World.cache w))
         (World.tick w)).
Proof.
  intros Hget. destruct w as [transaction cache clock].
  unfold sourceLockout, onCache, cache_get, cache_set, gets, modify, pure_, Date_now.
  world_step in Hget; world_step. rewrite Hget. reflexivity.
Qed.

(** What [signWithTokenFee] does once its stages before the lockout have
    succeeded. *)
Lemma signWithTokenFee_from_lockout (connection : Connection) (feePayer : Keypair.t)
    (maxSignatures lamportsPerSignature : Z) (allowedTokens : list TokenFee.t)
    (sameSourceTimeout : option Z) (w0 w2 : World.t)
    (signed : string * Buffer) (transfer : Transfer.t) :
  signReachesLockout connection feePayer maxSignatures lamportsPerSignature
                     allowedTokens w0 w2 signed transfer ->
  signWithTokenFee connection feePayer maxSignatures lamportsPerSignature
                   allowedTokens sameSourceTimeout w0
  = (sourceLockout "transfer" transfer (default 5000 sameSourceTimeout) ;;
     pure_ (simulateRawTransaction connection (snd signed)) ;;
     ret (fst signed)) w2.
Proof.
  intros (w1 & Hdup & Hsign & Hix & Htransfer). unfold signWithTokenFee.
  cbn [bind M_Monad]. rewrite Hdup. unfold ok in Hsign. rewrite Hsign.
  unfold gets, pure_. rewrite Hix, Htransfer. reflexivity.
Qed.

Lemma createAccountIfTokenFeePaid_from_lockout (connection : Connection)
    (feePayer : Keypair.t) (maxSignatures lamportsPerSignature : Z)
    (allowedTokens : list TokenFee.t) (sameSourceTimeout : option Z)
    (w0 w3 : World.t) (signed : string * Buffer) (transfer : Transfer.t) :
  createAccountReachesLockout connection feePayer maxSignatures lamportsPerSignature
                              allowedTokens w0 w3 signed transfer ->
  createAccountIfTokenFeePaid connection feePayer maxSignatures lamportsPerSignature
                              allowedTokens sameSourceTimeout w0
  = (sourceLockout "createAccount" transfer (default 5000 sameSourceTimeout) ;;
     pure_ (simulateRawTransaction connection (snd signed)) ;;
     ret (fst signed)) w3.
Proof.
  intros (w1 & w2 & Hdup & Hsign & Hinit & Htransfer).
  unfold createAccountIfTokenFeePaid.
  cbn [bind M_Monad]. rewrite Hdup. unfold ok in Hsign. rewrite Hsign.
  unfold gets. unfold ok in Hinit. rewrite Hinit.
  unfold pure_. rewrite Htransfer. reflexivity.
Qed.

(** C5.  The stage [SOURCE_LOCKOUT_CHECK], for either key family: with a
    timestamp under the source's key and the clock less than the cooldown
    past it, the stage throws [duplicate transfer] and writes nothing; with
    no entry under the key, or with a timestamp at least the cooldown old,
    the stage succeeds and stores under the key the reading of the clock
    taken for the write.  Both orchestrators, once their earlier stages
    have succeeded, run this stage on the validated transfer,
    [signWithTokenFee] under [transfer/lastSignature/<source>] and
    [createAccountIfTokenFeePaid] under [createAccount/lastSignature/<source>],
    with a cooldown of 5000 ms when none is given; so within the cooldown
    each of them fails with [duplicate transfer]. *)
Theorem per_source_cooldown :
  (forall (family : string) (transfer : Transfer.t) (sameSourceTimeout : Z)
          (w : World.t),
      let key := lastSignatureKey family (pubkey (Transfer.source transfer)) in
      (inCooldown family transfer sameSourceTimeout w ->
       sourceLockout family transfer sameSourceTimeout w
         = (throw (Error "duplicate transfer"), World.tick w))
      /\ (World.cache w !! key = None ->
          sourceLockout family transfer sameSourceTimeout w
            = (ok tt,
               World.withCache (<[key := VNum (World.clock w 0%nat)]> (World.cache w))
                               (World.tick w)))
      /\ (forall lastSignature : Z,
            World.cache w !! key = Some (VNum lastSignature) ->
            lastSignature <> 0 ->
            sameSourceTimeout <= World.clock w 0%nat - lastSignature ->
            sourceLockout family transfer sameSourceTimeout w
              = (ok tt,
                 World.withCache
                   (<[key := VNum (World.clock w 1%nat)]> (World.cache w))
                   (World.tick (World.tick w)))))
  /\ (forall (connection : Connection) (feePayer : Keypair.t)
             (maxSignatures lamportsPerSignature : Z) (allowedTokens : list TokenFee.t)
             (sameSourceTimeout : option Z) (w0 w2 : World.t)
             (signed : string * Buffer) (transfer : Transfer.t),
        signReachesLockout connection feePayer maxSignatures lamportsPerSignature
                           allowedTokens w0 w2 signed transfer ->
        signWithTokenFee connection feePayer maxSignatures lamportsPerSignature
                         allowedTokens sameSourceTimeout w0
        = (sourceLockout "transfer" transfer (default 5000 sameSourceTimeout) ;;
           pure_ (simulateRawTransaction connection (snd signed)) ;;
           ret (fst signed)) w2
        /\ (inCooldown "transfer" transfer (default 5000 sameSourceTimeout) w2 ->
            signWithTokenFee connection feePayer maxSignatures lamportsPerSignature
                             allowedTokens sameSourceTimeout w0
            = (throw (Error "duplicate transfer"), World.tick w2)))
  /\ (forall (connection : Connection) (feePayer : Keypair.t)
             (maxSignatures lamportsPerSignature : Z) (allowedTokens : list TokenFee.t)
             (sameSourceTimeout : option Z) (w0 w3 : World.t)
             (signed : string * Buffer) (transfer : Transfer.t),
        createAccountReachesLockout connection feePayer maxSignatures
                                    lamportsPerSignature allowedTokens
                                    w0 w3 signed transfer ->
        createAccountIfTokenFeePaid connection feePayer maxSignatures
                                    lamportsPerSignature allowedTokens
                                    sameSourceTimeout w0
        = (sourceLockout "createAccount" transfer (default 5000 sameSourceTimeout) ;;
           pure_ (simulateRawTransaction connection (snd signed)) ;;
           ret (fst signed)) w3
        /\ (inCooldown "createAccount" transfer (default 5000 sameSourceTimeout) w3 ->
            createAccountIfTokenFeePaid connection feePayer maxSignatures
                                        lamportsPerSignature allowedTokens
                                        sameSourceTimeout w0
            = (throw (Error "duplicate transfer"), World.tick w3))).
Proof.
  split; [|split].
  - intros family transfer sameSourceTimeout w key. subst key. split; [|split].
    + intros (lastSignature & Hget & Hnz & Hwin).
      eapply sourceLockout_locked; eassumption.
    + apply sourceLockout_fresh.
    + apply sourceLockout_elapsed.
  - intros connection feePayer maxSignatures lamportsPerSignature allowedTokens
      sameSourceTimeout w0 w2 signed transfer Hreach.
    pose proof (signWithTokenFee_from_lockout _ _ _ _ _ sameSourceTimeout _ _ _ _ Hreach)
      as Hrun.
    split; [exact Hrun|]. intros (lastSignature & Hget & Hnz & Hwin).
    rewrite Hrun. cbn [bind M_Monad].
    rewrite (sourceLockout_locked _ _ _ _ _ Hget Hnz Hwin). reflexivity.
  - intros connection feePayer maxSignatures lamportsPerSignature allowedTokens
      sameSourceTimeout w0 w3 signed transfer Hreach.
    pose proof (createAccountIfTokenFeePaid_from_lockout
                  _ _ _ _ _ sameSourceTimeout _ _ _ _ Hreach) as Hrun.
    split; [exact Hrun|]. intros (lastSignature & Hget & Hnz & Hwin).
    rewrite Hrun. cbn [bind M_Monad].
    rewrite (sourceLockout_locked _ _ _ _ _ Hget Hnz Hwin). reflexivity.
Qed.

End Lockout.

(** ** Replay of a signing payload *)

Section Replay.
Context `{Web3}.

(** The three other key families never collide with [transaction/...]. *)
Lemma transactionKey_lastSignature_transfer (message : Buffer) (source : PublicKey) :
  lastSignatureKey "transfer" source <> transactionKey message.
Proof. unfold lastSignatureKey, transactionKey. simpl. discriminate. Qed.

Lemma transactionKey_lastSignature_createAccount (message : Buffer) (source : PublicKey) :
  lastSignatureKey "createAccount" source <> transactionKey message.
Proof. unfold lastSignatureKey, transactionKey. simpl. discriminate. Qed.

Lemma transactionKey_account (message : Buffer) (transaction : Transaction.t)
    (associatedToken : PublicKey) :
  accountCacheKey transaction associatedToken <> transactionKey message.
Proof. unfold accountCacheKey, transactionKey. simpl. discriminate. Qed.

Lemma keepsMark_bind {A B : Type} (key : string) (c : M World.t A)
    (k : A -> M World.t B) :
  keepsMark key c -> (forall a, keepsMark key (k a)) -> keepsMark key (bind c k).
Proof.
  intros Hc Hk w Hw. specialize (Hc w Hw). cbn [bind M_Monad].
  destruct (c w) as [[e|a] w']; cbn [snd] in *; [exact Hc|]. apply Hk, Hc.
Qed.

Lemma keepsMark_pure {A : Type} (key : string) (r : result A) :
  keepsMark key (pure_ r).
Proof. intros w Hw. exact Hw. Qed.

Lemma keepsMark_ret {A : Type} (key : string) (a : A) :
  keepsMark key (ret a : M World.t A).
Proof. intros w Hw. exact Hw. Qed.

Lemma keepsMark_gets {A : Type} (key : string) (f : World.t -> A) :
  keepsMark key (gets f).
Proof. intros w Hw. exact Hw. Qed.

Lemma keepsMark_Date_now (key : string) : keepsMark key Date_now.
Proof. intros w Hw. exact Hw. Qed.

Lemma keepsMark_onTransaction {A : Type} (key : string) (c : M Transaction.t A) :
  keepsMark key (onTransaction c).
Proof.
  intros w Hw. unfold onTransaction.
  destruct (c (World.transaction w)) as [r t]. exact Hw.
Qed.

Lemma keepsMark_cache_get (key key' : string) : keepsMark key (onCache (cache_get key')).
Proof. intros w Hw. exact Hw. Qed.

Lemma keepsMark_cache_set (key key' : string) (value : Value) :
  key' <> key -> keepsMark key (onCache (cache_set key' value)).
Proof.
  intros Hne w Hw. unfold onCache, cache_set, modify. cbn [snd World.withCache World.cache].
  rewrite lookup_insert_ne by exact Hne. exact Hw.
Qed.

Lemma keepsMark_sourceLockout (key family : string) (transfer : Transfer.t)
    (sameSourceTimeout : Z) :
  lastSignatureKey family (pubkey (Transfer.source transfer)) <> key ->
  keepsMark key (sourceLockout family transfer sameSourceTimeout).
Proof.
  intros Hne. unfold sourceLockout.
  apply keepsMark_bind; [apply keepsMark_cache_get|]. intros lastSignature.
  apply keepsMark_bind.
  { destruct lastSignature as [value|]; [|apply keepsMark_ret].
    destruct (truthy (Some value)); [|apply keepsMark_ret].
    apply keepsMark_bind; [apply keepsMark_Date_now|]. intros now.
    apply keepsMark_ret. }
  intros locked. apply keepsMark_bind; [apply keepsMark_pure|]. intros _.
  apply keepsMark_bind; [apply keepsMark_Date_now|]. intros now.
  apply keepsMark_cache_set, Hne.
Qed.

Lemma keepsMark_validateAccountInitialization (message : Buffer)
    (connection : Connection) (transaction : Transaction.t) (feePayer : Keypair.t) :
  keepsMark (transactionKey message)
    (onCache (validateAccountInitializationInstructions connection transaction feePayer)).
Proof.
  intros w Hw. unfold onCache.
  destruct (validateAccountInitializationInstructions_cases
              connection transaction feePayer (World.cache w))
    as [(e & E) | (t & ix & o & m & a & _ & _ & _ & _ & E)]; rewrite E;
    cbn [snd World.withCache World.cache]; [exact Hw|].
  rewrite lookup_insert_ne by apply transactionKey_account. exact Hw.
Qed.

(** The stage [DUPLICATE_CHECK] on a transaction whose payload is [message]. *)
Lemma duplicateCheck_run (w : World.t) (message : Buffer) :
  serializeMessage (World.transaction w) = ok message ->
  duplicateCheck w =
    if truthy (World.cache w !! transactionKey message)
    then (throw (Error "duplicate transaction"), w)
    else (ok tt, World.withCache
                   (<[transactionKey message := VBool true]> (World.cache w)) w).
Proof.
  intros Hmsg. destruct w as [transaction cache clock].
  unfold duplicateCheck, gets, pure_, onCache, cache_get, cache_set, modify.
  world_step. world_step in Hmsg. rewrite Hmsg.
  cbn -[transactionKey truthy lookup insert].
  destruct (truthy (cache !! transactionKey message)); reflexivity.
Qed.

(** Every orchestrator is the duplicate check followed by stages that keep
    the mark of the payload. *)
Lemma orchestrator_stages (action : M World.t string) (message : Buffer) :
  orchestrator action ->
  exists rest : M World.t string,
    action = (duplicateCheck ;; rest)
    /\ keepsMark (transactionKey message) rest.
Proof.
  intros (connection & feePayer & maxSignatures & lamportsPerSignature
          & allowedTokens & sameSourceTimeout & [-> | ->]).
  - eexists. split; [reflexivity|].
    apply keepsMark_bind; [apply keepsMark_onTransaction|]. intros signed.
    apply keepsMark_bind; [apply keepsMark_gets|]. intros transaction.
    apply keepsMark_bind; [apply keepsMark_pure|]. intros _.
    apply keepsMark_bind; [apply keepsMark_pure|]. intros transfer.
    apply keepsMark_bind;
      [apply keepsMark_sourceLockout, transactionKey_lastSignature_transfer|].
    intros _. apply keepsMark_bind; [apply keepsMark_pure|]. intros _.
    apply keepsMark_ret.
  - eexists. split; [reflexivity|].
    apply keepsMark_bind; [apply keepsMark_onTransaction|]. intros signed.
    apply keepsMark_bind; [apply keepsMark_gets|]. intros transaction.
    apply keepsMark_bind; [apply keepsMark_validateAccountInitialization|]. intros _.
    apply keepsMark_bind; [apply keepsMark_pure|]. intros transfer.
    apply keepsMark_bind;
      [apply keepsMark_sourceLockout, transactionKey_lastSignature_createAccount|].
    intros _. apply keepsMark_bind; [apply keepsMark_pure|]. intros _.
    apply keepsMark_ret.
Qed.

(** C2.  Let [first] and [second] each be [signWithTokenFee] or
    [createAccountIfTokenFeePaid], on any arguments, and let the
    transaction handed to [first] have the signing payload [message].  If
    the key [transaction/<base58(sha256(message))>] was not set before,
    it holds [true] after [first], whatever [first] returned or threw: it
    is written before the other stages and none of them removes it.  And
    [second], run on the cache [first] left and on a transaction with the
    same payload, throws [duplicate transaction] and changes nothing. *)
Theorem duplicate_transaction_replay (first second : M World.t string)
    (message : Buffer) (w0 : World.t) :
  orchestrator first ->
  orchestrator second ->
  serializeMessage (World.transaction w0) = ok message ->
  (truthy (World.cache w0 !! transactionKey message) = false ->
   World.cache (snd (first w0)) !! transactionKey message = Some (VBool true))
  /\ (forall w1 : World.t,
        World.cache w1 = World.cache (snd (first w0)) ->
        serializeMessage (World.transaction w1) = ok message ->
        second w1 = (throw (Error "duplicate transaction"), w1)).
Proof.
  intros Hfirst Hsecond Hmsg.
  destruct (orchestrator_stages first message Hfirst) as (rest1 & -> & Hkeep).
  destruct (orchestrator_stages second message Hsecond) as (rest2 & -> & _).
  assert (Hafter : truthy (World.cache (snd ((duplicateCheck ;; rest1) w0))
                           !! transactionKey message) = true
                   /\ (truthy (World.cache w0 !! transactionKey message) = false ->
                       World.cache (snd ((duplicateCheck ;; rest1) w0))
                         !! transactionKey message = Some (VBool true))).
  { cbn [bind M_Monad]. rewrite (duplicateCheck_run w0 message Hmsg).
    destruct (truthy (World.cache w0 !! transactionKey message)) eqn:Hseen.
    - cbn [snd]. split; [exact Hseen | discriminate].
    - assert (Hset : World.cache (snd (rest1 (World.withCache
                       (<[transactionKey message := VBool true]> (World.cache w0)) w0)))
                     !! transactionKey message = Some (VBool true)).
      { apply Hkeep. cbn [World.withCache World.cache]. apply lookup_insert_eq. }
      unfold ok. cbv beta iota.
      split; [rewrite Hset; reflexivity | intros _; exact Hset]. }
  destruct Hafter as [Htruthy Hset]. split; [exact Hset|].
  intros w1 Hcache Hmsg1. cbn [bind M_Monad].
  rewrite (duplicateCheck_run w1 message Hmsg1), Hcache, Htruthy. reflexivity.
Qed.

End Replay.

(** ** Runs on the devnet *)

Section DevnetRuns.
Import Devnet.

(** The custody slot comes already signed: check (4) fails, and the
    transaction is handed back as it came. *)
Lemma validateTransaction_checks_in_order_witness :
  (forall primary, head (Transaction.signatures presigned) = Some primary ->
                   is_Some (publicKey primary))
  /\ validateTransaction (H := web3) (node []) custody 2 5000 presigned
     = (throw (Error "invalid fee payer signature"), presigned).
Proof.
  assert (Htyped : forall primary,
             head (Transaction.signatures presigned) = Some primary ->
             is_Some (publicKey primary)).
  { intros primary [= <-]. eexists. reflexivity. }
  split; [exact Htyped|].
  pose proof (proj1 (validateTransaction_checks_in_order (H := web3)
                       (node []) custody 2 5000 presigned Htyped)) as Hrun.
  exact (proj1 Hrun).
Defined.

Lemma payment_reaches_fee_check (amount : Byte.byte) :
  Z.of_N (Byte.to_N amount) <= 100 ->
  reachesFeeCheck (H := web3) (node [])
    (transactionOf [unsigned (Keypair.publicKey custody); signedBy alice]
                   [transferOf amount])
    allowedTokens (transferOf amount)
    (decodedTransfer (Z.of_N (Byte.to_N amount))) usdcFee.
Proof.
  intros Hfunds. split; [reflexivity|]. split; [reflexivity|].
  eexists. split; [reflexivity|]. split; [reflexivity|]. split; [reflexivity|].
  split; [exact Hfunds | reflexivity].
Qed.

(** A transfer of 24 against a fee of 25 is refused; one of 25 passes the
    amount check. *)
Lemma validateTransfer_invalid_amount_witness :
  validateTransfer (H := web3) (node [])
    (transactionOf [unsigned (Keypair.publicKey custody); signedBy alice]
                   [transferOf Byte.x18])
    allowedTokens
  = throw (Error "invalid amount")
  /\ validateTransfer (H := web3) (node []) payment allowedTokens
     <> throw (Error "invalid amount").
Proof.
  split.
  - apply (proj1 (validateTransfer_invalid_amount (H := web3) (node []) _ allowedTokens
                    (transferOf Byte.x18) (decodedTransfer 24) usdcFee
                    (payment_reaches_fee_check Byte.x18 ltac:(vm_compute; discriminate)))).
    reflexivity.
  - apply (proj2 (validateTransfer_invalid_amount (H := web3) (node []) payment
                    allowedTokens transferInstruction (decodedTransfer 25) usdcFee
                    (payment_reaches_fee_check Byte.x19 ltac:(vm_compute; discriminate)))).
    reflexivity.
Defined.

(** One instruction of another program: nothing to decode.  The same
    followed by a transfer: the transfer is the one validated. *)
Lemma validateTransfer_first_token_instruction_witness :
  validateTransfer (H := web3) (node []) (transactionOf [] [drain false false])
                   allowedTokens
  = throw (Error "missing token instruction")
  /\ validateTransfer (H := web3) (node [])
       (transactionOf [] [drain false false; transferInstruction]) allowedTokens
     = validateTokenInstruction (H := web3) (node [])
         (transactionOf [] [drain false false; transferInstruction]) allowedTokens
         transferInstruction.
Proof.
  split.
  - apply (proj1 (validateTransfer_first_token_instruction (H := web3) (node [])
                    (transactionOf [] [drain false false]) allowedTokens)).
    repeat constructor. discriminate.
  - apply (proj2 (validateTransfer_first_token_instruction (H := web3) (node [])
                    (transactionOf [] [drain false false; transferInstruction])
                    allowedTokens)
             [drain false false] [] transferInstruction).
    + reflexivity.
    + repeat constructor. discriminate.
    + reflexivity.
Defined.

(** Alice's associated account is already on chain. *)
Lemma validateAccountInitialization_marks_last_witness :
  validateAccountInitializationInstructions (H := web3) (node [aliceAssociated])
    accountCreation custody ∅
  = (throw (Error "account already exists"), ∅).
Proof.
  apply (proj1 (validateAccountInitialization_marks_last (H := web3)
                  (node [aliceAssociated]) accountCreation custody ∅)
           accountCreation
           (createInstruction (Keypair.publicKey custody) aliceAssociated alice usdc)
           (meta alice false false) (meta usdc false false) aliceAssociated
           {| lamports := 2039280; executable := false |}).
  - split; [exists [Byte.x02]; split; reflexivity|].
    repeat split; reflexivity.
  - reflexivity.
Defined.

(** A second payment from Alice's token account one second after the
    first, with the default cooldown: refused, and the timestamp stays. *)
Lemma per_source_cooldown_witness :
  let key := lastSignatureKey (H := web3) "transfer" aliceToken in
  let w0 := worldOf payment {[ key := VNum 999000 ]} 1000000 in
  fst (signWithTokenFee (H := web3) (node []) custody 2 5000 allowedTokens None w0)
    = throw (Error "duplicate transfer")
  /\ World.cache
       (snd (signWithTokenFee (H := web3) (node []) custody 2 5000 allowedTokens None w0))
     !! key = Some (VNum 999000).
Proof.
  intros key w0.
  pose (w1 := World.withCache
                (<[transactionKey (H := web3) (String.list_byte_of_string "blockhash")
                   := VBool true]> (World.cache w0)) w0).
  pose (w2 := World.withTransaction
                (transactionOf [{| signature := Some [Byte.x2a];
                                   publicKey := Some (Keypair.publicKey custody) |};
                                signedBy alice]
                               [transferInstruction]) w1).
  assert (Hreach : signReachesLockout (H := web3) (node []) custody 2 5000 allowedTokens
                     w0 w2 ("*", [Byte.x01]) (decodedTransfer 25)).
  { exists w1. repeat split; reflexivity. }
  assert (Hcool : inCooldown (H := web3) "transfer" (decodedTransfer 25)
                    (default 5000 None) w2).
  { exists 999000. split; [reflexivity|]. split; [discriminate | reflexivity]. }
  rewrite (proj2 (proj1 (proj2 (per_source_cooldown (H := web3)))
                    (node []) custody 2 5000 allowedTokens None w0 w2
                    ("*", [Byte.x01]) (decodedTransfer 25) Hreach) Hcool).
  split; reflexivity.
Defined.

Lemma signWithTokenFee_orchestrator (connection : Connection) (feePayer : Keypair.t)
    (maxSignatures lamportsPerSignature : Z) (allowedTokens : list TokenFee.t)
    (sameSourceTimeout : option Z) :
  orchestrator (H := web3)
    (signWithTokenFee (H := web3) connection feePayer maxSignatures
                      lamportsPerSignature allowedTokens sameSourceTimeout).
Proof. do 6 eexists. left. reflexivity. Qed.

(** A request that fails at the envelope ([invalid fee payer signature])
    still leaves its mark, and the same request again is a duplicate. *)
Lemma duplicate_transaction_replay_witness :
  let action := signWithTokenFee (H := web3) (node []) custody 2 5000 allowedTokens None in
  let message := String.list_byte_of_string "blockhash" in
  let w0 := worldOf presigned ∅ 1000000 in
  fst (action w0) = throw (Error "invalid fee payer signature")
  /\ World.cache (snd (action w0)) !! transactionKey (H := web3) message
     = Some (VBool true)
  /\ action (snd (action w0)) = (throw (Error "duplicate transaction"), snd (action w0)).
Proof.
  intros action message w0.
  pose proof (duplicate_transaction_replay (H := web3) action action message w0
                (signWithTokenFee_orchestrator _ _ _ _ _ _)
                (signWithTokenFee_orchestrator _ _ _ _ _ _)
                eq_refl) as [Hmark Hagain].
  split; [reflexivity|]. split.
  - apply Hmark. reflexivity.
  - apply Hagain; reflexivity.
Defined.

(** Scenario A: the payment of exactly the fee goes through, the custody
    slot gets its signature, and both keys are written. *)
Example payment_is_signed :
  let run := signWithTokenFee (H := web3) (node []) custody 2 5000 allowedTokens None
               (worldOf payment ∅ 1000000) in
  fst run = ok "*"
  /\ Transaction_signature (World.transaction (snd run)) = Some [Byte.x2a]
  /\ World.cache (snd run)
       !! transactionKey (H := web3) (String.list_byte_of_string "blockhash")
     = Some (VBool true)
  /\ World.cache (snd run) !! lastSignatureKey (H := web3) "transfer" aliceToken
     = Some (VNum 1000000).
Proof. repeat split; vm_compute; reflexivity. Qed.

(** Scenario C: the associated account exists already; the request fails
    and the key [account/...] is not in the cache. *)
Example existing_account_is_refused :
  let run := createAccountIfTokenFeePaid (H := web3) (node [aliceAssociated]) custody
               2 5000 allowedTokens None (worldOf accountCreation ∅ 1000000) in
  fst run = throw (Error "account already exists")
  /\ World.cache (snd run) !! accountCacheKey (H := web3) accountCreation aliceAssociated
     = None.
Proof. repeat split; vm_compute; reflexivity. Qed.

End DevnetRuns.

(** ** The envelope, beyond the checks *)

Section EnvelopeOutcome.
Context `{Web3}.

Lemma validateSecondary_ok (secondary : list SignaturePubkeyPair) :
  validateSecondary secondary = ok tt ->
  Forall (fun slot => is_Some (publicKey slot) /\ is_Some (signature slot)) secondary.
Proof.
  induction secondary as [|slot rest IH]; simpl; [constructor|].
  destruct (publicKey slot) as [key|] eqn:Hkey; js_step; [|discriminate].
  destruct (signature slot) as [bytes|] eqn:Hsig; js_step; [|discriminate].
  intros Hrest. constructor; [|apply IH, Hrest].
  rewrite Hkey, Hsig. split; eexists; reflexivity.
Qed.

Lemma validateTransactionChecks_ok (transaction : Transaction.t) (feePayer : Keypair.t)
    (maxSignatures : Z) :
  validateTransactionChecks transaction feePayer maxSignatures = ok tt ->
  validEnvelope transaction feePayer maxSignatures.
Proof.
  unfold validateTransactionChecks, validEnvelope.
  destruct (Transaction.feePayer transaction) as [payer|]; js_step; [|discriminate].
  destruct (equals payer (Keypair.publicKey feePayer)) eqn:Hpayer; js_step; [|discriminate].
  apply equals_eq in Hpayer. subst payer.
  destruct (truthyString (Transaction.recentBlockhash transaction)) eqn:Hhash; js_step;
    [|discriminate].
  apply truthyString_present in Hhash.
  destruct (Z.of_nat (length (Transaction.signatures transaction)) =? 0) eqn:Hzero; js_step;
    [discriminate|].
  destruct (maxSignatures <? Z.of_nat (length (Transaction.signatures transaction)))
    eqn:Hmax; js_step; [discriminate|].
  apply Z.ltb_ge in Hmax.
  destruct (Transaction.signatures transaction) as [|primary secondary] eqn:Hslots;
    js_step; [discriminate|].
  destruct (publicKey primary) as [key|] eqn:Hkey; js_step; [|discriminate].
  destruct (equals key (Keypair.publicKey feePayer)) eqn:Hprimary; js_step; [|discriminate].
  apply equals_eq in Hprimary. subst key.
  destruct (signature primary) as [bytes|] eqn:Hsig; js_step; [discriminate|].
  intros Hsecondary. split; [reflexivity|]. split; [exact Hhash|].
  exists primary, secondary. split; [reflexivity|]. split; [exact Hmax|].
  split; [exact Hkey|]. split; [exact Hsig|]. apply validateSecondary_ok, Hsecondary.
Qed.

Lemma validateTransaction_ok_inv (connection : Connection)
    (feePayer : Keypair.t) (maxSignatures lamportsPerSignature : Z)
    (transaction signed : Transaction.t) (primarySignature : string)
    (rawTransaction : Buffer) :
  validateTransaction connection feePayer maxSignatures lamportsPerSignature transaction
    = (ok (primarySignature, rawTransaction), signed) ->
  validEnvelope transaction feePayer maxSignatures
  /\ partialSign feePayer transaction = (ok tt, signed)
  /\ serialize true signed = ok rawTransaction
  /\ exists bytes : Buffer,
      Transaction_signature signed = Some bytes
      /\ primarySignature = base58_encode bytes.
Proof.
  rewrite validateTransaction_unfold.
  destruct (validateTransactionChecks transaction feePayer maxSignatures) as [e|[]] eqn:Hchecks;
    [discriminate|].
  apply validateTransactionChecks_ok in Hchecks.
  cbn [bind M_Monad]. unfold gets, pure_.
  destruct (partialSign feePayer transaction) as [[e|[]] after] eqn:Hsign; [discriminate|].
  cbn [id]. destruct (serialize true after) as [e|raw] eqn:Hraw; [discriminate|].
  destruct (Transaction_signature after) as [bytes|] eqn:Hbytes; js_step; [|discriminate].
  cbn [ret M_Monad]. intros [= <- <- <-].
  split; [exact Hchecks|]. split; [reflexivity|]. split; [exact Hraw|].
  exists bytes. split; [exact Hbytes | reflexivity].
Qed.

(** X1.  When [validateTransaction] returns, the transaction it was given
    had a valid envelope, the state it leaves is the one [partialSign] made
    of it, the raw bytes are the serialization of that signed transaction
    and the signature returned is the base-58 text of its first slot's
    signature. *)
Theorem validateTransaction_returns_signed (connection : Connection)
    (feePayer : Keypair.t) (maxSignatures lamportsPerSignature : Z)
    (transaction signed : Transaction.t) (primarySignature : string)
    (rawTransaction : Buffer) :
  validateTransaction connection feePayer maxSignatures lamportsPerSignature transaction
    = (ok (primarySignature, rawTransaction), signed) ->
  validEnvelope transaction feePayer maxSignatures
  /\ partialSign feePayer transaction = (ok tt, signed)
  /\ serialize true signed = ok rawTransaction
  /\ exists bytes : Buffer,
      Transaction_signature signed = Some bytes
      /\ primarySignature = base58_encode bytes.
Proof.
  apply validateTransaction_ok_inv.
Qed.

(** X2.  [validateTransaction] changes the transaction through [partialSign]
    and in no other way: when a check fails the transaction is as it was, and
    when the checks pass it is as [partialSign] left it, also when
    [serialize] then throws (the signature stays attached). *)
Theorem validateTransaction_changes_only_by_signing (connection : Connection)
    (feePayer : Keypair.t) (maxSignatures lamportsPerSignature : Z)
    (transaction : Transaction.t) :
  let after :=
    snd (validateTransaction connection feePayer maxSignatures lamportsPerSignature
           transaction) in
  (validateTransactionChecks transaction feePayer maxSignatures <> ok tt ->
   after = transaction)
  /\ (validateTransactionChecks transaction feePayer maxSignatures = ok tt ->
      after = snd (partialSign feePayer transaction)
      /\ forall e : Exn,
          fst (partialSign feePayer transaction) = ok tt ->
          serialize true after = throw e ->
          validateTransaction connection feePayer maxSignatures lamportsPerSignature
            transaction = (throw e, after)).
Proof.
  cbv zeta. rewrite validateTransaction_unfold.
  destruct (validateTransactionChecks transaction feePayer maxSignatures) as [e|[]] eqn:Hchecks.
  - split; [reflexivity | discriminate].
  - split; [intros Hne; exfalso; apply Hne; reflexivity|]. intros _.
    cbn [bind M_Monad]. unfold gets, pure_.
    destruct (partialSign feePayer transaction) as [[e|[]] after] eqn:Hsign;
      cbn [snd fst id].
    + split; [reflexivity | discriminate].
    + destruct (serialize true after) as [e|raw] eqn:Hraw.
      * split; [reflexivity|]. intros e' _ Heq. cbn [snd] in Heq |- *.
        rewrite Hraw in Heq. injection Heq as ->. reflexivity.
      * destruct (deref (Transaction_signature after)) as [e|bytes];
          cbn [snd ret M_Monad];
          (split; [reflexivity | intros e' _ Hthrow; rewrite Hraw in Hthrow;
                                 discriminate Hthrow]).
Qed.

End EnvelopeOutcome.

(** ** Instruction security, beyond the verdict *)

Lemma validateInstructionList_app (feePayer : Keypair.t)
    (a b : list TransactionInstruction) :
  validateInstructionList feePayer (a ++ b)
  = (validateInstructionList feePayer a ;; validateInstructionList feePayer b).
Proof.
  induction a as [|ix rest IH]; simpl; [reflexivity|].
  destruct (validateKeys feePayer (keys ix)); simpl; [reflexivity | exact IH].
Qed.

Lemma validateInstructionList_permutation (feePayer : Keypair.t)
    (ixs ixs' : list TransactionInstruction) :
  ixs ≡ₚ ixs' ->
  validateInstructionList feePayer ixs = validateInstructionList feePayer ixs'.
Proof.
  intros Hperm.
  assert (Hmove : forall l l' : list TransactionInstruction, l ≡ₚ l' ->
             validateInstructionList feePayer l = throw (Error "invalid account") ->
             validateInstructionList feePayer l' = throw (Error "invalid account")).
  { intros l l' Hl Hthrow. apply validateInstructionList_throws in Hthrow
      as (i & j & ix & key & Hi & Hj & Hkey).
    apply list_elem_of_lookup_2 in Hi. rewrite Hl in Hi.
    apply list_elem_of_lookup_1 in Hi as [i' Hi'].
    apply validateInstructionList_throws. exists i', j, ix, key. auto. }
  destruct (validateInstructionList_cases feePayer ixs) as [E|E],
           (validateInstructionList_cases feePayer ixs') as [E'|E'];
    rewrite E, E'; try reflexivity.
  - rewrite (Hmove _ _ Hperm E) in E'. exact E'.
  - symmetry in Hperm. rewrite (Hmove _ _ Hperm E') in E. symmetry. exact E.
Qed.

(** X3.  The verdict of [validateInstructions] depends on the instructions
    only, and not on their order: two transactions whose instruction lists
    are permutations of each other get the same result.  A transaction that
    carries the instructions of two others passes exactly as the two do in
    sequence. *)
Theorem validateInstructions_order_irrelevant (feePayer : Keypair.t)
    (transaction : Transaction.t) :
  (forall other : Transaction.t,
      Transaction.instructions transaction ≡ₚ Transaction.instructions other ->
      validateInstructions transaction feePayer = validateInstructions other feePayer)
  /\ (forall first second : Transaction.t,
        Transaction.instructions transaction
          = Transaction.instructions first ++ Transaction.instructions second ->
        validateInstructions transaction feePayer
          = (validateInstructions first feePayer ;; validateInstructions second feePayer)).
Proof.
  unfold validateInstructions. split.
  - intros other Hperm. apply validateInstructionList_permutation, Hperm.
  - intros first second ->. apply validateInstructionList_app.
Qed.

(** ** The transfer validator, beyond single checks *)

Section TransferOutcome.
Context `{Web3}.

Lemma validateTransfer_ok_intro (connection : Connection) (transaction : Transaction.t)
    (allowedTokens : list TokenFee.t) (instruction : Transfer.t) :
  acceptedTransfer connection transaction allowedTokens instruction ->
  validateTransfer connection transaction allowedTokens = ok instruction.
Proof.
  intros (tokenInstruction & token & second & Hreach & Hsecond & Hkey & Hwritable
          & Hsigner & Hchecked).
  rewrite (validateTransfer_from_owner_check _ _ _ _ _ _ Hreach).
  rewrite Hsecond. js_step. rewrite Hkey. cbn [equalsU]. js_step.
  rewrite (proj2 (equals_eq _ _) eq_refl), Hwritable, Hsigner. js_step.
  destruct (Transfer.checked instruction) as [[mint decimals]|]; [|reflexivity].
  destruct Hchecked as (-> & Hmint & Hmw & Hms).
  rewrite Z.eqb_refl, Hmint, (proj2 (equals_eq _ _) eq_refl), Hmw, Hms. reflexivity.
Qed.

Lemma validateTransfer_ok_inv (connection : Connection) (transaction : Transaction.t)
    (allowedTokens : list TokenFee.t) (instruction : Transfer.t) :
  validateTransfer connection transaction allowedTokens = ok instruction ->
  acceptedTransfer connection transaction allowedTokens instruction.
Proof.
  unfold validateTransfer, acceptedTransfer, reachesOwnerCheck, reachesFeeCheck.
  destruct (List.find _ (Transaction.instructions transaction)) as [tokenInstruction|]
    eqn:Hfind; [|discriminate].
  unfold validateTokenInstruction.
  destruct (decodeInstruction tokenInstruction) as [e|[decoded|]] eqn:Hdecode; js_step;
    try discriminate.
  destruct (getAccount connection (pubkey (Transfer.source decoded))) as [e|account]
    eqn:Haccount; js_step; [discriminate|].
  destruct (equals (Account.owner account) (pubkey (Transfer.owner decoded))) eqn:Howner;
    js_step; [|discriminate].
  destruct (Account.isFrozen account) eqn:Hfrozen; js_step; [discriminate|].
  destruct (Account.amount account <? Transfer.amount decoded) eqn:Hfunds; js_step;
    [discriminate|].
  destruct (List.find _ allowedTokens) as [token|] eqn:Htoken; [|discriminate].
  destruct (Transfer.amount decoded <? TokenFee.fee token) eqn:Hfee; js_step;
    [discriminate|].
  destruct (isSigner (Transfer.source decoded)) eqn:Hss; js_step; [discriminate|].
  destruct (equals (pubkey (Transfer.destination decoded)) (TokenFee.account token))
    eqn:Hdest; js_step; [|discriminate].
  destruct (isWritable (Transfer.destination decoded)) eqn:Hdw; js_step; [|discriminate].
  destruct (isSigner (Transfer.destination decoded)) eqn:Hds; js_step; [discriminate|].
  destruct (Transaction.signatures transaction !! 1%nat) as [second|] eqn:Hsecond; js_step;
    [|discriminate].
  destruct (publicKey second) as [key|] eqn:Hkey; cbn [equalsU]; js_step; [|discriminate].
  destruct (equals (pubkey (Transfer.owner decoded)) key) eqn:Hsigned; js_step;
    [|discriminate].
  destruct (isWritable (Transfer.owner decoded)) eqn:Hownw; js_step; [discriminate|].
  destruct (isSigner (Transfer.owner decoded)) eqn:Hos; js_step; [|discriminate].
  apply equals_eq in Howner, Hdest, Hsigned. apply Z.ltb_ge in Hfunds, Hfee.
  assert (Hchecked :
            (match Transfer.checked decoded with
             | Some (mint, decimals) =>
                 throwIf (negb (decimals =? TokenFee.decimals token)) "invalid decimals" ;;
                 throwIf (negb (equals (pubkey mint) (TokenFee.mint token))) "invalid mint" ;;
                 throwIf (isWritable mint) "mint is writable" ;;
                 throwIf (isSigner mint) "mint is signer"
             | None => ok tt
             end) = ok tt ->
            match Transfer.checked decoded with
            | Some (mint, decimals) =>
                decimals = TokenFee.decimals token
                /\ pubkey mint = TokenFee.mint token
                /\ isWritable mint = false
                /\ isSigner mint = false
            | None => True
            end).
  { destruct (Transfer.checked decoded) as [[mint decimals]|]; [|trivial].
    destruct (decimals =? TokenFee.decimals token) eqn:Hdec; js_step; [|discriminate].
    destruct (equals (pubkey mint) (TokenFee.mint token)) eqn:Hmint; js_step;
      [|discriminate].
    destruct (isWritable mint); js_step; [discriminate|].
    destruct (isSigner mint); js_step; [discriminate|].
    intros _. apply Z.eqb_eq in Hdec. apply equals_eq in Hmint. auto. }
  destruct (match Transfer.checked decoded with Some _ => _ | None => _ end)
    as [e|[]] eqn:Hmatch; js_step; [discriminate|].
  intros [= <-].
  exists tokenInstruction, token, second.
  split.
  { split.
    - split; [reflexivity|]. split; [exact Hdecode|].
      exists account. repeat split; assumption.
    - repeat split; assumption. }
  split; [reflexivity|]. split; [congruence|]. split; [assumption|].
  split; [assumption|]. apply Hchecked. reflexivity.
Qed.

(** The checks return a transfer exactly when it is an accepted one. *)
Lemma validateTransfer_ok_iff (connection : Connection)
    (transaction : Transaction.t) (allowedTokens : list TokenFee.t)
    (instruction : Transfer.t) :
  validateTransfer connection transaction allowedTokens = ok instruction
  <-> acceptedTransfer connection transaction allowedTokens instruction.
Proof.
  split; [apply validateTransfer_ok_inv | apply validateTransfer_ok_intro].
Qed.

Lemma validateTransfer_no_entry (connection : Connection) (transaction : Transaction.t)
    (instruction : Transfer.t) :
  validateTransfer connection transaction [] <> ok instruction.
Proof.
  intros Hok. apply validateTransfer_ok_inv in Hok
    as (ix & token & second & ((_ & _ & account & _ & _ & _ & _ & Hfind) & _) & _).
  discriminate Hfind.
Qed.

(** X6.  Of the allow-list only the first entry whose mint is the source
    account's mint counts: the entries before it do not match and the
    entries after it are never looked at, so the result is the one the
    list of that entry alone gives. *)
Theorem validateTransfer_first_matching_entry (connection : Connection)
    (transaction : Transaction.t) (tokenInstruction : TransactionInstruction)
    (instruction : Transfer.t) (account : Account.t)
    (before after : list TokenFee.t) (token : TokenFee.t) :
  List.find (fun ix => equals (programId ix) TOKEN_PROGRAM_ID)
            (Transaction.instructions transaction) = Some tokenInstruction ->
  decodeInstruction tokenInstruction = ok (DecodedTransfer instruction) ->
  getAccount connection (pubkey (Transfer.source instruction)) = ok account ->
  Forall (fun entry => TokenFee.mint entry <> Account.mint account) before ->
  TokenFee.mint token = Account.mint account ->
  validateTransfer connection transaction (before ++ token :: after)
  = validateTransfer connection transaction [token].
Proof.
  intros Hfind Hdecode Haccount Hbefore Htoken.
  unfold validateTransfer. rewrite Hfind.
  unfold validateTokenInstruction. rewrite Hdecode. js_step. rewrite Haccount. js_step.
  rewrite (find_first _ before after token).
  - cbn [List.find]. rewrite (proj2 (equals_eq _ _) Htoken). reflexivity.
  - eapply Forall_impl; [exact Hbefore|]. intros entry Hentry. apply equals_neq, Hentry.
  - apply equals_eq, Htoken.
Qed.

(** Of the slots as they stand the checks read only the public key of the
    second one, and of the rest of the transaction only the instructions. *)
Lemma validateTransfer_same_on_second_key (connection : Connection)
    (transaction other : Transaction.t) (allowedTokens : list TokenFee.t) :
  Transaction.instructions transaction = Transaction.instructions other ->
  publicKey <$> (Transaction.signatures transaction !! 1%nat)
    = publicKey <$> (Transaction.signatures other !! 1%nat) ->
  validateTransfer connection transaction allowedTokens
  = validateTransfer connection other allowedTokens.
Proof.
  intros Hix Hslot. unfold validateTransfer. rewrite Hix.
  destruct (List.find _ (Transaction.instructions other)) as [tokenInstruction|];
    [|reflexivity].
  unfold validateTokenInstruction.
  destruct (decodeInstruction tokenInstruction) as [e|[decoded|]]; js_step;
    try reflexivity.
  destruct (getAccount connection _) as [e|account]; js_step; [reflexivity|].
  destruct (throwIf (negb (equals (Account.owner account) _)) _); js_step; [reflexivity|].
  destruct (throwIf (Account.isFrozen account) _); js_step; [reflexivity|].
  destruct (throwIf (Account.amount account <? _) _); js_step; [reflexivity|].
  destruct (List.find _ allowedTokens) as [token|]; [|reflexivity].
  destruct (throwIf (Transfer.amount decoded <? _) _); js_step; [reflexivity|].
  destruct (throwIf (isSigner (Transfer.source decoded)) _); js_step; [reflexivity|].
  destruct (throwIf (negb (equals (pubkey (Transfer.destination decoded)) _)) _);
    js_step; [reflexivity|].
  destruct (throwIf (negb (isWritable (Transfer.destination decoded))) _); js_step;
    [reflexivity|].
  destruct (throwIf (isSigner (Transfer.destination decoded)) _); js_step; [reflexivity|].
  destruct (Transaction.signatures transaction !! 1%nat) as [second|],
           (Transaction.signatures other !! 1%nat) as [second'|];
    cbn [fmap option_fmap option_map] in Hslot; try discriminate Hslot; [|reflexivity].
  injection Hslot as Hslot. js_step. rewrite Hslot. reflexivity.
Qed.

End TransferOutcome.

(** ** The account-initialization validator, beyond the existence check *)

Section AccountInitializationOutcome.
Context `{Web3}.

(** The last step, once every check on the instruction has passed. *)
Lemma validateAccountInitialization_from_mark (connection : Connection)
    (originalTransaction transaction : Transaction.t) (feePayer : Keypair.t)
    (instruction : TransactionInstruction) (ownerMeta mintMeta : AccountMeta)
    (associatedToken : PublicKey) (cache : Cache) :
  reachesExistenceCheck originalTransaction transaction instruction
                        ownerMeta mintMeta associatedToken ->
  getAccountInfo connection associatedToken = ok None ->
  areInstructionsEqual
    (createAssociatedTokenAccountInstruction
       (Keypair.publicKey feePayer) associatedToken (pubkey ownerMeta) (pubkey mintMeta))
    instruction = true ->
  validateAccountInitializationInstructions connection originalTransaction feePayer cache
  = if truthy (cache !! accountCacheKey transaction associatedToken)
    then (throw (Error "duplicate account within same recent blockhash"), cache)
    else (ok tt, <[accountCacheKey transaction associatedToken := VBool true]> cache).
Proof.
  intros ((serialized & Hser & Hfrom) & Hlen & Hix & Hprog & Howner & Hmint & Hata)
    Hinfo Hequal.
  unfold validateAccountInitializationInstructions, pure_, cache_get, cache_set,
    gets, modify.
  cbn [bind M_Monad].
  rewrite Hser. js_step. rewrite Hfrom. js_step.
  rewrite Hlen. cbn [Nat.eqb]. js_step. rewrite Hix. js_step.
  rewrite Hprog, (proj2 (equals_eq _ _) eq_refl). js_step.
  rewrite Hmint. js_step. rewrite Howner. js_step.
  rewrite Hata. js_step. rewrite Hinfo. js_step. rewrite Hequal. js_step.
  destruct (truthy (cache !! accountCacheKey transaction associatedToken)); reflexivity.
Qed.

(** X8.  A second validation of an account creation that has just been
    accepted, against the cache the first one left and a node that answers
    as before, throws [duplicate account within same recent blockhash] and
    leaves the cache as it is. *)
Theorem validateAccountInitialization_second_is_duplicate (connection : Connection)
    (originalTransaction : Transaction.t) (feePayer : Keypair.t) (cache cache' : Cache) :
  validateAccountInitializationInstructions connection originalTransaction feePayer cache
    = (ok tt, cache') ->
  validateAccountInitializationInstructions connection originalTransaction feePayer cache'
    = (throw (Error "duplicate account within same recent blockhash"), cache').
Proof.
  intros Hrun.
  destruct (validateAccountInitializationInstructions_cases
              connection originalTransaction feePayer cache)
    as [(e & E) | (t & ix & o & m & a & Hreach & Hinfo & Hequal & Hseen & E)];
    rewrite E in Hrun; unfold throw, ok in Hrun; [discriminate|].
  injection Hrun as <-.
  rewrite (validateAccountInitialization_from_mark _ _ _ _ _ _ _ _ _ Hreach Hinfo Hequal).
  rewrite lookup_insert_eq. reflexivity.
Qed.

(** X9.  On a transaction that survives the round trip through its wire
    form: with a number of instructions other than two the validator throws
    its instruction-count error; with two, the second not being of the
    associated token program, its program error; and with a second
    instruction of that program that has fewer than four accounts, reading
    the mint's key ends in a [TypeError].  The cache is untouched in all
    three cases. *)
Theorem validateAccountInitialization_shape_errors (connection : Connection)
    (originalTransaction transaction : Transaction.t) (feePayer : Keypair.t)
    (cache : Cache) (serialized : Buffer) :
  serialize false originalTransaction = ok serialized ->
  Transaction_from serialized = ok transaction ->
  let run := validateAccountInitializationInstructions
               connection originalTransaction feePayer cache in
  (length (Transaction.instructions transaction) <> 2%nat ->
   run = (throw (Error "transaction should contain 2 instructions: fee payment, account init"),
          cache))
  /\ (forall instruction : TransactionInstruction,
        length (Transaction.instructions transaction) = 2%nat ->
        Transaction.instructions transaction !! 1%nat = Some instruction ->
        (programId instruction <> ASSOCIATED_TOKEN_PROGRAM_ID ->
         run = (throw (Error "account instruction should call associated token program"),
                cache))
        /\ (programId instruction = ASSOCIATED_TOKEN_PROGRAM_ID ->
            (length (keys instruction) < 4)%nat ->
            run = (throw TypeError, cache))).
Proof.
  intros Hser Hfrom run. subst run.
  unfold validateAccountInitializationInstructions, pure_, cache_get, cache_set,
    gets, modify.
  cbn [bind M_Monad]. rewrite Hser. js_step. rewrite Hfrom. js_step.
  split.
  - intros Hlen. apply Nat.eqb_neq in Hlen. rewrite Hlen. reflexivity.
  - intros instruction Hlen Hix. rewrite Hlen. cbn [Nat.eqb]. js_step.
    rewrite Hix. js_step. split.
    + intros Hprog. apply equals_neq in Hprog. rewrite Hprog. reflexivity.
    + intros Hprog Hkeys. rewrite Hprog, (proj2 (equals_eq _ _) eq_refl). js_step.
      rewrite (proj2 (lookup_ge_None (keys instruction) 3) ltac:(lia)). reflexivity.
Qed.

(** X10.  [simulateRawTransaction] returns a response exactly when the bytes
    parse, the node answers the simulation of the parsed transaction with
    that response, and the response carries no error; when the response
    carries an error it throws [Simulation error]. *)
Theorem simulateRawTransaction_returns_clean_response (connection : Connection)
    (rawTransaction : Buffer) :
  (forall simulated : SimulatedTransactionResponse,
      simulateRawTransaction connection rawTransaction = ok simulated
      <-> exists transaction : Transaction.t,
            Transaction_from rawTransaction = ok transaction
            /\ simulateTransaction connection transaction = ok simulated
            /\ truthyString (err simulated) = false)
  /\ (forall (transaction : Transaction.t) (simulated : SimulatedTransactionResponse),
        Transaction_from rawTransaction = ok transaction ->
        simulateTransaction connection transaction = ok simulated ->
        truthyString (err simulated) = true ->
        simulateRawTransaction connection rawTransaction
          = throw (Error "Simulation error")).
Proof.
  unfold simulateRawTransaction. split.
  - intros simulated. split.
    + destruct (Transaction_from rawTransaction) as [e|transaction]; js_step;
        [discriminate|].
      destruct (simulateTransaction connection transaction) as [e|response] eqn:Hsim;
        js_step; [discriminate|].
      destruct (truthyString (err response)) eqn:Herr; js_step; [discriminate|].
      intros [= <-]. exists transaction. auto.
    + intros (transaction & -> & Hsim & Herr). js_step. rewrite Hsim. js_step.
      rewrite Herr. reflexivity.
  - intros transaction simulated -> Hsim Herr. js_step. rewrite Hsim. js_step.
    rewrite Herr. reflexivity.
Qed.

End AccountInitializationOutcome.

(** ** The orchestrators, stage by stage *)

Section Orchestrators.
Context `{Web3}.

Lemma duplicateCheck_cases (w0 : World.t) :
  (exists e : Exn, duplicateCheck w0 = (throw e, w0))
  \/ (exists message : Buffer,
        serializeMessage (World.transaction w0) = ok message
        /\ truthy (World.cache w0 !! transactionKey message) = false
        /\ duplicateCheck w0
           = (ok tt, World.withCache
                       (<[transactionKey message := VBool true]> (World.cache w0)) w0)).
Proof.
  destruct (serializeMessage (World.transaction w0)) as [e|message] eqn:Hmsg.
  - left. exists e. destruct w0 as [transaction cache clock].
    unfold duplicateCheck, gets, pure_. world_step. world_step in Hmsg.
    rewrite Hmsg. reflexivity.
  - rewrite (duplicateCheck_run w0 message Hmsg).
    destruct (truthy (World.cache w0 !! transactionKey message)) eqn:Hseen.
    + left. eexists. reflexivity.
    + right. exists message. auto.
Qed.

Lemma onTransaction_world {A : Type} (c : M Transaction.t A) (w : World.t) :
  World.cache (snd (onTransaction c w)) = World.cache w
  /\ World.clock (snd (onTransaction c w)) = World.clock w.
Proof.
  unfold onTransaction. destruct (c (World.transaction w)) as [r t]. split; reflexivity.
Qed.

Lemma sourceLockout_cases (family : string) (transfer : Transfer.t)
    (sameSourceTimeout : Z) (w : World.t) :
  sourceLockout family transfer sameSourceTimeout w
    = (throw (Error "duplicate transfer"), World.tick w)
  \/ exists (now : Z) (w' : World.t),
       sourceLockout family transfer sameSourceTimeout w = (ok tt, w')
       /\ World.cache w'
          = <[lastSignatureKey family (pubkey (Transfer.source transfer)) := VNum now]>
              (World.cache w)
       /\ World.transaction w' = World.transaction w
       /\ (now = World.clock w 0%nat \/ now = World.clock w 1%nat).
Proof.
  destruct w as [transaction cache clock].
  unfold sourceLockout, onCache, cache_get, cache_set, gets, modify, pure_, Date_now.
  world_step.
  destruct (cache !! lastSignatureKey family (pubkey (Transfer.source transfer)))
    as [value|]; [destruct (truthy (Some value))|]; world_step.
  - destruct (clock 0%nat - toNumber value <? sameSourceTimeout); js_step.
    + left. reflexivity.
    + right. eexists _, _. split; [reflexivity|]. world_step. auto.
  - right. eexists _, _. split; [reflexivity|]. world_step. auto.
  - right. eexists _, _. split; [reflexivity|]. world_step. auto.
Qed.

(** Every run of [signWithTokenFee] either throws before the lockout,
    having written at most the mark of the payload, or reaches the lockout. *)
Lemma signWithTokenFee_cases (connection : Connection) (feePayer : Keypair.t)
    (maxSignatures lamportsPerSignature : Z) (allowedTokens : list TokenFee.t)
    (sameSourceTimeout : option Z) (w0 : World.t) :
  (exists (e : Exn) (w' : World.t),
      signWithTokenFee connection feePayer maxSignatures lamportsPerSignature
                       allowedTokens sameSourceTimeout w0 = (throw e, w')
      /\ (World.cache w' = World.cache w0
          \/ exists message : Buffer,
               World.cache w' = <[transactionKey message := VBool true]> (World.cache w0)))
  \/ (exists (w2 : World.t) (signed : string * Buffer) (transfer : Transfer.t),
        signReachesLockout connection feePayer maxSignatures lamportsPerSignature
                           allowedTokens w0 w2 signed transfer
        /\ exists message : Buffer,
             World.cache w2 = <[transactionKey message := VBool true]> (World.cache w0)).
Proof.
  unfold signWithTokenFee, signReachesLockout. cbn [bind M_Monad].
  destruct (duplicateCheck_cases w0) as [(e & ->) | (message & _ & _ & Hdup)].
  { left. exists e, w0. auto. }
  rewrite Hdup.
  set (w1 := World.withCache _ w0) in *.
  pose proof (onTransaction_world
                (validateTransaction connection feePayer maxSignatures lamportsPerSignature)
                w1) as [Hcache _].
  destruct (onTransaction _ w1) as [[e|signed] w2] eqn:Hsign; cbn [snd] in Hcache.
  { left. exists e, w2. split; [reflexivity|]. right. exists message. exact Hcache. }
  unfold gets, pure_.
  destruct (validateInstructions (World.transaction w2) feePayer) as [e|[]] eqn:Hix.
  { left. exists e, w2. split; [reflexivity|]. right. exists message. exact Hcache. }
  destruct (validateTransfer connection (World.transaction w2) allowedTokens)
    as [e|transfer] eqn:Htransfer.
  { left. exists e, w2. split; [reflexivity|]. right. exists message. exact Hcache. }
  right. exists w2, signed, transfer. split; [|exists message; exact Hcache].
  exists w1. auto.
Qed.

Lemma createAccountIfTokenFeePaid_cases (connection : Connection) (feePayer : Keypair.t)
    (maxSignatures lamportsPerSignature : Z) (allowedTokens : list TokenFee.t)
    (sameSourceTimeout : option Z) (w0 : World.t) :
  (exists (e : Exn) (w' : World.t),
      createAccountIfTokenFeePaid connection feePayer maxSignatures lamportsPerSignature
                                  allowedTokens sameSourceTimeout w0 = (throw e, w')
      /\ (World.cache w' = World.cache w0
          \/ (exists message : Buffer,
                World.cache w' = <[transactionKey message := VBool true]> (World.cache w0))
          \/ (exists (message : Buffer) (transaction : Transaction.t)
                     (associatedToken : PublicKey),
                World.cache w'
                = <[accountCacheKey transaction associatedToken := VBool true]>
                    (<[transactionKey message := VBool true]> (World.cache w0)))))
  \/ (exists (w3 : World.t) (signed : string * Buffer) (transfer : Transfer.t),
        createAccountReachesLockout connection feePayer maxSignatures
                                    lamportsPerSignature allowedTokens
                                    w0 w3 signed transfer
        /\ exists (message : Buffer) (transaction : Transaction.t)
                  (associatedToken : PublicKey),
             World.cache w3
             = <[accountCacheKey transaction associatedToken := VBool true]>
                 (<[transactionKey message := VBool true]> (World.cache w0))).
Proof.
  unfold createAccountIfTokenFeePaid, createAccountReachesLockout. cbn [bind M_Monad].
  destruct (duplicateCheck_cases w0) as [(e & ->) | (message & _ & _ & Hdup)].
  { left. exists e, w0. auto. }
  rewrite Hdup.
  set (w1 := World.withCache _ w0) in *.
  pose proof (onTransaction_world
                (validateTransaction connection feePayer maxSignatures lamportsPerSignature)
                w1) as [Hcache _].
  destruct (onTransaction _ w1) as [[e|signed] w2] eqn:Hsign; cbn [snd] in Hcache.
  { left. exists e, w2. split; [reflexivity|]. right. left. exists message. exact Hcache. }
  unfold gets.
  destruct (onCache _ w2) as [[e|[]] w3] eqn:Hinit.
  { left. exists e, w3. split; [reflexivity|]. right. left. exists message.
    unfold onCache in Hinit.
    destruct (validateAccountInitializationInstructions_cases
                connection (World.transaction w2) feePayer (World.cache w2))
      as [(e0 & E) | (t & ix & o & m & a & _ & _ & _ & _ & E)];
      rewrite E in Hinit; unfold throw, ok in Hinit; cbv beta iota in Hinit;
      [|discriminate].
    injection Hinit as _ <-. exact Hcache. }
  assert (Hcache3 : exists (transaction : Transaction.t) (associatedToken : PublicKey),
             World.cache w3
             = <[accountCacheKey transaction associatedToken := VBool true]>
                 (World.cache w2)).
  { unfold onCache in Hinit.
    destruct (validateAccountInitializationInstructions_cases
                connection (World.transaction w2) feePayer (World.cache w2))
      as [(e0 & E) | (t & ix & o & m & a & _ & _ & _ & _ & E)];
      rewrite E in Hinit; unfold throw, ok in Hinit; cbv beta iota in Hinit;
      [discriminate|].
    injection Hinit as <-. exists t, a. reflexivity. }
  destruct Hcache3 as (t & a & Hcache3). rewrite Hcache in Hcache3.
  unfold pure_.
  destruct (validateTransfer connection (World.transaction w2) allowedTokens)
    as [e|transfer] eqn:Htransfer.
  { left. exists e, w3. split; [reflexivity|]. right. right. exists message, t, a.
    exact Hcache3. }
  right. exists w3, signed, transfer. split; [|exists message, t, a; exact Hcache3].
  exists w1, w2. auto.
Qed.

Lemma duplicateCheck_transaction (w0 w1 : World.t) :
  duplicateCheck w0 = (ok tt, w1) ->
  World.transaction w1 = World.transaction w0.
Proof.
  destruct (duplicateCheck_cases w0) as [(e & ->) | (message & _ & _ & ->)];
    [discriminate|].
  intros [= <-]. reflexivity.
Qed.

Lemma onTransaction_ok_inv {A : Type} (c : M Transaction.t A) (w w' : World.t) (a : A) :
  onTransaction c w = (ok a, w') ->
  c (World.transaction w) = (ok a, World.transaction w').
Proof.
  unfold onTransaction. destruct (c (World.transaction w)) as [r t].
  intros [= -> <-]. reflexivity.
Qed.

(** The tail of both orchestrators, from the lockout on. *)
Lemma lockout_tail_cases (connection : Connection) (family : string)
    (transfer : Transfer.t) (sameSourceTimeout : Z) (signed : string * Buffer)
    (w2 : World.t) :
  let run := (sourceLockout family transfer sameSourceTimeout ;;
              pure_ (simulateRawTransaction connection (snd signed)) ;;
              ret (fst signed)) w2 in
  (run = (throw (Error "duplicate transfer"), World.tick w2)
   /\ sourceLockout family transfer sameSourceTimeout w2
      = (throw (Error "duplicate transfer"), World.tick w2))
  \/ exists (now : Z) (w' : World.t),
       sourceLockout family transfer sameSourceTimeout w2 = (ok tt, w')
       /\ World.cache w'
          = <[lastSignatureKey family (pubkey (Transfer.source transfer)) := VNum now]>
              (World.cache w2)
       /\ World.transaction w' = World.transaction w2
       /\ run = (match simulateRawTransaction connection (snd signed) with
                 | inl e => inl e
                 | inr _ => inr (fst signed)
                 end, w').
Proof.
  cbv zeta. cbn [bind M_Monad].
  destruct (sourceLockout_cases family transfer sameSourceTimeout w2)
    as [E | (now & w' & E & Hcache & Htx & _)]; rewrite E.
  - left. split; reflexivity.
  - right. exists now, w'. split; [reflexivity|]. split; [exact Hcache|].
    split; [exact Htx|]. unfold pure_.
    destruct (simulateRawTransaction connection (snd signed)); reflexivity.
Qed.

Lemma signWithTokenFee_ok_inv (connection : Connection) (feePayer : Keypair.t)
    (maxSignatures lamportsPerSignature : Z) (allowedTokens : list TokenFee.t)
    (sameSourceTimeout : option Z) (w0 w' : World.t) (primarySignature : string) :
  signWithTokenFee connection feePayer maxSignatures lamportsPerSignature
                   allowedTokens sameSourceTimeout w0 = (ok primarySignature, w') ->
  exists (w2 : World.t) (signed : string * Buffer) (transfer : Transfer.t)
         (simulated : SimulatedTransactionResponse),
    signReachesLockout connection feePayer maxSignatures lamportsPerSignature
                       allowedTokens w0 w2 signed transfer
    /\ sourceLockout "transfer" transfer (default 5000 sameSourceTimeout) w2 = (ok tt, w')
    /\ simulateRawTransaction connection (snd signed) = ok simulated
    /\ primarySignature = fst signed.
Proof.
  intros Hrun.
  destruct (signWithTokenFee_cases connection feePayer maxSignatures lamportsPerSignature
              allowedTokens sameSourceTimeout w0)
    as [(e & w & E & _) | (w2 & signed & transfer & Hreach & _)].
  { rewrite E in Hrun. discriminate. }
  rewrite (signWithTokenFee_from_lockout _ _ _ _ _ sameSourceTimeout _ _ _ _ Hreach)
    in Hrun.
  destruct (lockout_tail_cases connection "transfer" transfer
              (default 5000 sameSourceTimeout) signed w2)
    as [[E _] | (now & w & Hlock & _ & _ & E)]; cbv zeta in E; rewrite E in Hrun.
  { discriminate. }
  destruct (simulateRawTransaction connection (snd signed)) as [e|simulated] eqn:Hsim;
    [discriminate|].
  injection Hrun as <- <-. exists w2, signed, transfer, simulated. auto.
Qed.

Lemma createAccountIfTokenFeePaid_ok_inv (connection : Connection) (feePayer : Keypair.t)
    (maxSignatures lamportsPerSignature : Z) (allowedTokens : list TokenFee.t)
    (sameSourceTimeout : option Z) (w0 w' : World.t) (primarySignature : string) :
  createAccountIfTokenFeePaid connection feePayer maxSignatures lamportsPerSignature
                              allowedTokens sameSourceTimeout w0
    = (ok primarySignature, w') ->
  exists (w3 : World.t) (signed : string * Buffer) (transfer : Transfer.t)
         (simulated : SimulatedTransactionResponse),
    createAccountReachesLockout connection feePayer maxSignatures lamportsPerSignature
                                allowedTokens w0 w3 signed transfer
    /\ sourceLockout "createAccount" transfer (default 5000 sameSourceTimeout) w3
       = (ok tt, w')
    /\ simulateRawTransaction connection (snd signed) = ok simulated
    /\ primarySignature = fst signed.
Proof.
  intros Hrun.
  destruct (createAccountIfTokenFeePaid_cases connection feePayer maxSignatures
              lamportsPerSignature allowedTokens sameSourceTimeout w0)
    as [(e & w & E & _) | (w3 & signed & transfer & Hreach & _)].
  { rewrite E in Hrun. discriminate. }
  rewrite (createAccountIfTokenFeePaid_from_lockout
             _ _ _ _ _ sameSourceTimeout _ _ _ _ Hreach) in Hrun.
  destruct (lockout_tail_cases connection "createAccount" transfer
              (default 5000 sameSourceTimeout) signed w3)
    as [[E _] | (now & w & Hlock & _ & _ & E)]; cbv zeta in E; rewrite E in Hrun.
  { discriminate. }
  destruct (simulateRawTransaction connection (snd signed)) as [e|simulated] eqn:Hsim;
    [discriminate|].
  injection Hrun as <- <-. exists w3, signed, transfer, simulated. auto.
Qed.

(** X11.  [signWithTokenFee] returns a signature only after every stage has
    passed, in order: the duplicate check, [validateTransaction],
    [validateInstructions] and [validateTransfer] on the signed transaction,
    the lockout on the validated transfer and the simulation of the raw
    signed bytes; and the signature is the one [validateTransaction] made. *)
Theorem signWithTokenFee_returns_after_all_stages (connection : Connection)
    (feePayer : Keypair.t) (maxSignatures lamportsPerSignature : Z)
    (allowedTokens : list TokenFee.t) (sameSourceTimeout : option Z)
    (w0 w' : World.t) (primarySignature : string) :
  signWithTokenFee connection feePayer maxSignatures lamportsPerSignature
                   allowedTokens sameSourceTimeout w0 = (ok primarySignature, w') ->
  exists (w2 : World.t) (signed : string * Buffer) (transfer : Transfer.t)
         (simulated : SimulatedTransactionResponse),
    signReachesLockout connection feePayer maxSignatures lamportsPerSignature
                       allowedTokens w0 w2 signed transfer
    /\ sourceLockout "transfer" transfer (default 5000 sameSourceTimeout) w2 = (ok tt, w')
    /\ simulateRawTransaction connection (snd signed) = ok simulated
    /\ primarySignature = fst signed.
Proof.
  apply signWithTokenFee_ok_inv.
Qed.

(** X12.  The same for [createAccountIfTokenFeePaid], whose third stage is
    [validateAccountInitializationInstructions] and whose lockout key is of
    the family [createAccount]. *)
Theorem createAccountIfTokenFeePaid_returns_after_all_stages (connection : Connection)
    (feePayer : Keypair.t) (maxSignatures lamportsPerSignature : Z)
    (allowedTokens : list TokenFee.t) (sameSourceTimeout : option Z)
    (w0 w' : World.t) (primarySignature : string) :
  createAccountIfTokenFeePaid connection feePayer maxSignatures lamportsPerSignature
                              allowedTokens sameSourceTimeout w0
    = (ok primarySignature, w') ->
  exists (w3 : World.t) (signed : string * Buffer) (transfer : Transfer.t)
         (simulated : SimulatedTransactionResponse),
    createAccountReachesLockout connection feePayer maxSignatures lamportsPerSignature
                                allowedTokens w0 w3 signed transfer
    /\ sourceLockout "createAccount" transfer (default 5000 sameSourceTimeout) w3
       = (ok tt, w')
    /\ simulateRawTransaction connection (snd signed) = ok simulated
    /\ primarySignature = fst signed.
Proof.
  apply createAccountIfTokenFeePaid_ok_inv.
Qed.

(** X13.  What a signature of [signWithTokenFee] vouches for.  The
    transaction handed in had a valid envelope; in the transaction as signed
    no instruction names the custody key as writable or as a signer; and the
    signed transaction's first token instruction is an accepted transfer:
    at least the fee, to the allow-listed account of its mint, authorised by
    the key of the second signature slot. *)
Theorem signWithTokenFee_vouches (connection : Connection)
    (feePayer : Keypair.t) (maxSignatures lamportsPerSignature : Z)
    (allowedTokens : list TokenFee.t) (sameSourceTimeout : option Z)
    (w0 w' : World.t) (primarySignature : string) :
  signWithTokenFee connection feePayer maxSignatures lamportsPerSignature
                   allowedTokens sameSourceTimeout w0 = (ok primarySignature, w') ->
  validEnvelope (World.transaction w0) feePayer maxSignatures
  /\ (forall (i j : nat) (instruction : TransactionInstruction) (key : AccountMeta),
        Transaction.instructions (World.transaction w') !! i = Some instruction ->
        keys instruction !! j = Some key ->
        ~ exposes feePayer key)
  /\ exists transfer : Transfer.t,
      acceptedTransfer connection (World.transaction w') allowedTokens transfer.
Proof.
  intros Hrun.
  apply signWithTokenFee_ok_inv in Hrun
    as (w2 & signed & transfer & simulated & (w1 & Hdup & Hsign & Hix & Htransfer)
        & Hlock & _ & _).
  destruct (sourceLockout_cases "transfer" transfer (default 5000 sameSourceTimeout) w2)
    as [E | (now & w & E & _ & Htx & _)]; rewrite E in Hlock; [discriminate|].
  injection Hlock as <-. rewrite Htx.
  split; [|split].
  - apply onTransaction_ok_inv in Hsign. destruct signed as [sig raw].
    apply validateTransaction_ok_inv in Hsign as [Hvalid _].
    rewrite (duplicateCheck_transaction _ _ Hdup) in Hvalid. exact Hvalid.
  - intros i j instruction key Hi Hj Hexposes.
    assert (validateInstructions (World.transaction w2) feePayer
            = throw (Error "invalid account")) as Hthrow.
    { apply validateInstructionList_throws. exists i, j, instruction, key. auto. }
    rewrite Hthrow in Hix. discriminate.
  - exists transfer. apply validateTransfer_ok_inv, Htransfer.
Qed.

Lemma lastSignatureKey_families (source source' : PublicKey) :
  lastSignatureKey "createAccount" source <> lastSignatureKey "transfer" source'.
Proof. unfold lastSignatureKey. simpl. discriminate. Qed.

Lemma accountCacheKey_lastSignature_transfer (transaction : Transaction.t)
    (associatedToken source : PublicKey) :
  accountCacheKey transaction associatedToken <> lastSignatureKey "transfer" source.
Proof. unfold accountCacheKey, lastSignatureKey. simpl. discriminate. Qed.

(** The cache [signWithTokenFee] leaves: the one it found, or that with the
    mark of the payload, or that with the mark and a timestamp. *)
Lemma signWithTokenFee_cache (connection : Connection) (feePayer : Keypair.t)
    (maxSignatures lamportsPerSignature : Z) (allowedTokens : list TokenFee.t)
    (sameSourceTimeout : option Z) (w0 : World.t) :
  let after :=
    World.cache (snd (signWithTokenFee connection feePayer maxSignatures
                        lamportsPerSignature allowedTokens sameSourceTimeout w0)) in
  after = World.cache w0
  \/ (exists message : Buffer,
        after = <[transactionKey message := VBool true]> (World.cache w0))
  \/ (exists (message : Buffer) (w2 : World.t) (signed : string * Buffer)
             (transfer : Transfer.t) (now : Z),
        signReachesLockout connection feePayer maxSignatures lamportsPerSignature
                           allowedTokens w0 w2 signed transfer
        /\ fst (sourceLockout "transfer" transfer (default 5000 sameSourceTimeout) w2)
           = ok tt
        /\ after = <[lastSignatureKey "transfer" (pubkey (Transfer.source transfer))
                     := VNum now]>
                     (<[transactionKey message := VBool true]> (World.cache w0))).
Proof.
  cbv zeta.
  destruct (signWithTokenFee_cases connection feePayer maxSignatures lamportsPerSignature
              allowedTokens sameSourceTimeout w0)
    as [(e & w & E & Hcache) | (w2 & signed & transfer & Hreach & message & Hcache)].
  { rewrite E. cbn [snd]. destruct Hcache as [->|(message & ->)]; eauto. }
  rewrite (signWithTokenFee_from_lockout _ _ _ _ _ sameSourceTimeout _ _ _ _ Hreach).
  destruct (lockout_tail_cases connection "transfer" transfer
              (default 5000 sameSourceTimeout) signed w2)
    as [[E _] | (now & w & Hlock & Hafter & _ & E)]; cbv zeta in E; rewrite E; cbn [snd].
  - right. left. exists message. exact Hcache.
  - right. right. exists message, w2, signed, transfer, now.
    split; [exact Hreach|]. split; [rewrite Hlock; reflexivity|].
    rewrite Hafter, Hcache. reflexivity.
Qed.

Lemma createAccountIfTokenFeePaid_cache (connection : Connection) (feePayer : Keypair.t)
    (maxSignatures lamportsPerSignature : Z) (allowedTokens : list TokenFee.t)
    (sameSourceTimeout : option Z) (w0 : World.t) :
  let after :=
    World.cache (snd (createAccountIfTokenFeePaid connection feePayer maxSignatures
                        lamportsPerSignature allowedTokens sameSourceTimeout w0)) in
  after = World.cache w0
  \/ (exists message : Buffer,
        after = <[transactionKey message := VBool true]> (World.cache w0))
  \/ (exists (message : Buffer) (transaction : Transaction.t) (associatedToken : PublicKey),
        after = <[accountCacheKey transaction associatedToken := VBool true]>
                  (<[transactionKey message := VBool true]> (World.cache w0)))
  \/ (exists (message : Buffer) (transaction : Transaction.t) (associatedToken : PublicKey)
             (source : PublicKey) (now : Z),
        after = <[lastSignatureKey "createAccount" source := VNum now]>
                  (<[accountCacheKey transaction associatedToken := VBool true]>
                     (<[transactionKey message := VBool true]> (World.cache w0)))).
Proof.
  cbv zeta.
  destruct (createAccountIfTokenFeePaid_cases connection feePayer maxSignatures
              lamportsPerSignature allowedTokens sameSourceTimeout w0)
    as [(e & w & E & Hcache)
       | (w3 & signed & transfer & Hreach & message & t & a & Hcache)].
  { rewrite E. cbn [snd].
    destruct Hcache as [->|[(message & ->)|(message & t & a & ->)]]; eauto 10. }
  rewrite (createAccountIfTokenFeePaid_from_lockout
             _ _ _ _ _ sameSourceTimeout _ _ _ _ Hreach).
  destruct (lockout_tail_cases connection "createAccount" transfer
              (default 5000 sameSourceTimeout) signed w3)
    as [[E _] | (now & w & Hlock & Hafter & _ & E)]; cbv zeta in E; rewrite E; cbn [snd].
  - right. right. left. exists message, t, a. exact Hcache.
  - right. right. right. exists message, t, a, (pubkey (Transfer.source transfer)), now.
    rewrite Hafter, Hcache. reflexivity.
Qed.

(** X5.  With an empty allow-list nothing is accepted: [validateTransfer]
    never returns a transfer, and neither orchestrator ever returns a
    signature. *)
Theorem empty_allow_list_signs_nothing (connection : Connection) (feePayer : Keypair.t)
    (maxSignatures lamportsPerSignature : Z) (sameSourceTimeout : option Z) :
  (forall (transaction : Transaction.t) (instruction : Transfer.t),
      validateTransfer connection transaction [] <> ok instruction)
  /\ (forall (w : World.t) (primarySignature : string),
        fst (signWithTokenFee connection feePayer maxSignatures lamportsPerSignature
                              [] sameSourceTimeout w) <> ok primarySignature)
  /\ (forall (w : World.t) (primarySignature : string),
        fst (createAccountIfTokenFeePaid connection feePayer maxSignatures
                                         lamportsPerSignature [] sameSourceTimeout w)
        <> ok primarySignature).
Proof.
  split; [|split].
  - intros transaction instruction. apply validateTransfer_no_entry.
  - intros w sig Hok.
    destruct (signWithTokenFee _ _ _ _ _ _ w) as [r w'] eqn:Hrun. cbn [fst] in Hok.
    subst r. apply signWithTokenFee_ok_inv in Hrun
      as (w2 & signed & transfer & _ & (w1 & _ & _ & _ & Htransfer) & _).
    exact (validateTransfer_no_entry _ _ _ Htransfer).
  - intros w sig Hok.
    destruct (createAccountIfTokenFeePaid _ _ _ _ _ _ w) as [r w'] eqn:Hrun.
    cbn [fst] in Hok. subst r. apply createAccountIfTokenFeePaid_ok_inv in Hrun
      as (w3 & signed & transfer & _ & (w1 & w2 & _ & _ & _ & Htransfer) & _).
    exact (validateTransfer_no_entry _ _ _ Htransfer).
Qed.

(** X14.  [signWithTokenFee] writes the cache only under keys
    [transaction/...] and [transfer/lastSignature/...], and
    [createAccountIfTokenFeePaid] only under [transaction/...],
    [account/...] and [createAccount/lastSignature/...]; every other key
    keeps its value, whatever the outcome.  So the two keep separate
    cooldowns: neither touches a timestamp of the other's family. *)
Theorem orchestrators_write_own_keys_only (connection : Connection)
    (feePayer : Keypair.t) (maxSignatures lamportsPerSignature : Z)
    (allowedTokens : list TokenFee.t) (sameSourceTimeout : option Z) :
  writesOnly (fun key => isTransactionKey key \/ isLastSignatureKey "transfer" key)
             (signWithTokenFee connection feePayer maxSignatures lamportsPerSignature
                               allowedTokens sameSourceTimeout)
  /\ writesOnly (fun key => isTransactionKey key \/ isAccountKey key
                            \/ isLastSignatureKey "createAccount" key)
                (createAccountIfTokenFeePaid connection feePayer maxSignatures
                                             lamportsPerSignature allowedTokens
                                             sameSourceTimeout)
  /\ (forall (w : World.t) (source : PublicKey),
        World.cache (snd (signWithTokenFee connection feePayer maxSignatures
                            lamportsPerSignature allowedTokens sameSourceTimeout w))
          !! lastSignatureKey "createAccount" source
        = World.cache w !! lastSignatureKey "createAccount" source)
  /\ (forall (w : World.t) (source : PublicKey),
        World.cache (snd (createAccountIfTokenFeePaid connection feePayer maxSignatures
                            lamportsPerSignature allowedTokens sameSourceTimeout w))
          !! lastSignatureKey "transfer" source
        = World.cache w !! lastSignatureKey "transfer" source).
Proof.
  assert (Hsign : writesOnly
                    (fun key => isTransactionKey key \/ isLastSignatureKey "transfer" key)
                    (signWithTokenFee connection feePayer maxSignatures
                       lamportsPerSignature allowedTokens sameSourceTimeout)).
  { intros w key Hkey.
    destruct (signWithTokenFee_cache connection feePayer maxSignatures
                lamportsPerSignature allowedTokens sameSourceTimeout w)
      as [E | [(m & E) | (m & w2 & signed & transfer & now & _ & _ & E)]];
      cbv zeta in E; rewrite E; [reflexivity| |].
    - apply lookup_insert_ne. intros <-. apply Hkey. left. eexists. reflexivity.
    - rewrite !lookup_insert_ne; [reflexivity| |].
      + intros <-. apply Hkey. left. eexists. reflexivity.
      + intros <-. apply Hkey. right. eexists. reflexivity. }
  assert (Hcreate : writesOnly
                      (fun key => isTransactionKey key \/ isAccountKey key
                                  \/ isLastSignatureKey "createAccount" key)
                      (createAccountIfTokenFeePaid connection feePayer maxSignatures
                         lamportsPerSignature allowedTokens sameSourceTimeout)).
  { intros w key Hkey.
    destruct (createAccountIfTokenFeePaid_cache connection feePayer maxSignatures
                lamportsPerSignature allowedTokens sameSourceTimeout w)
      as [E | [(m & E) | [(m & t & a & E) | (m & t & a & s & now & E)]]];
      cbv zeta in E; rewrite E; [reflexivity| | |].
    - apply lookup_insert_ne. intros <-. apply Hkey. left. eexists. reflexivity.
    - rewrite !lookup_insert_ne; [reflexivity| |].
      + intros <-. apply Hkey. left. eexists. reflexivity.
      + intros <-. apply Hkey. right. left. eexists _, _. reflexivity.
    - rewrite !lookup_insert_ne; [reflexivity| | |].
      + intros <-. apply Hkey. left. eexists. reflexivity.
      + intros <-. apply Hkey. right. left. eexists _, _. reflexivity.
      + intros <-. apply Hkey. right. right. eexists. reflexivity. }
  split; [exact Hsign|]. split; [exact Hcreate|]. split.
  - intros w source. apply Hsign. intros [(m & Hm) | (s & Hs)].
    + exact (transactionKey_lastSignature_createAccount _ _ Hm).
    + exact (lastSignatureKey_families _ _ Hs).
  - intros w source. apply Hcreate. intros [(m & Hm) | [(t & a & Ha) | (s & Hs)]].
    + exact (transactionKey_lastSignature_transfer _ _ Hm).
    + symmetry in Ha. exact (accountCacheKey_lastSignature_transfer _ _ _ Ha).
    + symmetry in Hs. exact (lastSignatureKey_families _ _ Hs).
Qed.

(** X15.  A cooldown starts only for a request that passed every validator:
    if a run of [signWithTokenFee] changes what the cache holds under some
    key [transfer/lastSignature/...], then the run came through the
    duplicate check, [validateTransaction], [validateInstructions] and
    [validateTransfer], the key is that of the validated transfer's source,
    and the lockout stage let it pass.  A request rejected earlier (a wrong
    destination, say) leaves every timestamp as it was. *)
Theorem cooldown_starts_after_validation (connection : Connection)
    (feePayer : Keypair.t) (maxSignatures lamportsPerSignature : Z)
    (allowedTokens : list TokenFee.t) (sameSourceTimeout : option Z)
    (w0 : World.t) (source : PublicKey) :
  World.cache (snd (signWithTokenFee connection feePayer maxSignatures
                      lamportsPerSignature allowedTokens sameSourceTimeout w0))
    !! lastSignatureKey "transfer" source
  <> World.cache w0 !! lastSignatureKey "transfer" source ->
  exists (w2 : World.t) (signed : string * Buffer) (transfer : Transfer.t),
    signReachesLockout connection feePayer maxSignatures lamportsPerSignature
                       allowedTokens w0 w2 signed transfer
    /\ fst (sourceLockout "transfer" transfer (default 5000 sameSourceTimeout) w2) = ok tt
    /\ lastSignatureKey "transfer" source
       = lastSignatureKey "transfer" (pubkey (Transfer.source transfer)).
Proof.
  intros Hchanged.
  destruct (signWithTokenFee_cache connection feePayer maxSignatures
              lamportsPerSignature allowedTokens sameSourceTimeout w0)
    as [E | [(m & E) | (m & w2 & signed & transfer & now & Hreach & Hlock & E)]];
    cbv zeta in E; rewrite E in Hchanged.
  - contradiction.
  - exfalso. apply Hchanged. apply lookup_insert_ne.
    intros Heq. symmetry in Heq. exact (transactionKey_lastSignature_transfer _ _ Heq).
  - exists w2, signed, transfer. split; [exact Hreach|]. split; [exact Hlock|].
    destruct (decide (lastSignatureKey "transfer" source
                      = lastSignatureKey "transfer" (pubkey (Transfer.source transfer))))
      as [Heq|Hne]; [exact Heq|].
    exfalso. apply Hchanged. rewrite !lookup_insert_ne; [reflexivity| |].
    + intros Heq. symmetry in Heq. exact (transactionKey_lastSignature_transfer _ _ Heq).
    + intros Heq. apply Hne. symmetry. exact Heq.
Qed.

End Orchestrators.

(** ** The cooldown over time *)

Section Cooldown.
Context `{Web3}.

Lemma append_inj_r (prefix x y : string) :
  prefix +:+ x = prefix +:+ y -> x = y.
Proof.
  induction prefix as [|c prefix IH]; simpl; [auto|]. intros [= Heq]. apply IH, Heq.
Qed.

Lemma lastSignatureKey_inj (family : string) (source source' : PublicKey) :
  lastSignatureKey family source = lastSignatureKey family source' ->
  toBase58 source = toBase58 source'.
Proof.
  unfold lastSignatureKey. intros Heq.
  apply append_inj_r in Heq. apply (append_inj_r "/lastSignature/") in Heq. exact Heq.
Qed.

(** X16.  After the lockout stage has let a transfer pass, the cache holds
    under the source's key the clock reading [now] taken for the write.
    From then on a transfer from the same source is refused with [duplicate
    transfer] while the clock is less than the cooldown past [now], and is
    let pass, with the timestamp renewed, once the clock is at least the
    cooldown past it.  ([now] is a reading of [Date.now()], taken non-zero.) *)
Theorem cooldown_refuses_then_reopens (family : string) (transfer again : Transfer.t)
    (sameSourceTimeout : Z) (w w' : World.t) :
  sourceLockout family transfer sameSourceTimeout w = (ok tt, w') ->
  pubkey (Transfer.source again) = pubkey (Transfer.source transfer) ->
  exists now : Z,
    World.cache w' !! lastSignatureKey family (pubkey (Transfer.source transfer))
      = Some (VNum now)
    /\ (now = World.clock w 0%nat \/ now = World.clock w 1%nat)
    /\ (now <> 0 ->
        World.clock w' 0%nat - now < sameSourceTimeout ->
        sourceLockout family again sameSourceTimeout w'
          = (throw (Error "duplicate transfer"), World.tick w'))
    /\ (now <> 0 ->
        sameSourceTimeout <= World.clock w' 0%nat - now ->
        exists w'' : World.t,
          sourceLockout family again sameSourceTimeout w' = (ok tt, w'')
          /\ World.cache w''
               !! lastSignatureKey family (pubkey (Transfer.source transfer))
             = Some (VNum (World.clock w' 1%nat))).
Proof.
  intros Hrun Hsame.
  destruct (sourceLockout_cases family transfer sameSourceTimeout w)
    as [E | (now & w1 & E & Hcache & _ & Hnow)]; rewrite E in Hrun; [discriminate|].
  injection Hrun as <-. exists now.
  assert (Hget : World.cache w1
                   !! lastSignatureKey family (pubkey (Transfer.source again))
                 = Some (VNum now)).
  { rewrite Hsame, Hcache. apply lookup_insert_eq. }
  split; [rewrite <- Hsame; exact Hget|]. split; [exact Hnow|]. split.
  - intros Hnz Hwin. exact (sourceLockout_locked _ _ _ _ _ Hget Hnz Hwin).
  - intros Hnz Hwin. eexists. split.
    + exact (sourceLockout_elapsed _ _ _ _ _ Hget Hnz Hwin).
    + cbn [World.withCache World.cache]. rewrite Hsame. apply lookup_insert_eq.
Qed.

(** X17.  Cooldowns are per source account: the lockout stage for a
    transfer from one source leaves untouched the timestamp of every source
    whose base-58 text differs, so it puts no other account in cooldown. *)
Theorem cooldown_is_per_source (family : string) (transfer : Transfer.t)
    (sameSourceTimeout : Z) (w : World.t) (other : PublicKey) :
  toBase58 other <> toBase58 (pubkey (Transfer.source transfer)) ->
  World.cache (snd (sourceLockout family transfer sameSourceTimeout w))
    !! lastSignatureKey family other
  = World.cache w !! lastSignatureKey family other.
Proof.
  intros Hother.
  destruct (sourceLockout_cases family transfer sameSourceTimeout w)
    as [E | (now & w' & E & Hcache & _ & _)]; rewrite E; cbn [snd].
  - destruct w. reflexivity.
  - rewrite Hcache. apply lookup_insert_ne. intros Heq.
    apply Hother. symmetry. exact (lastSignatureKey_inj _ _ _ Heq).
Qed.

End Cooldown.

(** ** The logger *)

Section Logger.
Import TransactionLogger.

Lemma indexOfFrom_bounds (x : string) (l : list string) (i : Z) :
  (x ∉ l -> indexOfFrom x l i = -1)
  /\ (x ∈ l -> 0 <= i -> i <= indexOfFrom x l i).
Proof.
  revert i. induction l as [|y rest IH]; intros i; simpl.
  - split; [reflexivity | intros Hin; inversion Hin].
  - destruct (String.eqb_spec y x) as [->|Hne].
    + split; [intros Hnot; exfalso; apply Hnot; left | intros; lia].
    + split.
      * intros Hnot. apply IH. intros Hin. apply Hnot. right. exact Hin.
      * intros Hin Hi. apply elem_of_cons in Hin as [->|Hin]; [congruence|].
        pose proof (proj2 (IH (i + 1)) Hin). lia.
Qed.

(** X18.  Whatever known level the threshold is set to, entries of level
    [error] are logged, and entries whose level is none of the four known
    names are dropped; with the threshold at [debug] every known level is
    logged. *)
Theorem shouldLog_thresholds (logLevel : string) :
  logLevel ∈ levels ->
  shouldLog logLevel "error" = true
  /\ (forall level : string, level ∉ levels -> shouldLog logLevel level = false)
  /\ shouldLog "debug" logLevel = true.
Proof.
  intros Hknown. split; [|split].
  - unfold levels in Hknown.
    repeat (apply elem_of_cons in Hknown as [->|Hknown]; [reflexivity|]).
    inversion Hknown.
  - intros level Hunknown. unfold shouldLog, indexOf.
    rewrite (proj1 (indexOfFrom_bounds level levels 0) Hunknown).
    pose proof (proj2 (indexOfFrom_bounds logLevel levels 0) Hknown). apply Z.leb_gt. lia.
  - unfold shouldLog, indexOf.
    pose proof (proj2 (indexOfFrom_bounds logLevel levels 0) Hknown).
    apply Z.leb_le. change (indexOfFrom "debug" levels 0) with 0. lia.
Qed.

Lemma append_assoc (x y z : string) : (x +:+ y) +:+ z = x +:+ (y +:+ z).
Proof.
  induction x as [|c x IH]; [reflexivity|].
  change (String c ((x +:+ y) +:+ z) = String c (x +:+ (y +:+ z))).
  rewrite IH. reflexivity.
Qed.

Lemma shortPart_nil (label : string) (value : option string) :
  shortPart label value = [] <-> truthyString value = false.
Proof.
  destruct value as [[|c text]|]; simpl; split; auto; discriminate.
Qed.

Lemma plainPart_nil (label : string) (value : option string) :
  plainPart label value = [] <-> truthyString value = false.
Proof.
  destruct value as [[|c text]|]; simpl; split; auto; discriminate.
Qed.

Lemma countPart_nil (label : string) (value : option nat) :
  countPart label value = [] <-> value = None \/ value = Some 0%nat.
Proof.
  destruct value as [[|n]|]; simpl; split; auto; try discriminate.
  intros [Hn|Hn]; discriminate Hn.
Qed.

Lemma contextParts_nil (context : TransactionContext.t) :
  contextParts context = [] <-> blank context.
Proof.
  unfold contextParts, blank.
  repeat rewrite app_nil.
  repeat rewrite shortPart_nil. repeat rewrite plainPart_nil. rewrite countPart_nil.
  tauto.
Qed.

(** X19.  [formatContext] gives the empty string exactly when no field of
    the context is truthy (absent, empty, or a count of 0); otherwise its
    text opens with a bracket.  A context with a transaction id alone shows
    at most the id's first eight characters. *)
Theorem formatContext_blank (context : TransactionContext.t) :
  (formatContext context = EmptyString <-> blank context)
  /\ (~ blank context ->
      exists rest : string, formatContext context = "[" +:+ rest)
  /\ (forall id : string,
        id <> EmptyString ->
        context = {| TransactionContext.txId := Some id;
                     TransactionContext.signature := None;
                     TransactionContext.feePayer := None;
                     TransactionContext.instructionCount := None;
                     TransactionContext.blockhash := None;
                     TransactionContext.source := None;
                     TransactionContext.destination := None;
                     TransactionContext.amount := None;
                     TransactionContext.token := None;
                     TransactionContext.computeUnitsConsumed := None;
                     TransactionContext.associatedToken := None;
                     TransactionContext.owner := None |} ->
        formatContext context
        = "[txId=" +:+ String.substring 0 8 id +:+ "...]").
Proof.
  unfold formatContext. rewrite <- contextParts_nil.
  split; [|split].
  - destruct (contextParts context) as [|part parts]; [tauto|].
    simpl. split; discriminate.
  - intros Hparts. destruct (contextParts context) as [|part parts]; [contradiction|].
    simpl. eexists. reflexivity.
  - intros [|c id] Hid ->; [contradiction|]. unfold slice8.
    set (short := String.substring 0 8 (String c id)).
    change ("[" +:+ (("txId=" +:+ short +:+ "...") +:+ "]")
            = "[" +:+ ("txId=" +:+ (short +:+ ("..." +:+ "]")))).
    rewrite !append_assoc. reflexivity.
Qed.

End Logger.

(** ** What an account-creation signature vouches for *)

Section CreateAccountOutcome.
Context `{Web3}.

Lemma onCache_ok_inv {A : Type} (c : M Cache A) (w w' : World.t) (a : A) :
  onCache c w = (ok a, w') ->
  c (World.cache w) = (ok a, World.cache w')
  /\ World.transaction w' = World.transaction w.
Proof.
  unfold onCache. destruct (c (World.cache w)) as [r k].
  intros [= -> <-]. split; reflexivity.
Qed.

(** X20.  A signature of [createAccountIfTokenFeePaid] vouches for this: the
    transaction handed in had a valid envelope; the signed transaction's
    first token instruction is an accepted transfer; and the signed
    transaction, read back from its wire form, has two instructions, the
    second one equal to the reference instruction that creates, at the
    custody key's expense, the associated account derived from its owner
    and mint, an account the node did not know. *)
Theorem createAccountIfTokenFeePaid_vouches (connection : Connection)
    (feePayer : Keypair.t) (maxSignatures lamportsPerSignature : Z)
    (allowedTokens : list TokenFee.t) (sameSourceTimeout : option Z)
    (w0 w' : World.t) (primarySignature : string) :
  createAccountIfTokenFeePaid connection feePayer maxSignatures lamportsPerSignature
                              allowedTokens sameSourceTimeout w0
    = (ok primarySignature, w') ->
  validEnvelope (World.transaction w0) feePayer maxSignatures
  /\ (exists transfer : Transfer.t,
        acceptedTransfer connection (World.transaction w') allowedTokens transfer)
  /\ exists (transaction : Transaction.t) (instruction : TransactionInstruction)
            (ownerMeta mintMeta : AccountMeta) (associatedToken : PublicKey),
      reachesExistenceCheck (World.transaction w') transaction instruction
                            ownerMeta mintMeta associatedToken
      /\ getAccountInfo connection associatedToken = ok None
      /\ areInstructionsEqual
           (createAssociatedTokenAccountInstruction
              (Keypair.publicKey feePayer) associatedToken
              (pubkey ownerMeta) (pubkey mintMeta))
           instruction = true.
Proof.
  intros Hrun.
  apply createAccountIfTokenFeePaid_ok_inv in Hrun
    as (w3 & signed & transfer & simulated
        & (w1 & w2 & Hdup & Hsign & Hinit & Htransfer) & Hlock & _ & _).
  destruct (sourceLockout_cases "createAccount" transfer
              (default 5000 sameSourceTimeout) w3)
    as [E | (now & w & E & _ & Htx & _)]; rewrite E in Hlock; [discriminate|].
  injection Hlock as <-.
  apply onCache_ok_inv in Hinit as [Hinit Htx3].
  rewrite Htx, Htx3.
  split; [|split].
  - apply onTransaction_ok_inv in Hsign. destruct signed as [sig raw].
    apply validateTransaction_ok_inv in Hsign as [Hvalid _].
    rewrite (duplicateCheck_transaction _ _ Hdup) in Hvalid. exact Hvalid.
  - exists transfer. apply validateTransfer_ok_inv, Htransfer.
  - destruct (validateAccountInitializationInstructions_cases
                connection (World.transaction w2) feePayer (World.cache w2))
      as [(e & E') | (t & ix & o & m & a & Hreach & Hinfo & Hequal & _ & _)].
    + rewrite E' in Hinit. discriminate.
    + exists t, ix, o, m, a. auto.
Qed.

End CreateAccountOutcome.

(** ** More runs on the devnet *)

Section DevnetOutcomes.
Import Devnet.

Lemma run_pairing {A : Type} (run : result A * World.t) (a : A) :
  fst run = ok a -> run = (ok a, snd run).
Proof. destruct run as [r w]. cbn [fst snd]. intros ->. reflexivity. Qed.

(** The payment is signed: slot 0 gets the custody signature. *)
Lemma validateTransaction_returns_signed_witness :
  validateTransaction (H := web3) (node []) custody 2 5000 payment
    = (ok ("*", [Byte.x01]),
       transactionOf [{| signature := Some [Byte.x2a];
                         publicKey := Some (Keypair.publicKey custody) |};
                      signedBy alice] [transferInstruction])
  /\ validEnvelope payment custody 2.
Proof.
  assert (Hrun : validateTransaction (H := web3) (node []) custody 2 5000 payment
                 = (ok ("*", [Byte.x01]),
                    transactionOf [{| signature := Some [Byte.x2a];
                                      publicKey := Some (Keypair.publicKey custody) |};
                                   signedBy alice] [transferInstruction]))
    by reflexivity.
  split; [exact Hrun|].
  exact (proj1 (validateTransaction_returns_signed (H := web3) _ _ _ _ _ _ _ _ Hrun)).
Defined.

(** The owner's bytes do not verify: [serialize] throws, and the custody
    signature is on the transaction all the same. *)
Lemma validateTransaction_changes_only_by_signing_witness :
  fst (validateTransaction (H := web3Verifying) (node []) custody 2 5000 forged)
    = throw (Error "Signature verification failed")
  /\ Transaction_signature
       (snd (validateTransaction (H := web3Verifying) (node []) custody 2 5000 forged))
     = Some [Byte.x2a].
Proof.
  pose proof (validateTransaction_changes_only_by_signing (H := web3Verifying)
                (node []) custody 2 5000 forged) as Hsteps.
  cbv zeta in Hsteps. destruct Hsteps as [_ Hpass].
  destruct (Hpass eq_refl) as [_ Hthrow].
  rewrite (Hthrow (Error "Signature verification failed") eq_refl eq_refl).
  split; reflexivity.
Defined.

(** The same two instructions in either order. *)
Lemma validateInstructions_order_irrelevant_witness :
  validateInstructions (transactionOf [] [drain true false; transferInstruction]) custody
  = validateInstructions (transactionOf [] [transferInstruction; drain true false]) custody.
Proof.
  apply (proj1 (validateInstructions_order_irrelevant custody
                  (transactionOf [] [drain true false; transferInstruction]))
           (transactionOf [] [transferInstruction; drain true false])).
  apply Permutation_swap.
Defined.

(** [usdc] is listed twice, behind another mint: the first [usdc] entry,
    with its fee of 25, is the one that counts. *)
Lemma validateTransfer_first_matching_entry_witness :
  validateTransfer (H := web3) (node []) payment [otherFee; usdcFee; usdcCheap]
  = validateTransfer (H := web3) (node []) payment [usdcFee].
Proof.
  apply (validateTransfer_first_matching_entry (H := web3) (node []) payment
           transferInstruction (decodedTransfer 25)
           {| Account.owner := alice; Account.isFrozen := false;
              Account.amount := 100; Account.mint := usdc |}
           [otherFee] [usdcCheap] usdcFee).
  - reflexivity.
  - reflexivity.
  - reflexivity.
  - repeat constructor. discriminate.
  - reflexivity.
Defined.

(** The creation of Alice's associated account, validated twice. *)
Lemma validateAccountInitialization_second_is_duplicate_witness :
  let marked : Cache :=
    <[accountCacheKey (H := web3) accountCreation aliceAssociated := VBool true]> ∅ in
  validateAccountInitializationInstructions (H := web3) (node []) accountCreation custody ∅
    = (ok tt, marked)
  /\ validateAccountInitializationInstructions (H := web3) (node []) accountCreation
       custody marked
     = (throw (Error "duplicate account within same recent blockhash"), marked).
Proof.
  intros marked.
  assert (Hrun : validateAccountInitializationInstructions (H := web3) (node [])
                   accountCreation custody ∅ = (ok tt, marked)) by reflexivity.
  split; [exact Hrun|].
  exact (validateAccountInitialization_second_is_duplicate (H := web3) _ _ _ _ _ Hrun).
Defined.

(** A plain payment has one instruction: not an account creation. *)
Lemma validateAccountInitialization_shape_errors_witness :
  validateAccountInitializationInstructions (H := web3) (node []) payment custody ∅
  = (throw (Error "transaction should contain 2 instructions: fee payment, account init"),
     ∅).
Proof.
  apply (proj1 (validateAccountInitialization_shape_errors (H := web3) (node [])
                  payment payment custody ∅ [Byte.x01] eq_refl eq_refl)).
  discriminate.
Defined.

(** The node reports an error for the simulation. *)
Lemma simulateRawTransaction_returns_clean_response_witness :
  simulateRawTransaction (H := web3) failingNode [Byte.x01]
  = throw (Error "Simulation error").
Proof.
  apply (proj2 (simulateRawTransaction_returns_clean_response (H := web3)
                  failingNode [Byte.x01])
           payment
           {| err := Some "InsufficientFundsForFee"; unitsConsumed := None |});
    reflexivity.
Defined.

(** The payment goes through [signWithTokenFee]. *)
Lemma signWithTokenFee_returns_after_all_stages_witness :
  let run := signWithTokenFee (H := web3) (node []) custody 2 5000 allowedTokens None
               (worldOf payment ∅ 1000000) in
  fst run = ok "*"
  /\ exists (w2 : World.t) (signed : string * Buffer) (transfer : Transfer.t)
            (simulated : SimulatedTransactionResponse),
      signReachesLockout (H := web3) (node []) custody 2 5000 allowedTokens
                         (worldOf payment ∅ 1000000) w2 signed transfer
      /\ sourceLockout (H := web3) "transfer" transfer (default 5000 None) w2
         = (ok tt, snd run)
      /\ simulateRawTransaction (H := web3) (node []) (snd signed) = ok simulated
      /\ "*" = fst signed.
Proof.
  intros run.
  assert (Hfst : fst run = ok "*") by (vm_compute; reflexivity).
  split; [exact Hfst|].
  exact (signWithTokenFee_returns_after_all_stages (H := web3) _ _ _ _ _ _ _ _ _
           (run_pairing run "*" Hfst)).
Defined.

Lemma createAccountIfTokenFeePaid_returns_after_all_stages_witness :
  let run := createAccountIfTokenFeePaid (H := web3) (node []) custody 2 5000
               allowedTokens None (worldOf accountCreation ∅ 1000000) in
  fst run = ok "*"
  /\ exists (w3 : World.t) (signed : string * Buffer) (transfer : Transfer.t)
            (simulated : SimulatedTransactionResponse),
      createAccountReachesLockout (H := web3) (node []) custody 2 5000 allowedTokens
                                  (worldOf accountCreation ∅ 1000000) w3 signed transfer
      /\ sourceLockout (H := web3) "createAccount" transfer (default 5000 None) w3
         = (ok tt, snd run)
      /\ simulateRawTransaction (H := web3) (node []) (snd signed) = ok simulated
      /\ "*" = fst signed.
Proof.
  intros run.
  assert (Hfst : fst run = ok "*") by (vm_compute; reflexivity).
  split; [exact Hfst|].
  exact (createAccountIfTokenFeePaid_returns_after_all_stages (H := web3)
           _ _ _ _ _ _ _ _ _ (run_pairing run "*" Hfst)).
Defined.

Lemma signWithTokenFee_vouches_witness :
  let run := signWithTokenFee (H := web3) (node []) custody 2 5000 allowedTokens None
               (worldOf payment ∅ 1000000) in
  fst run = ok "*"
  /\ validEnvelope payment custody 2
  /\ exists transfer : Transfer.t,
      acceptedTransfer (H := web3) (node []) (World.transaction (snd run))
                       allowedTokens transfer.
Proof.
  intros run.
  assert (Hfst : fst run = ok "*") by (vm_compute; reflexivity).
  split; [exact Hfst|].
  pose proof (signWithTokenFee_vouches (H := web3) _ _ _ _ _ _ _ _ _
                (run_pairing run "*" Hfst)) as (Hvalid & _ & Haccepted).
  split; [exact Hvalid | exact Haccepted].
Defined.

Lemma createAccountIfTokenFeePaid_vouches_witness :
  let run := createAccountIfTokenFeePaid (H := web3) (node []) custody 2 5000
               allowedTokens None (worldOf accountCreation ∅ 1000000) in
  fst run = ok "*"
  /\ validEnvelope accountCreation custody 2.
Proof.
  intros run.
  assert (Hfst : fst run = ok "*") by (vm_compute; reflexivity).
  split; [exact Hfst|].
  exact (proj1 (createAccountIfTokenFeePaid_vouches (H := web3) _ _ _ _ _ _ _ _ _
                  (run_pairing run "*" Hfst))).
Defined.

(** The payment starts the cooldown of Alice's token account. *)
Lemma cooldown_starts_after_validation_witness :
  let w0 := worldOf payment ∅ 1000000 in
  let run := signWithTokenFee (H := web3) (node []) custody 2 5000 allowedTokens None w0 in
  World.cache (snd run) !! lastSignatureKey (H := web3) "transfer" aliceToken
    = Some (VNum 1000000)
  /\ exists (w2 : World.t) (signed : string * Buffer) (transfer : Transfer.t),
      signReachesLockout (H := web3) (node []) custody 2 5000 allowedTokens
                         w0 w2 signed transfer
      /\ fst (sourceLockout (H := web3) "transfer" transfer (default 5000 None) w2) = ok tt
      /\ lastSignatureKey (H := web3) "transfer" aliceToken
         = lastSignatureKey (H := web3) "transfer" (pubkey (Transfer.source transfer)).
Proof.
  intros w0 run.
  assert (Hafter : World.cache (snd run)
                     !! lastSignatureKey (H := web3) "transfer" aliceToken
                   = Some (VNum 1000000)) by (vm_compute; reflexivity).
  split; [exact Hafter|].
  apply (cooldown_starts_after_validation (H := web3) (node []) custody 2 5000
           allowedTokens None w0 aliceToken).
  fold run. rewrite Hafter. discriminate.
Defined.

(** A first transfer at 1000000, then the clock one tick on. *)
Lemma cooldown_refuses_then_reopens_witness :
  let w := worldOf payment ∅ 1000000 in
  let run := sourceLockout (H := web3) "transfer" (decodedTransfer 25) 5000 w in
  fst run = ok tt
  /\ sourceLockout (H := web3) "transfer" (decodedTransfer 25) 5000 (snd run)
     = (throw (Error "duplicate transfer"), World.tick (snd run)).
Proof.
  intros w run.
  assert (Hfst : fst run = ok tt) by (vm_compute; reflexivity).
  split; [exact Hfst|].
  destruct (cooldown_refuses_then_reopens (H := web3) "transfer" (decodedTransfer 25)
              (decodedTransfer 25) 5000 w (snd run) (run_pairing run tt Hfst) eq_refl)
    as (now & Hget & _ & Hrefuse & _).
  assert (Hnow : now = 1000000).
  { assert (Hstored : World.cache (snd run)
                        !! lastSignatureKey (H := web3) "transfer"
                             (pubkey (Transfer.source (decodedTransfer 25)))
                      = Some (VNum 1000000)) by (vm_compute; reflexivity).
    rewrite Hstored in Hget. injection Hget as <-. reflexivity. }
  subst now. apply Hrefuse; [discriminate | vm_compute; reflexivity].
Defined.

(** Alice's transfer does not touch the timestamp of the custody's account. *)
Lemma cooldown_is_per_source_witness :
  let w := worldOf payment ∅ 1000000 in
  World.cache (snd (sourceLockout (H := web3) "transfer" (decodedTransfer 25) 5000 w))
    !! lastSignatureKey (H := web3) "transfer" custodyToken
  = World.cache w !! lastSignatureKey (H := web3) "transfer" custodyToken.
Proof.
  intros w.
  apply (cooldown_is_per_source (H := web3) "transfer" (decodedTransfer 25) 5000 w
           custodyToken).
  vm_compute. discriminate.
Defined.

(** The default threshold, [info]. *)
Lemma shouldLog_thresholds_witness :
  TransactionLogger.shouldLog "info" "error" = true
  /\ TransactionLogger.shouldLog "info" "trace" = false.
Proof.
  assert (Hknown : "info" ∈ TransactionLogger.levels).
  { unfold TransactionLogger.levels. apply elem_of_cons. right.
    apply elem_of_cons. left. reflexivity. }
  destruct (shouldLog_thresholds "info" Hknown) as (Herror & Hunknown & _).
  split; [exact Herror|]. apply Hunknown.
  unfold TransactionLogger.levels. intros Hin.
  repeat (apply elem_of_cons in Hin as [Hin|Hin]; [discriminate Hin|]).
  inversion Hin.
Defined.

End DevnetOutcomes.

(** ** The transfer validator from its first line *)

Section LogContextFacts.
Context `{Web3} `{MessageCompiler}.

Lemma validateTransferWithContext_unfold (connection : Connection)
    (allowedTokens : list TokenFee.t) (transaction : Transaction.t) :
  validateTransferWithContext connection allowedTokens transaction
  = (validateTransfer connection (snd (extractTransactionContext transaction))
                      allowedTokens,
     snd (extractTransactionContext transaction)).
Proof. reflexivity. Qed.

(** Compiling touches the slots only. *)
Lemma extractTransactionContext_instructions (transaction : Transaction.t) :
  Transaction.instructions (snd (extractTransactionContext transaction))
  = Transaction.instructions transaction.
Proof.
  unfold extractTransactionContext, Transaction_compile. cbn [snd].
  destruct (signedKeys transaction) as [e|keys]; js_step; [reflexivity|].
  destruct (length (Transaction.signatures transaction) =? length keys)%nat;
    [destruct (everyEquals keys (Transaction.signatures transaction)) as [e|[]]|];
    reflexivity.
Qed.




Lemma everyEquals_same (keys : list PublicKey) (slots : list SignaturePubkeyPair) :
  map publicKey slots = map Some keys ->
  everyEquals keys slots = ok true.
Proof.
  revert keys. induction slots as [|slot rest IH]; intros [|key keys] Hslots;
    try discriminate Hslots; [reflexivity|].
  cbn [map] in Hslots. injection Hslots as Hkey Hrest.
  cbn [everyEquals]. js_step. rewrite Hkey. cbn [equalsU]. js_step.
  rewrite (proj2 (equals_eq key key) eq_refl). apply IH, Hrest.
Qed.

(** Slots that are, one for one, the keys that must sign are kept, with
    what they hold. *)
Lemma extractTransactionContext_keeps_compiled (transaction : Transaction.t)
    (keys : list PublicKey) :
  signedKeys transaction = ok keys ->
  map publicKey (Transaction.signatures transaction) = map Some keys ->
  snd (extractTransactionContext transaction) = transaction.
Proof.
  intros Hkeys Hslots. unfold extractTransactionContext, Transaction_compile. cbn [snd].
  rewrite Hkeys. js_step.
  assert (Hlen : length (Transaction.signatures transaction) = length keys).
  { rewrite <- (length_map publicKey), Hslots. apply length_map. }
  rewrite (proj2 (Nat.eqb_eq _ _) Hlen), (everyEquals_same _ _ Hslots). reflexivity.
Qed.

Lemma reachesOwnerCheck_instructions (connection : Connection)
    (transaction other : Transaction.t) (allowedTokens : list TokenFee.t)
    (tokenInstruction : TransactionInstruction) (instruction : Transfer.t)
    (token : TokenFee.t) :
  Transaction.instructions transaction = Transaction.instructions other ->
  reachesOwnerCheck connection transaction allowedTokens tokenInstruction instruction token ->
  reachesOwnerCheck connection other allowedTokens tokenInstruction instruction token.
Proof.
  unfold reachesOwnerCheck, reachesFeeCheck. intros ->. exact id.
Qed.



(** X4.  [validateTransfer], from its first line, returns a transfer exactly
    when that transfer is the decoding of the first token instruction and
    passes every check: source account present, owned by the authority, not
    frozen and funded; mint allow-listed; amount at least the fee; source no
    signer; destination the allow-listed account, writable and no signer;
    authority the key of the second signature slot that the log context
    leaves, a signer and not writable; and, for the checked form, the
    allow-listed decimals and mint, the mint neither writable nor a signer.
    The transaction is left as the log context leaves it. *)
Theorem validateTransferWithContext_accepts_exactly (connection : Connection)
    (transaction : Transaction.t) (allowedTokens : list TokenFee.t)
    (instruction : Transfer.t) :
  (fst (validateTransferWithContext connection allowedTokens transaction) = ok instruction
   <-> acceptedTransfer connection (snd (extractTransactionContext transaction))
                        allowedTokens instruction)
  /\ snd (validateTransferWithContext connection allowedTokens transaction)
     = snd (extractTransactionContext transaction).
Proof.
  rewrite validateTransferWithContext_unfold. cbn [fst snd].
  split; [apply validateTransfer_ok_iff | reflexivity].
Qed.

(** X7.  Of the transaction, [validateTransfer] from its first line reads the
    instructions and, of the slots that the log context leaves, the public
    key of the second one: two transactions that agree on these get the
    same result.  For transactions whose slots are, one for one, the keys
    their messages require, these are their own second slots, so that the
    result does not depend on whether the owner's slot carries signature
    bytes. *)
Theorem validateTransferWithContext_reads_owner_key_only (connection : Connection)
    (transaction other : Transaction.t) (allowedTokens : list TokenFee.t) :
  Transaction.instructions transaction = Transaction.instructions other ->
  (publicKey <$> (Transaction.signatures (snd (extractTransactionContext transaction))
                    !! 1%nat)
     = publicKey <$> (Transaction.signatures (snd (extractTransactionContext other))
                        !! 1%nat) ->
   fst (validateTransferWithContext connection allowedTokens transaction)
   = fst (validateTransferWithContext connection allowedTokens other))
  /\ (forall keys keys' : list PublicKey,
        signedKeys transaction = ok keys ->
        signedKeys other = ok keys' ->
        map publicKey (Transaction.signatures transaction) = map Some keys ->
        map publicKey (Transaction.signatures other) = map Some keys' ->
        publicKey <$> (Transaction.signatures transaction !! 1%nat)
          = publicKey <$> (Transaction.signatures other !! 1%nat) ->
        fst (validateTransferWithContext connection allowedTokens transaction)
        = fst (validateTransferWithContext connection allowedTokens other)).
Proof.
  intros Hix.
  assert (Hsame : Transaction.instructions (snd (extractTransactionContext transaction))
                  = Transaction.instructions (snd (extractTransactionContext other))).
  { rewrite !extractTransactionContext_instructions. exact Hix. }
  rewrite !validateTransferWithContext_unfold. cbn [fst].
  split.
  - intros Hslot. apply validateTransfer_same_on_second_key; assumption.
  - intros keys keys' Hkeys Hkeys' Hslots Hslots' Hslot.
    apply validateTransfer_same_on_second_key; [exact Hsame|].
    rewrite (extractTransactionContext_keeps_compiled _ _ Hkeys Hslots),
            (extractTransactionContext_keeps_compiled _ _ Hkeys' Hslots').
    exact Hslot.
Qed.

(** Two transactions with the same instructions part ways in the checks at
    the owner check at the earliest. *)
Lemma validateTransfer_slots_from_owner_check (connection : Connection)
    (transaction other : Transaction.t) (allowedTokens : list TokenFee.t) :
  Transaction.instructions transaction = Transaction.instructions other ->
  validateTransfer connection transaction allowedTokens
    = validateTransfer connection other allowedTokens
  \/ exists (tokenInstruction : TransactionInstruction) (instruction : Transfer.t)
            (token : TokenFee.t),
       reachesOwnerCheck connection transaction allowedTokens tokenInstruction
                         instruction token.
Proof.
  intros Hix. unfold validateTransfer, reachesOwnerCheck, reachesFeeCheck. rewrite <- Hix.
  destruct (List.find _ (Transaction.instructions transaction)) as [tokenInstruction|]
    eqn:Hfind; [|left; reflexivity].
  unfold validateTokenInstruction.
  destruct (decodeInstruction tokenInstruction) as [e|[decoded|]] eqn:Hdecode; js_step;
    try (left; reflexivity).
  destruct (getAccount connection (pubkey (Transfer.source decoded))) as [e|account]
    eqn:Haccount; js_step; [left; reflexivity|].
  destruct (equals (Account.owner account) (pubkey (Transfer.owner decoded))) eqn:Howner;
    js_step; [|left; reflexivity].
  destruct (Account.isFrozen account) eqn:Hfrozen; js_step; [left; reflexivity|].
  destruct (Account.amount account <? Transfer.amount decoded) eqn:Hfunds; js_step;
    [left; reflexivity|].
  destruct (List.find _ allowedTokens) as [token|] eqn:Htoken; [|left; reflexivity].
  destruct (Transfer.amount decoded <? TokenFee.fee token) eqn:Hfee; js_step;
    [left; reflexivity|].
  destruct (isSigner (Transfer.source decoded)) eqn:Hss; js_step; [left; reflexivity|].
  destruct (equals (pubkey (Transfer.destination decoded)) (TokenFee.account token))
    eqn:Hdest; js_step; [|left; reflexivity].
  destruct (isWritable (Transfer.destination decoded)) eqn:Hdw; js_step;
    [|left; reflexivity].
  destruct (isSigner (Transfer.destination decoded)) eqn:Hds; js_step;
    [left; reflexivity|].
  right. apply equals_eq in Howner, Hdest. apply Z.ltb_ge in Hfunds, Hfee.
  exists tokenInstruction, decoded, token.
  split.
  - split; [reflexivity|]. split; [exact Hdecode|].
    exists account. repeat split; assumption.
  - repeat split; assumption.
Qed.

(** X21.  The signature slots, and with them what the log context of the
    first line makes of them, bear on the result of [validateTransfer] at
    the owner check only: two transactions with the same instructions get
    the same result, unless every check before the owner's passes. *)
Theorem validateTransferWithContext_slots_from_owner_check (connection : Connection)
    (transaction other : Transaction.t) (allowedTokens : list TokenFee.t) :
  Transaction.instructions transaction = Transaction.instructions other ->
  fst (validateTransferWithContext connection allowedTokens transaction)
    = fst (validateTransferWithContext connection allowedTokens other)
  \/ exists (tokenInstruction : TransactionInstruction) (instruction : Transfer.t)
            (token : TokenFee.t),
       reachesOwnerCheck connection transaction allowedTokens tokenInstruction
                         instruction token
       /\ reachesOwnerCheck connection other allowedTokens tokenInstruction
                            instruction token.
Proof.
  intros Hix. rewrite !validateTransferWithContext_unfold. cbn [fst].
  destruct (validateTransfer_slots_from_owner_check connection
              (snd (extractTransactionContext transaction))
              (snd (extractTransactionContext other)) allowedTokens)
    as [Hsame | (tokenInstruction & instruction & token & Hreach)].
  - rewrite !extractTransactionContext_instructions. exact Hix.
  - left. exact Hsame.
  - right. exists tokenInstruction, instruction, token.
    assert (Hhere : reachesOwnerCheck connection transaction allowedTokens
                      tokenInstruction instruction token).
    { eapply reachesOwnerCheck_instructions; [|exact Hreach].
      apply extractTransactionContext_instructions. }
    split; [exact Hhere|].
    eapply reachesOwnerCheck_instructions; [exact Hix | exact Hhere].
Qed.

End LogContextFacts.

(** ** The first line, on the devnet *)

Section DevnetLogContext.
Import Devnet.





(** The payment with the custody slot alone is validated as the usual one is:
    after the log context both have Alice's key in the second slot. *)
Lemma validateTransferWithContext_reads_owner_key_only_witness :
  fst (validateTransferWithContext (H := web3) (H0 := compiler) (node []) allowedTokens
         paymentAlone)
  = fst (validateTransferWithContext (H := web3) (H0 := compiler) (node []) allowedTokens
           payment)
  /\ fst (validateTransferWithContext (H := web3) (H0 := compiler) (node []) allowedTokens
            payment)
     = fst (validateTransferWithContext (H := web3) (H0 := compiler) (node [])
              allowedTokens paymentOwnerUnsigned).
Proof.
  split.
  - apply (proj1 (validateTransferWithContext_reads_owner_key_only (H := web3)
                    (H0 := compiler) (node []) paymentAlone payment allowedTokens
                    eq_refl)).
    reflexivity.
  - apply (proj2 (validateTransferWithContext_reads_owner_key_only (H := web3)
                    (H0 := compiler) (node []) payment paymentOwnerUnsigned allowedTokens
                    eq_refl)
             [Keypair.publicKey custody; alice] [Keypair.publicKey custody; alice]);
      reflexivity.
Defined.

(** A transfer one short of the fee is refused alike with two slots, with
    none, and without a blockhash. *)
Lemma validateTransferWithContext_slots_from_owner_check_witness :
  let short := transactionOf [unsigned (Keypair.publicKey custody); signedBy alice]
                             [transferOf Byte.x18] in
  let bare := {| Transaction.signatures := [];
                 Transaction.feePayer := None;
                 Transaction.instructions := [transferOf Byte.x18];
                 Transaction.recentBlockhash := None |} in
  fst (validateTransferWithContext (H := web3) (H0 := compiler) (node []) allowedTokens
         short)
  = throw (Error "invalid amount")
  /\ fst (validateTransferWithContext (H := web3) (H0 := compiler) (node []) allowedTokens
            bare)
     = throw (Error "invalid amount").
Proof.
  intros short bare.
  assert (Hshort : fst (validateTransferWithContext (H := web3) (H0 := compiler) (node [])
                          allowedTokens short)
                   = throw (Error "invalid amount")) by reflexivity.
  split; [exact Hshort|].
  destruct (validateTransferWithContext_slots_from_owner_check (H := web3)
              (H0 := compiler) (node []) short bare allowedTokens eq_refl)
    as [Hsame | (ix & instruction & token & Hreach & _)].
  - rewrite <- Hsame. exact Hshort.
  - destruct Hreach as ((Hfind & Hdecode & account & Haccount & _ & _ & _ & Htoken)
                         & Hfee & _).
    vm_compute in Hfind. injection Hfind as <-.
    vm_compute in Hdecode. injection Hdecode as <-.
    vm_compute in Haccount. injection Haccount as <-.
    vm_compute in Htoken. injection Htoken as <-.
    vm_compute in Hfee. exfalso. apply Hfee. reflexivity.
Defined.

End DevnetLogContext.
